(** * LegaLese backend ([app.py]): a shallow embedding and its properties

    The embedding follows [app.py] function by function.  Python values that
    come out of JSON decoding are the type [json]; a [str] is the list of its
    code points; [bytes] is a list of bytes.  Exceptions are values of type
    [exn] carried by [result]; the calls that leave the process (the
    text-generation HTTP endpoint, the OCR client, the identity provider,
    standard output) are recorded in a trace that every effectful function
    threads, and what those collaborators answer is supplied by a record of
    [Services]. *)

From Stdlib Require Import ZArith NArith List String Ascii Strings.Byte Lia.
From Stdlib Require Import Floats.PrimFloat.
From stdpp Require Import base option list gmap pretty.

Set Warnings "-register-all".
Open Scope string_scope.
Open Scope list_scope.

(** ** Python [str] *)

(** A [str] is a sequence of Unicode code points. *)
Abbreviation str := (list N).

(** A literal of the source, written as a Rocq string of ASCII characters. *)
Definition lit (s : string) : str :=
  map N_of_ascii (list_ascii_of_string s).

Definition nl : N := 10%N.          (* the escape \n *)
Definition dquote : N := 34%N.      (* a double quote inside a literal *)
Definition quoted (s : string) : str := dquote :: lit s ++ [dquote].

Arguments lit : simpl never.
Arguments quoted : simpl never.

(** [s.startswith(prefix)] *)
Fixpoint startswith (s prefix : str) {struct prefix} : bool :=
  match prefix, s with
  | [], _ => true
  | p :: prefix', c :: s' => (p =? c)%N && startswith s' prefix'
  | _ :: _, [] => false
  end.

(** [sub in s] on two strings: [sub] occurs in [s] as a contiguous run. *)
Fixpoint contains (s sub : str) : bool :=
  startswith s sub ||
  match s with
  | [] => false
  | _ :: s' => contains s' sub
  end.

(** [s.replace(old, new)] for a non-empty [old]: the occurrences of [old] are
    found from the left, without overlap; [skip] counts the characters of the
    occurrence just matched that are still to be passed over. *)
Fixpoint replace_from (old new : str) (skip : nat) (s : str) : str :=
  match s with
  | [] => []
  | c :: s' =>
      match skip with
      | S k => replace_from old new k s'
      | O =>
          if startswith s old
          then new ++ replace_from old new (length old - 1) s'
          else c :: replace_from old new 0 s'
      end
  end.

(** [s.replace(old, new)]; with an empty [old] Python puts [new] before every
    character and at the end. *)
Definition replace (s old new : str) : str :=
  match old with
  | [] => new ++ flat_map (fun c => c :: new) s
  | _ :: _ => replace_from old new 0 s
  end.

(** The code points for which [str.isspace] holds; [str.strip()] removes
    exactly these. *)
Definition isspace (c : N) : bool :=
  ((9 <=? c) && (c <=? 13) || (28 <=? c) && (c <=? 32)
   || (c =? 133) || (c =? 160) || (c =? 5760)
   || (8192 <=? c) && (c <=? 8202)
   || (c =? 8232) || (c =? 8233) || (c =? 8239) || (c =? 8287)
   || (c =? 12288))%N.

Fixpoint lstrip (s : str) : str :=
  match s with
  | [] => []
  | c :: s' => if isspace c then lstrip s' else s
  end.

Definition rstrip (s : str) : str := rev (lstrip (rev s)).

(** [s.strip()] *)
Definition strip (s : str) : str := rstrip (lstrip s).

(** [sep.join(parts)] *)
Fixpoint join (sep : str) (parts : list str) : str :=
  match parts with
  | [] => []
  | [p] => p
  | p :: rest => p ++ sep ++ join sep rest
  end.

(** [str(n)] of an [int]: its decimal numeral. *)
Definition str_of_int (z : Z) : str := lit (pretty z).

(** ** Python values *)

(** The values JSON decoding produces: [None], [bool], [int], [float], [str],
    [list] and [dict] with [str] keys. *)
Inductive json : Type :=
| JNull
| JBool (b : bool)
| JInt (z : Z)
| JFloat (f : float)
| JStr (s : str)
| JArr (l : list json)
| JObj (m : gmap str json).

(** A dictionary display [{k1: v1, ...}]. *)
Definition dict (kvs : list (string * json)) : json :=
  JObj (list_to_map (map (fun kv => (lit (fst kv), snd kv)) kvs)).

(** Truth value of an object, as [not x], [if x] and [or] test it. *)
Definition truthy (v : json) : bool :=
  match v with
  | JNull => false
  | JBool b => b
  | JInt z => negb (z =? 0)%Z
  | JFloat f => negb (PrimFloat.eqb f 0%float)
  | JStr s => negb (bool_decide (s = []))
  | JArr l => match l with [] => false | _ :: _ => true end
  | JObj m => negb (bool_decide (m = ∅))
  end.

(** ** Exceptions *)

(** The classes the handlers of [app.py] tell apart, and [OtherError] for the
    classes of the libraries (HTTP client, identity provider, OCR client,
    web framework), named by their class name.  All of them derive from
    [Exception]. *)
Inductive exn_class : Type :=
| Exception
| JSONDecodeError
| UnicodeDecodeError
| KeyError
| IndexError
| TypeError
| AttributeError
| OtherError (name : str).

Global Instance exn_class_eq_dec : EqDecision exn_class.
Proof. solve_decision. Defined.

(** An exception object: its class, what [str(e)] (and [{e}] in an f-string)
    yields, and its [code] attribute when it has one. *)
Record exn : Type := mkExn {
  exn_cls : exn_class;
  exn_str : str;
  exn_code : option json
}.

(** [Exception(msg)] *)
Definition mkException (msg : str) : exn :=
  {| exn_cls := Exception; exn_str := msg; exn_code := None |}.

(** Does [except cls] catch [e]?  [Exception] is the base of every class. *)
Definition isinstance (e : exn) (cls : exn_class) : bool :=
  match cls with
  | Exception => true
  | _ => bool_decide (exn_cls e = cls)
  end.

Inductive result (A : Type) : Type :=
| Return (a : A)
| Raise (e : exn).
Arguments Return {A} a.
Arguments Raise {A} e.

(** ** The world outside the process *)

Abbreviation bytes := (list Byte.byte).

(** What [requests.post] hands back: [status_code], [text], and what the
    method [json()] does, which returns the decoded body or raises. *)
Record http_response : Type := {
  status_code : Z;
  text : str;
  json_method : result json
}.

(** The annotation the OCR client returns, reduced to the two fields read:
    [response.error.message] and [response.full_text_annotation.text]. *)
Record vision_response : Type := {
  error_message : str;
  full_text_annotation_text : str
}.

(** The record [auth.create_user] returns, reduced to [uid]. *)
Record user_record : Type := { uid : str }.

(** One entry of the trace per effect that leaves the process. *)
Inductive event : Type :=
| HttpPost (url : str) (headers data : json)
| VisionDocumentTextDetection (content : bytes)
| AuthCreateUser (email password : json)
| Stdout (line : str).

Abbreviation trace := (list event).

(** The collaborators of [app.py] and the parts of the Python runtime that
    are left open.  A remote service is given the trace so far, so its
    answer may differ from one call to the next. *)
Record Services : Type := {
  (** the module-level [API_KEY], read from the environment at start-up *)
  API_KEY : str;
  (** [json.loads] *)
  json_loads : str -> result json;
  (** [bytes.decode('utf-8')]; [None] stands for [UnicodeDecodeError] *)
  decode_utf8 : bytes -> option str;
  (** [docx.Document(io.BytesIO(content))] and the [text] of each of its
      [paragraphs] *)
  docx_paragraphs : bytes -> result (list str);
  (** [vision.ImageAnnotatorClient().document_text_detection(image=...)] *)
  document_text_detection : trace -> bytes -> result vision_response;
  (** [requests.post(url, headers=headers, json=data)] *)
  requests_post : trace -> str -> json -> json -> result http_response;
  (** [auth.create_user(email=..., password=...)] *)
  create_user : trace -> json -> json -> result user_record;
  (** [str(v)] of a value that is not a [str] *)
  str_of_value : json -> str;
  (** the text of an exception the interpreter itself raises, from its
      class, the object operated on and the key or attribute asked for *)
  runtime_error_text : exn_class -> json -> str -> str
}.

(** ** Effectful code: a trace and an exception *)

Definition M (A : Type) : Type := trace -> result A * trace.

Global Instance M_ret : MRet M := fun A a w => (Return a, w).

Global Instance M_bind : MBind M := fun A B f m w =>
  match m w with
  | (Return a, w') => f a w'
  | (Raise e, w') => (Raise e, w')
  end.

(** [raise e] *)
Definition raise {A : Type} (e : exn) : M A := fun w => (Raise e, w).

(** A computation that touches nothing outside. *)
Definition lift {A : Type} (r : result A) : M A := fun w => (r, w).

(** [try: body  except cls as e: handler e] *)
Definition try_except {A : Type} (body : M A) (cls : exn_class)
    (handler : exn -> M A) : M A := fun w =>
  match body w with
  | (Return a, w') => (Return a, w')
  | (Raise e, w') => if isinstance e cls then handler e w' else (Raise e, w')
  end.

(** A call that leaves the process: it is logged, and answered from the trace
    before it. *)
Definition external {A : Type} (ev : event) (answer : trace -> result A) : M A :=
  fun w => (answer w, w ++ [ev]).

(** [print(line)] *)
Definition print (line : str) : M unit := fun w => (Return tt, w ++ [Stdout line]).

(** The events a computation adds to the trace it starts from. *)
Definition emitted {A : Type} (m : M A) (w : trace) : trace :=
  drop (length w) (snd (m w)).

(** ** The program *)

Record FileStorage : Type := {
  filename : str;
  read : bytes;
  mimetype : str
}.

(** An incoming request: the multipart files by field name, and what
    [request.get_json()] does. *)
Record Request : Type := {
  files : gmap str FileStorage;
  get_json : result json
}.

(** What a view returns: the body given to [jsonify] and the status code. *)
Record Response : Type := {
  body : json;
  status : Z
}.

(** [body[key]] of a response whose body is a JSON object. *)
Definition body_field (r : Response) (key : string) : option json :=
  match body r with
  | JObj m => m !! lit key
  | _ => None
  end.

(** [return jsonify(body), status] *)
Definition respond (b : json) (st : Z) : M Response :=
  mret {| body := b; status := st |}.

(** [v == s] for a string literal [s]. *)
Definition eq_str (v : json) (s : str) : bool :=
  match v with
  | JStr s' => bool_decide (s' = s)
  | _ => false
  end.

Section App.

Variable svc : Services.

(** An exception raised by the interpreter rather than by a [raise] of the
    source. *)
Definition runtime_error (cls : exn_class) (obj : json) (name : str) : exn :=
  {| exn_cls := cls; exn_str := runtime_error_text svc cls obj name;
     exn_code := None |}.

(** [{v}] in an f-string. *)
Definition format (v : json) : str :=
  match v with
  | JStr s => s
  | _ => str_of_value svc v
  end.

(** [key in obj] for a string [key]: a key of a [dict], an element of a
    [list], a substring of a [str]; any other operand is not a container. *)
Definition py_in (key : str) (obj : json) : result bool :=
  match obj with
  | JObj m => Return (bool_decide (is_Some (m !! key)))
  | JArr l => Return (existsb (fun x => eq_str x key) l)
  | JStr s => Return (contains s key)
  | _ => Raise (runtime_error TypeError obj key)
  end.

(** [obj[key]] for a string [key]. *)
Definition getitem (obj : json) (key : str) : result json :=
  match obj with
  | JObj m =>
      match m !! key with
      | Some v => Return v
      | None => Raise (runtime_error KeyError obj key)
      end
  | _ => Raise (runtime_error TypeError obj key)
  end.

(** [obj[0]]: the first element of a [list], the first character of a [str];
    a [dict] decoded from JSON has no key [0]. *)
Definition getitem0 (obj : json) : result json :=
  match obj with
  | JArr (x :: _) => Return x
  | JArr [] => Raise (runtime_error IndexError obj (lit "0"))
  | JStr (c :: _) => Return (JStr [c])
  | JStr [] => Raise (runtime_error IndexError obj (lit "0"))
  | JObj _ => Raise (runtime_error KeyError obj (lit "0"))
  | _ => Raise (runtime_error TypeError obj (lit "0"))
  end.

(** [obj.get(key)]: only a [dict] has the method. *)
Definition py_get (obj : json) (key : str) : result json :=
  match obj with
  | JObj m => Return (default JNull (m !! key))
  | _ => Raise (runtime_error AttributeError obj (lit "get"))
  end.

(** *** [get_text_from_file] *)

Definition get_text_from_file (file_content : bytes) (mime_type : str) : M str :=
  if bool_decide (file_content = [])
  then raise (mkException (lit "The uploaded file is empty."))
  else if contains mime_type (lit "wordprocessingml.document")
  then
    try_except
      (paragraphs ← lift (docx_paragraphs svc file_content);
       mret (join [nl] paragraphs))
      Exception
      (fun e => raise (mkException (lit "Error reading .docx file: " ++ exn_str e)))
  else if startswith mime_type (lit "application/pdf")
          || startswith mime_type (lit "image/")
  then
    response ← external (VisionDocumentTextDetection file_content)
                 (fun w => document_text_detection svc w file_content);
    if negb (bool_decide (error_message response = []))
    then raise (mkException (lit "Vision AI Error: " ++ error_message response))
    else mret (full_text_annotation_text response)
  else if startswith mime_type (lit "text/")
  then
    match decode_utf8 svc file_content with
    | Some t => mret t
    | None => raise (mkException (lit "Could not read text file."))
    end
  else raise (mkException (lit "Unsupported file type: " ++ mime_type ++ lit ".")).

(** *** [call_gemini_api] *)

Definition model_name : str := lit "gemini-1.5-flash-latest".

Definition gemini_url : str :=
  lit "https://generativelanguage.googleapis.com/v1beta/models/"
  ++ model_name ++ lit ":generateContent?key=" ++ API_KEY svc.

Definition gemini_headers : json :=
  dict [("Content-Type", JStr (lit "application/json"))].

Definition gemini_data (prompt : str) : json :=
  dict [("contents", JArr [dict [("parts", JArr [dict [("text", JStr prompt)]])]])].

Definition call_gemini_api (prompt : str) : M json :=
  let url := gemini_url in
  let headers := gemini_headers in
  let data := gemini_data prompt in
  response ← external (HttpPost url headers data)
               (fun w => requests_post svc w url headers data);
  if negb (status_code response =? 200)%Z
  then raise (mkException (lit "Google API Error: "
                           ++ str_of_int (status_code response)
                           ++ lit " " ++ text response))
  else
    response_json ← lift (json_method response);
    candidates ← lift (py_get response_json (lit "candidates"));
    if negb (truthy candidates)
    then raise (mkException
                  (lit "API returned no candidates. The prompt may have been blocked."))
    else
      candidates ← lift (getitem response_json (lit "candidates"));
      candidate ← lift (getitem0 candidates);
      content ← lift (getitem candidate (lit "content"));
      parts ← lift (getitem content (lit "parts"));
      part ← lift (getitem0 parts);
      lift (getitem part (lit "text")).

(** *** The four prompts

    Each is the f-string bound to [prompt] in its function. *)

Definition analyze_prompt (document_text : json) : str :=
  lit "Analyze the following legal document and provide a structured JSON analysis with keys "
  ++ quoted "fairnessScore" ++ lit ", " ++ quoted "summary" ++ lit ", and "
  ++ quoted "riskRadar" ++ lit ". The riskRadar should be an array of objects, each with "
  ++ quoted "level" ++ lit ", " ++ quoted "title" ++ lit ", and "
  ++ quoted "explanation" ++ lit "." ++ [nl; nl] ++ lit "DOCUMENT:" ++ [nl]
  ++ format document_text.

Definition reformat_prompt (document_text : json) : str :=
  lit "Reformat the following text for maximum readability, applying proper paragraphs and structure. Do not change the wording. Return only the formatted text."
  ++ [nl; nl] ++ lit "DOCUMENT:" ++ [nl] ++ format document_text.

Definition simplify_prompt (document_text : json) : str :=
  lit "Rewrite the following document in plain, easy-to-understand language. Maintain the original structure. Return only the simplified text."
  ++ [nl; nl] ++ lit "DOCUMENT:" ++ [nl] ++ format document_text.

Definition chat_prompt (document_text question : json) : str :=
  lit "Based ONLY on the document text provided, answer the user's question concisely."
  ++ [nl; nl] ++ lit "DOCUMENT:" ++ [nl] ++ format document_text
  ++ [nl; nl] ++ lit "QUESTION:" ++ [nl] ++ format question.

(** *** [analyze_document_with_gemini] *)

(** The value returned when the response does not decode. *)
Definition fallback_analysis : json :=
  dict [("fairnessScore", JInt 0);
        ("summary", JStr (lit "Could not analyze."));
        ("riskRadar", JArr [])].

(** [response_text.replace("```json", "").replace("```", "").strip()] *)
Definition cleaned_text (response_text : str) : str :=
  strip (replace (replace response_text (lit "```json") []) (lit "```") []).

(** Lines 102 to 107: what [analyze_document_with_gemini] does with the
    response text once the generation call has returned it.  Only a [str]
    has the method [replace]. *)
Definition interpret_response (response_text : json) : M json :=
  match response_text with
  | JStr s =>
      let cleaned := cleaned_text s in
      try_except
        (analysis_data ← lift (json_loads svc cleaned);
         mret analysis_data)
        JSONDecodeError
        (fun _ => mret fallback_analysis)
  | _ => raise (runtime_error AttributeError response_text (lit "replace"))
  end.

Definition analyze_document_with_gemini (document_text : json) : M json :=
  let prompt := analyze_prompt document_text in
  response_text ← call_gemini_api prompt;
  interpret_response response_text.

Definition reformat_document_with_gemini (document_text : json) : M json :=
  let prompt := reformat_prompt document_text in
  call_gemini_api prompt.

Definition simplify_document_with_gemini (document_text : json) : M json :=
  let prompt := simplify_prompt document_text in
  call_gemini_api prompt.

Definition answer_chat_question (document_text question : json) : M json :=
  let prompt := chat_prompt document_text question in
  call_gemini_api prompt.

(** *** The views *)

Definition analyze_endpoint (request : Request) : M Response :=
  try_except
    (match files request !! lit "file" with
     | None => respond (dict [("error", JStr (lit "No file part"))]) 400
     | Some file =>
         if bool_decide (filename file = [])
         then respond (dict [("error", JStr (lit "No file selected"))]) 400
         else
           raw_text ← get_text_from_file (read file) (mimetype file);
           formatted_text ← reformat_document_with_gemini (JStr raw_text);
           analysis_data ← analyze_document_with_gemini formatted_text;
           respond (dict [("analysis", analysis_data);
                          ("fullText", formatted_text)]) 200
     end)
    Exception
    (fun e =>
       _ ← print (lit "!!! ERROR in /analyze: " ++ exn_str e);
       respond (dict [("error", JStr (exn_str e))]) 500).

(** [not data or key not in data]: [or] does not evaluate its right operand
    when the left one is true. *)
Definition missing (data : json) (key : str) : result bool :=
  if negb (truthy data) then Return true
  else match py_in key data with
       | Return b => Return (negb b)
       | Raise e => Raise e
       end.

Definition simplify_endpoint (request : Request) : M Response :=
  try_except
    (data ← lift (get_json request);
     absent ← lift (missing data (lit "documentText"));
     if (absent : bool)
     then respond (dict [("error", JStr (lit "Missing document text"))]) 400
     else
       document_text ← lift (getitem data (lit "documentText"));
       simplified_text ← simplify_document_with_gemini document_text;
       respond (dict [("simplifiedText", simplified_text)]) 200)
    Exception
    (fun e =>
       _ ← print (lit "!!! ERROR in /simplify: " ++ exn_str e);
       respond (dict [("error", JStr (lit "Could not simplify the document."))]) 500).

Definition chat_endpoint (request : Request) : M Response :=
  try_except
    (data ← lift (get_json request);
     absent ← lift (match missing data (lit "question") with
                    | Return true => Return true
                    | Return false =>
                        match py_in (lit "documentText") data with
                        | Return b => Return (negb b)
                        | Raise e => Raise e
                        end
                    | Raise e => Raise e
                    end);
     if (absent : bool)
     then respond (dict [("error", JStr (lit "Missing data"))]) 400
     else
       document_text ← lift (getitem data (lit "documentText"));
       question ← lift (getitem data (lit "question"));
       answer ← answer_chat_question document_text question;
       respond (dict [("answer", answer)]) 200)
    Exception
    (fun e =>
       _ ← print (lit "!!! ERROR in /chat: " ++ exn_str e);
       respond (dict [("error", JStr (lit "Could not process question."))]) 500).

(** The message [signup] chooses for an exception: the default, replaced when
    the exception has a [code] equal to one of the two known ones. *)
Definition signup_error_message (e : exn) : str :=
  match exn_code e with
  | Some code =>
      if eq_str code (lit "EMAIL_EXISTS")
      then lit "The email address is already in use."
      else if eq_str code (lit "WEAK_PASSWORD")
      then lit "Password should be at least 6 characters."
      else lit "An unknown error occurred."
  | None => lit "An unknown error occurred."
  end.

(** Line 166 of the source reads [auth..create_user(email=email,
    password=password)], with two dots, which is not Python.  The view is
    embedded with the call that line is after, [auth.create_user(...)]. *)
Definition signup (request : Request) : M Response :=
  try_except
    (data ← lift (get_json request);
     email ← lift (py_get data (lit "email"));
     password ← lift (py_get data (lit "password"));
     if negb (truthy email) || negb (truthy password)
     then respond (dict [("error", JStr (lit "Email and password are required"))]) 400
     else
       user ← external (AuthCreateUser email password)
                (fun w => create_user svc w email password);
       respond (dict [("uid", JStr (uid user))]) 201)
    Exception
    (fun e =>
       _ ← print (lit "!!! ERROR in /signup: " ++ exn_str e);
       respond (dict [("error", JStr (signup_error_message e))]) 400).

End App.

(** ** What deleting the occurrences of a marker means

    [deleted old s s']: [s'] is [s] with the occurrences of [old] taken out
    as Python's [str.replace] finds them, from the left and without
    overlap.  Either [old] does not occur in [s], which is then left as it
    is; or [s] is [a ++ old ++ rest], where no occurrence of [old] starts
    inside [a] (so this is the leftmost one), and [s'] is [a] followed by
    [rest] with its occurrences taken out in the same way. *)
Inductive deleted (old : str) : str -> str -> Prop :=
| deleted_absent (s : str) :
    contains s old = false -> deleted old s s
| deleted_leftmost (a rest rest' : str) :
    (forall i, i < length a ->
               startswith (drop i (a ++ old ++ rest)) old = false) ->
    deleted old rest rest' ->
    deleted old (a ++ old ++ rest) (a ++ rest').

(** ** The layout of a generation response

    The text of the first content part of a candidate, for a candidate laid
    out as the generation service documents it:
    [{"content": {"parts": [{"text": ...}, ...]}}]. *)
Definition first_part_text (candidate : json) : option json :=
  match candidate with
  | JObj c =>
      match c !! lit "content" with
      | Some (JObj content) =>
          match content !! lit "parts" with
          | Some (JArr (JObj part :: _)) => part !! lit "text"
          | _ => None
          end
      | _ => None
      end
  | _ => None
  end.

Definition no_candidates : exn :=
  mkException (lit "API returned no candidates. The prompt may have been blocked.").

(** The exception [call_gemini_api] raises on a status code other than 200. *)
Definition google_api_error (response : http_response) : exn :=
  mkException (lit "Google API Error: " ++ str_of_int (status_code response)
               ++ lit " " ++ text response).

(** The bodies the simplify and chat views answer with when anything in them
    raises. *)
Definition simplify_failed : json :=
  dict [("error", JStr (lit "Could not simplify the document."))].

Definition chat_failed : json :=
  dict [("error", JStr (lit "Could not process question."))].

(** ** Start-up configuration (lines 12 to 62)

    The module-level code that runs once when [app.py] is loaded.  It reads
    the process environment, writes one file and one environment variable,
    prints its progress and initialises the identity provider's SDK. *)

(** A [credentials.Certificate], known by what it was built from. *)
Inductive certificate : Type :=
| CertificateOfDict (d : json)
| CertificateOfFile (path : str).

(** The part of the host the start-up code reads and writes: [os.environ],
    the files it has written (path to content), the lines printed, and the
    apps registered in [firebase_admin._apps]. *)
Record Host : Type := {
  environ : gmap str str;
  written : gmap str str;
  printed : list str;
  firebase_apps : list certificate
}.

(** What can go wrong outside the start-up code; [None] is success. *)
Record Platform : Type := {
  (** [credentials.Certificate(...)] *)
  certificate_error : certificate -> option exn;
  (** [firebase_admin.initialize_app(cred)] *)
  initialize_app_error : certificate -> option exn;
  (** [open(path, "w")] *)
  open_error : str -> option exn;
  (** [f.write(content)] on the file opened at [path] *)
  write_error : str -> str -> option exn
}.

(** The two module-level names the views read. *)
Record Config : Type := {
  config_API_KEY : str;
  config_PROJECT_ID : str
}.

Definition Boot (A : Type) : Type := Host -> result A * Host.

Global Instance Boot_ret : MRet Boot := fun A a h => (Return a, h).

Global Instance Boot_bind : MBind Boot := fun A B f m h =>
  match m h with
  | (Return a, h') => f a h'
  | (Raise e, h') => (Raise e, h')
  end.

(** [try: body  except Exception as e: handler e] *)
Definition boot_try {A : Type} (body : Boot A) (handler : exn -> Boot A) : Boot A :=
  fun h =>
    match body h with
    | (Return a, h') => (Return a, h')
    | (Raise e, h') => handler e h'
    end.

(** A step that may raise and leaves the host as it is. *)
Definition boot_check (failure : option exn) : Boot unit := fun h =>
  match failure with
  | None => (Return tt, h)
  | Some e => (Raise e, h)
  end.

(** [print(line)] *)
Definition boot_print (line : str) : Boot unit := fun h =>
  (Return tt,
   {| environ := environ h; written := written h;
      printed := printed h ++ [line]; firebase_apps := firebase_apps h |}).

(** [os.getenv(name)] *)
Definition getenv (name : str) : Boot (option str) := fun h =>
  (Return (environ h !! name), h).

(** [os.environ[name] = value] *)
Definition setenv (name value : str) : Boot unit := fun h =>
  (Return tt,
   {| environ := <[name := value]> (environ h); written := written h;
      printed := printed h; firebase_apps := firebase_apps h |}).

(** The file at [path] now holds [content]. *)
Definition store (path content : str) : Boot unit := fun h =>
  (Return tt,
   {| environ := environ h; written := <[path := content]> (written h);
      printed := printed h; firebase_apps := firebase_apps h |}).

(** [firebase_admin._apps] gains the app built on [cred]. *)
Definition register_app (cred : certificate) : Boot unit := fun h =>
  (Return tt,
   {| environ := environ h; written := written h;
      printed := printed h; firebase_apps := firebase_apps h ++ [cred] |}).

(** [if value:] on what [os.getenv] returned: set and not empty. *)
Definition is_set (value : option str) : bool :=
  match value with
  | Some (_ :: _) => true
  | _ => false
  end.

Section Startup.

Variable svc : Services.
Variable platform : Platform.

(** The literal of line 56 is a working credential; it is not repeated here
    and stands as a parameter. *)
Variable fallback_api_key : str.

(** [credentials.Certificate(source)] *)
Definition new_certificate (cred : certificate) : Boot certificate :=
  _ ← boot_check (certificate_error platform cred);
  mret cred.

(** [with open(path, "w") as f: f.write(content)]: opening truncates the
    file, writing fills it. *)
Definition write_file (path content : str) : Boot unit :=
  _ ← boot_check (open_error platform path);
  _ ← store path [];
  _ ← boot_check (write_error platform path content);
  store path content.

(** Lines 16 to 31. *)
Definition setup_firebase : Boot unit :=
  boot_try
    (_ ← boot_print (lit "Attempting to load Firebase credentials...");
     firebase_creds_json_str ← getenv (lit "FIREBASE_CREDENTIALS_JSON");
     cred ← (if is_set firebase_creds_json_str
             then
               _ ← boot_print (lit "SUCCESS: Found FIREBASE_CREDENTIALS_JSON environment variable.");
               firebase_creds_dict ←
                 (fun h => (json_loads svc (default [] firebase_creds_json_str), h));
               new_certificate (CertificateOfDict firebase_creds_dict)
             else
               _ ← boot_print (lit "INFO: FIREBASE_CREDENTIALS_JSON env var not found. Trying local file 'firebase-admin-credentials.json'...");
               new_certificate (CertificateOfFile (lit "firebase-admin-credentials.json")));
     apps ← (fun h => (Return (firebase_apps h), h));
     _ ← (match apps with
          | [] =>
              _ ← boot_check (initialize_app_error platform cred);
              register_app cred
          | _ :: _ => mret tt
          end);
     boot_print (lit "SUCCESS: Firebase Admin initialized."))
    (fun e =>
       boot_print (lit "!!! FATAL ERROR INITIALIZING FIREBASE ADMIN: " ++ exn_str e)).

(** Lines 34 to 48. *)
Definition setup_vision : Boot unit :=
  boot_try
    (_ ← boot_print (lit "Attempting to load Google Cloud Vision credentials...");
     google_creds_json_str ← getenv (lit "GOOGLE_CREDENTIALS_JSON");
     if is_set google_creds_json_str
     then
       _ ← boot_print (lit "SUCCESS: Found GOOGLE_CREDENTIALS_JSON environment variable.");
       let creds_path := lit "/tmp/credentials.json" in
       _ ← write_file creds_path (default [] google_creds_json_str);
       _ ← setenv (lit "GOOGLE_APPLICATION_CREDENTIALS") creds_path;
       boot_print (lit "SUCCESS: Wrote Google credentials to " ++ creds_path)
     else
       _ ← boot_print (lit "INFO: GOOGLE_CREDENTIALS_JSON env var not found. Using local file 'credentials.json'...");
       setenv (lit "GOOGLE_APPLICATION_CREDENTIALS") (lit "credentials.json"))
    (fun e =>
       boot_print (lit "!!! FATAL ERROR SETTING UP GOOGLE CLOUD VISION CREDS: " ++ exn_str e)).

(** Lines 12 to 62, in order.  A name read from the environment is replaced
    by its fallback, with a warning, when it is unset or empty. *)
Definition configure : Boot Config :=
  _ ← boot_print (lit "--- SERVER STARTING: CONFIGURATION PHASE ---");
  _ ← setup_firebase;
  _ ← setup_vision;
  API_KEY ← getenv (lit "API_KEY");
  PROJECT_ID ← getenv (lit "PROJECT_ID");
  API_KEY ← (if is_set API_KEY then mret (default [] API_KEY)
             else
               _ ← boot_print (lit "!!! WARNING: API_KEY environment variable not found! Using fallback for local dev.");
               mret fallback_api_key);
  PROJECT_ID ← (if is_set PROJECT_ID then mret (default [] PROJECT_ID)
                else
                  _ ← boot_print (lit "!!! WARNING: PROJECT_ID environment variable not found! Using fallback for local dev.");
                  mret (lit "helical-realm-472708-n9"));
  _ ← boot_print (lit "--- Configuration complete. Project ID: " ++ PROJECT_ID ++ lit " ---");
  mret {| config_API_KEY := API_KEY; config_PROJECT_ID := PROJECT_ID |}.

End Startup.

(** The collaborators of the views once start-up has bound [API_KEY]. *)
Definition with_config (cfg : Config) (svc : Services) : Services :=
  {| API_KEY := config_API_KEY cfg;
     json_loads := json_loads svc;
     decode_utf8 := decode_utf8 svc;
     docx_paragraphs := docx_paragraphs svc;
     document_text_detection := document_text_detection svc;
     requests_post := requests_post svc;
     create_user := create_user svc;
     str_of_value := str_of_value svc;
     runtime_error_text := runtime_error_text svc |}.

(** ** Kinds of events *)

Definition is_ocr_call (ev : event) : bool :=
  match ev with VisionDocumentTextDetection _ => true | _ => false end.

Definition is_generation_call (ev : event) : bool :=
  match ev with HttpPost _ _ _ => true | _ => false end.

Definition is_provider_call (ev : event) : bool :=
  match ev with AuthCreateUser _ _ => true | _ => false end.

Definition is_printed (ev : event) : bool :=
  match ev with Stdout _ => true | _ => false end.

(** ** Exceptions of the interpreter

    [e] was raised by the Python runtime on an operation a value does not
    support (a missing key, an index out of range, a wrong type, a missing
    method), not by a [raise] of [app.py] or by a collaborator. *)
Definition is_runtime_error (svc : Services) (e : exn) : Prop :=
  exists cls obj name,
    e = runtime_error svc cls obj name
    /\ (cls = KeyError \/ cls = IndexError \/ cls = TypeError
        \/ cls = AttributeError).

(** ** The answers of the handlers' [except] clauses *)

(** What the [except] clause of [simplify_endpoint] does with [e]. *)
Definition simplify_except (e : exn) (w : trace) : result Response * trace :=
  (Return {| body := simplify_failed; status := 500 |},
   w ++ [Stdout (lit "!!! ERROR in /simplify: " ++ exn_str e)]).

(** What the [except] clause of [chat_endpoint] does with [e]. *)
Definition chat_except (e : exn) (w : trace) : result Response * trace :=
  (Return {| body := chat_failed; status := 500 |},
   w ++ [Stdout (lit "!!! ERROR in /chat: " ++ exn_str e)]).

(** ** Concrete collaborators

    Closed instances of [Services] on which the program can be run. *)

Module Scenario.

(** The body of a generation response with one candidate whose single part
    carries [t]. *)
Definition one_candidate (t : json) : json :=
  dict [("candidates",
         JArr [dict [("content", dict [("parts", JArr [dict [("text", t)]])])]])].

Definition generated (code : Z) (t : json) : http_response :=
  {| status_code := code;
     text := lit "(raw body)";
     json_method := Return (one_candidate t) |}.

(** A response text as the model wraps it: a JSON document between a
    [```json] line and a [```] line. *)
Definition fenced_document : str :=
  lit "```json" ++ [nl] ++ lit "{" ++ quoted "fairnessScore" ++ lit ": 7}"
  ++ [nl] ++ lit "```".

(** A JSON document with no fence around it and three backticks inside a
    string value. *)
Definition interior_fence_document : str :=
  lit "{" ++ quoted "note" ++ lit ": " ++ quoted "a```b" ++ lit "}".

Definition decode_error : exn :=
  {| exn_cls := JSONDecodeError;
     exn_str := lit "Expecting value: line 1 column 1 (char 0)";
     exn_code := None |}.

(** A decoder that knows the documents of the scenarios and rejects the
    rest. *)
Definition loads (s : str) : result json :=
  if bool_decide (s = lit "{" ++ quoted "fairnessScore" ++ lit ": 7}")
  then Return (dict [("fairnessScore", JInt 7)])
  else if bool_decide (s = lit "{}")
  then Return (dict [])
  else Raise decode_error.

(** UTF-8 decoding of the bytes below 128, each of which encodes itself. *)
Definition decode_ascii (content : bytes) : option str :=
  if forallb (fun b => (Byte.to_N b <? 128)%N) content
  then Some (map Byte.to_N content)
  else None.

Definition is_post (ev : event) : bool :=
  match ev with HttpPost _ _ _ => true | _ => false end.

Definition posts_so_far (w : trace) : nat := length (List.filter is_post w).

(** Every collaborator answers: the first generation call yields a formatted
    text, the later ones a fenced JSON document. *)
Definition happy : Services :=
  {| API_KEY := lit "k";
     json_loads := loads;
     decode_utf8 := decode_ascii;
     docx_paragraphs := fun _ => Return [lit "First."; lit "Second."];
     document_text_detection := fun _ _ =>
       Return {| error_message := []; full_text_annotation_text := lit "scanned" |};
     requests_post := fun w _ _ _ =>
       match posts_so_far w with
       | O => Return (generated 200 (JStr (lit "Formatted.")))
       | S _ => Return (generated 200 (JStr fenced_document))
       end;
     create_user := fun _ _ _ => Return {| uid := lit "u123" |};
     str_of_value := fun _ => lit "(value)";
     runtime_error_text := fun _ _ _ => lit "(runtime error)" |}.

(** The generation service answers every call with the given status code and
    a well-formed candidate. *)
Definition answering (code : Z) : Services :=
  {| API_KEY := API_KEY happy;
     json_loads := json_loads happy;
     decode_utf8 := decode_utf8 happy;
     docx_paragraphs := docx_paragraphs happy;
     document_text_detection := document_text_detection happy;
     requests_post := fun _ _ _ _ => Return (generated code (JStr (lit "ok")));
     create_user := create_user happy;
     str_of_value := str_of_value happy;
     runtime_error_text := runtime_error_text happy |}.

(** The identity provider refuses with the given exception. *)
Definition refusing (e : exn) : Services :=
  {| API_KEY := API_KEY happy;
     json_loads := json_loads happy;
     decode_utf8 := decode_utf8 happy;
     docx_paragraphs := docx_paragraphs happy;
     document_text_detection := document_text_detection happy;
     requests_post := requests_post happy;
     create_user := fun _ _ _ => Raise e;
     str_of_value := str_of_value happy;
     runtime_error_text := runtime_error_text happy |}.

Definition provider_error (code : string) : exn :=
  {| exn_cls := OtherError (lit "FirebaseError");
     exn_str := lit "provider error";
     exn_code := Some (JStr (lit code)) |}.

(** An upload of the five bytes of [hello] declared as [text/plain]. *)
Definition hello : bytes := ["h"; "e"; "l"; "l"; "o"]%byte.

Definition upload (name mime : string) (content : bytes) : Request :=
  {| files := {[ lit "file" :=
                   {| filename := lit name; read := content; mimetype := lit mime |} ]};
     get_json := Raise (mkExn (OtherError (lit "UnsupportedMediaType"))
                             (lit "415 Unsupported Media Type") (Some (JInt 415))) |}.

Definition posted (data : json) : Request :=
  {| files := ∅; get_json := Return data |}.

End Scenario.

(** ** Documents on which [json.loads] fails without a decode error

    CPython's decoder recurses on nested arrays and objects and converts
    integer literals with [int]: on a document nested deeper than the
    interpreter's recursion limit it raises [RecursionError], and on an
    integer literal of more than 4300 digits it raises [ValueError].
    Neither is a [JSONDecodeError]. *)

Module Limits.

(** Two thousand opening brackets. *)
Definition deep_document : str := repeat 91%N 2000.

(** An integer literal of 4400 digits. *)
Definition long_literal : str := repeat 49%N 4400.

Definition recursion_error : exn :=
  {| exn_cls := OtherError (lit "RecursionError");
     exn_str := lit "maximum recursion depth exceeded";
     exn_code := None |}.

Definition value_error : exn :=
  {| exn_cls := OtherError (lit "ValueError");
     exn_str := lit "Exceeds the limit (4300 digits) for integer string conversion";
     exn_code := None |}.

(** The decoder of the scenarios, with what CPython does on the two
    documents above. *)
Definition loads (s : str) : result json :=
  if bool_decide (s = deep_document) then Raise recursion_error
  else if bool_decide (s = long_literal) then Raise value_error
  else Scenario.loads s.

(** The generation service answers every call with the given text; the
    decoder is [loads]. *)
Definition generating (t : str) : Services :=
  {| API_KEY := API_KEY Scenario.happy;
     json_loads := loads;
     decode_utf8 := decode_utf8 Scenario.happy;
     docx_paragraphs := docx_paragraphs Scenario.happy;
     document_text_detection := document_text_detection Scenario.happy;
     requests_post := fun _ _ _ _ => Return (Scenario.generated 200 (JStr t));
     create_user := create_user Scenario.happy;
     str_of_value := str_of_value Scenario.happy;
     runtime_error_text := runtime_error_text Scenario.happy |}.

End Limits.

(** ** Answers of the generation service that are not laid out as expected *)

Module Malformed.

(** Status code 200 and a candidate that was blocked: it has a finish reason
    and no content. *)
Definition blocked : http_response :=
  {| status_code := 200;
     text := lit "(raw body)";
     json_method :=
       Return (dict [("candidates",
                      JArr [dict [("finishReason", JStr (lit "SAFETY"))]])]) |}.

(** Status code 200 and a body that is not JSON: [response.json()] raises. *)
Definition not_json_error : exn :=
  {| exn_cls := JSONDecodeError;
     exn_str := lit "Expecting value: line 1 column 1 (char 0)";
     exn_code := None |}.

Definition not_json : http_response :=
  {| status_code := 200;
     text := lit "<html>Bad gateway</html>";
     json_method := Raise not_json_error |}.

(** The generation service answers every call with [response]. *)
Definition answering_with (response : http_response) : Services :=
  {| API_KEY := API_KEY Scenario.happy;
     json_loads := json_loads Scenario.happy;
     decode_utf8 := decode_utf8 Scenario.happy;
     docx_paragraphs := docx_paragraphs Scenario.happy;
     document_text_detection := document_text_detection Scenario.happy;
     requests_post := fun _ _ _ _ => Return response;
     create_user := create_user Scenario.happy;
     str_of_value := str_of_value Scenario.happy;
     runtime_error_text := runtime_error_text Scenario.happy |}.

End Malformed.

(** ** Concrete hosts for start-up *)

Module StartupScenario.

Definition permission_denied : exn :=
  {| exn_cls := OtherError (lit "PermissionError");
     exn_str := lit "[Errno 13] Permission denied: '/tmp/credentials.json'";
     exn_code := None |}.

(** Everything outside works. *)
Definition sound : Platform :=
  {| certificate_error := fun _ => None;
     initialize_app_error := fun _ => None;
     open_error := fun _ => None;
     write_error := fun _ _ => None |}.

(** No file can be opened for writing, and no certificate loads. *)
Definition locked : Platform :=
  {| certificate_error := fun _ => Some permission_denied;
     initialize_app_error := fun _ => None;
     open_error := fun _ => Some permission_denied;
     write_error := fun _ _ => None |}.

Definition host (env : list (string * string)) : Host :=
  {| environ := list_to_map (map (fun kv => (lit (fst kv), lit (snd kv))) env);
     written := ∅;
     printed := [];
     firebase_apps := [] |}.

(** A host with nothing configured. *)
Definition bare : Host := host [].

(** A host configured through the environment. *)
Definition deployed : Host :=
  host [("FIREBASE_CREDENTIALS_JSON", "{}");
        ("GOOGLE_CREDENTIALS_JSON", "{}");
        ("API_KEY", "key-from-env");
        ("PROJECT_ID", "project-from-env")].

End StartupScenario.

(** * Properties *)

(** ** Strings *)

Lemma startswith_app (s rest : str) : startswith (s ++ rest) s = true.
Proof.
  induction s as [|c s IH]; simpl; [reflexivity|].
  rewrite N.eqb_refl. exact IH.
Qed.

Lemma startswith_prefix (s sub : str) :
  startswith s sub = true <-> exists rest, s = sub ++ rest.
Proof.
  revert s. induction sub as [|p sub IH]; intros s; simpl.
  - split; [intros _; exists s; reflexivity | reflexivity].
  - destruct s as [|c s]; simpl.
    + split; [discriminate | intros [rest H]; discriminate].
    + rewrite andb_true_iff, N.eqb_eq, IH. split.
      * intros [-> [rest ->]]. exists rest. reflexivity.
      * intros [rest H]. injection H as -> ->. eauto.
Qed.

Lemma contains_infix (s sub : str) :
  contains s sub = true <-> exists before after, s = before ++ sub ++ after.
Proof.
  induction s as [|c s IH]; simpl.
  - rewrite orb_false_r, startswith_prefix. split.
    + intros [rest H]. exists [], rest. exact H.
    + intros [before [after H]]. destruct before; simpl in H.
      * exists after. exact H.
      * discriminate.
  - rewrite orb_true_iff, startswith_prefix, IH. split.
    + intros [[rest H] | [before [after H]]].
      * exists [], rest. exact H.
      * exists (c :: before), after. simpl. rewrite H. reflexivity.
    + intros [before [after H]]. destruct before as [|b before]; simpl in H.
      * left. exists after. exact H.
      * right. injection H as -> ->. eauto.
Qed.

Lemma contains_middle (before sub after : str) :
  contains (before ++ sub ++ after) sub = true.
Proof. apply contains_infix. eauto. Qed.

(** ** Running computations *)

Lemma run_bind {A B : Type} (m : M A) (f : A -> M B) (w : trace) :
  (m ≫= f) w =
  match m w with
  | (Return a, w') => f a w'
  | (Raise e, w') => (Raise e, w')
  end.
Proof. reflexivity. Qed.

Lemma run_bind_return {A B : Type} (m : M A) (f : A -> M B) (w w' : trace) (a : A) :
  m w = (Return a, w') -> (m ≫= f) w = f a w'.
Proof. intros H. rewrite run_bind, H. reflexivity. Qed.

Lemma run_bind_raise {A B : Type} (m : M A) (f : A -> M B) (w w' : trace) (e : exn) :
  m w = (Raise e, w') -> (m ≫= f) w = (Raise e, w').
Proof. intros H. rewrite run_bind, H. reflexivity. Qed.

Lemma run_try_except {A : Type} (m : M A) (cls : exn_class) (h : exn -> M A) (w : trace) :
  try_except m cls h w =
  match m w with
  | (Return a, w') => (Return a, w')
  | (Raise e, w') => if isinstance e cls then h e w' else (Raise e, w')
  end.
Proof. reflexivity. Qed.

Lemma emitted_app {A : Type} (m : M A) (w evs : trace) :
  snd (m w) = w ++ evs -> emitted m w = evs.
Proof. unfold emitted. intros ->. apply drop_app_length. Qed.

(** ** The text extractor *)

(** C5: on an empty byte sequence [get_text_from_file] raises, whatever the
    declared media type; the trace is left as it was, so no collaborator has
    been called, and the media type has not been looked at. *)
Theorem get_text_from_file_empty (svc : Services) (mime_type : str) (w : trace) :
  get_text_from_file svc [] mime_type w
  = (Raise (mkException (lit "The uploaded file is empty.")), w)
  /\ emitted (get_text_from_file svc [] mime_type) w = []
  /\ forall svc' mime_type',
       get_text_from_file svc' [] mime_type' w
       = get_text_from_file svc [] mime_type w.
Proof.
  split; [reflexivity|]. split.
  - apply emitted_app. cbn. symmetry. apply app_nil_r.
  - intros svc' mime_type'. reflexivity.
Qed.

(** C6: on a non-empty byte sequence whose media type has none of the
    recognised forms, [get_text_from_file] raises, without calling any
    collaborator, and the message of the exception contains the media type. *)
Theorem get_text_from_file_unsupported
    (svc : Services) (file_content : bytes) (mime_type : str) (w : trace) :
  file_content <> [] ->
  contains mime_type (lit "wordprocessingml.document") = false ->
  startswith mime_type (lit "application/pdf") = false ->
  startswith mime_type (lit "image/") = false ->
  startswith mime_type (lit "text/") = false ->
  exists e,
    get_text_from_file svc file_content mime_type w = (Raise e, w)
    /\ exn_str e = lit "Unsupported file type: " ++ mime_type ++ lit "."
    /\ contains (exn_str e) mime_type = true.
Proof.
  intros Hne Hdocx Hpdf Himg Htext.
  exists (mkException (lit "Unsupported file type: " ++ mime_type ++ lit ".")).
  split; [|split].
  - unfold get_text_from_file.
    rewrite bool_decide_eq_false_2 by exact Hne.
    rewrite Hdocx, Hpdf, Himg, Htext. reflexivity.
  - reflexivity.
  - apply contains_middle.
Qed.

Lemma get_text_from_file_unsupported_witness :
  exists e,
    get_text_from_file Scenario.happy Scenario.hello (lit "application/zip") []
    = (Raise e, [])
    /\ exn_str e = lit "Unsupported file type: " ++ lit "application/zip" ++ lit "."
    /\ contains (exn_str e) (lit "application/zip") = true.
Proof.
  apply (get_text_from_file_unsupported
           Scenario.happy Scenario.hello (lit "application/zip") []).
  - discriminate.
  - reflexivity.
  - reflexivity.
  - reflexivity.
  - reflexivity.
Defined.

(** ** The generation client *)

Lemma raise_inj {A : Type} (e1 e2 : exn) : @Raise A e1 = Raise e2 -> e1 = e2.
Proof. intros H. injection H as ->. reflexivity. Qed.

Lemma return_inj {A : Type} (a1 a2 : A) : Return a1 = Return a2 -> a1 = a2.
Proof. intros H. injection H as ->. reflexivity. Qed.

Lemma text_of_first_part (svc : Services) (candidate content parts part t : json) :
  getitem svc candidate (lit "content") = Return content ->
  getitem svc content (lit "parts") = Return parts ->
  getitem0 svc parts = Return part ->
  getitem svc part (lit "text") = Return t ->
  first_part_text candidate = Some t.
Proof.
  unfold getitem, getitem0, first_part_text. intros H1 H2 H3 H4.
  destruct candidate as [| | | | | |c]; try discriminate H1.
  destruct (c !! lit "content") as [content'|]; [|discriminate H1].
  injection H1 as ->.
  destruct content as [| | | | | |ct]; try discriminate H2.
  destruct (ct !! lit "parts") as [parts'|]; [|discriminate H2].
  injection H2 as ->.
  destruct parts as [| | | |[|ch s]|[|p ps]|]; try discriminate H3;
    injection H3 as <-; [discriminate H4|].
  destruct p as [| | | | | |pm]; try discriminate H4.
  destruct (pm !! lit "text") as [t'|]; [|discriminate H4].
  injection H4 as ->. reflexivity.
Qed.

Lemma py_get_raises (svc : Services) (obj : json) (key : str) (e : exn) :
  py_get svc obj key = Raise e -> is_runtime_error svc e.
Proof.
  unfold py_get. destruct obj; try discriminate;
    intros H; injection H as <-; unfold is_runtime_error; eauto 10.
Qed.

Lemma getitem_raises (svc : Services) (obj : json) (key : str) (e : exn) :
  getitem svc obj key = Raise e -> is_runtime_error svc e.
Proof.
  unfold getitem. destruct obj as [| | | | | |m]; try destruct (m !! key);
    try discriminate;
    intros H; injection H as <-; unfold is_runtime_error; eauto 10.
Qed.

Lemma getitem0_raises (svc : Services) (obj : json) (e : exn) :
  getitem0 svc obj = Raise e -> is_runtime_error svc e.
Proof.
  unfold getitem0. destruct obj as [| | | |[|? ?]|[|? ?]|]; try discriminate;
    intros H; injection H as <-; unfold is_runtime_error; eauto 10.
Qed.

Lemma first_part_text_getitem (svc : Services) (candidate t : json) :
  first_part_text candidate = Some t ->
  exists content parts part,
    getitem svc candidate (lit "content") = Return content
    /\ getitem svc content (lit "parts") = Return parts
    /\ getitem0 svc parts = Return part
    /\ getitem svc part (lit "text") = Return t.
Proof.
  unfold first_part_text. intros H.
  destruct candidate as [| | | | | |c]; try discriminate.
  destruct (c !! lit "content") as [[| | | | | |content]|] eqn:Hc; try discriminate.
  destruct (content !! lit "parts") as [[| | | | |[|[| | | | | |part] rest]|]|] eqn:Hp;
    try discriminate.
  exists (JObj content), (JArr (JObj part :: rest)), (JObj part).
  unfold getitem, getitem0. rewrite Hc, Hp, H. auto.
Qed.

Section GenerationResponse.

Variable svc : Services.
Variable prompt : str.
Variable w : trace.
Variable response : http_response.

Hypothesis Hpost :
  requests_post svc w (gemini_url svc) gemini_headers (gemini_data prompt)
  = Return response.

Let w' : trace :=
  w ++ [HttpPost (gemini_url svc) gemini_headers (gemini_data prompt)].

Lemma call_gemini_api_not_200 :
  status_code response <> 200%Z ->
  call_gemini_api svc prompt w = (Raise (google_api_error response), w').
Proof.
  intros Hstatus. unfold call_gemini_api.
  rewrite run_bind. unfold external. rewrite Hpost.
  apply Z.eqb_neq in Hstatus. rewrite Hstatus. reflexivity.
Qed.

Lemma call_gemini_api_first_text (body : gmap str json) (candidate : json)
    (rest : list json) (t : json) :
  status_code response = 200%Z ->
  json_method response = Return (JObj body) ->
  body !! lit "candidates" = Some (JArr (candidate :: rest)) ->
  first_part_text candidate = Some t ->
  call_gemini_api svc prompt w = (Return t, w').
Proof.
  intros Hstatus Hjson Hcands Htext. unfold call_gemini_api.
  rewrite run_bind. unfold external. rewrite Hpost.
  apply Z.eqb_eq in Hstatus. rewrite Hstatus. cbn [negb].
  destruct (first_part_text_getitem svc candidate t Htext)
    as (content & parts & part & H1 & H2 & H3 & H4).
  unfold lift, py_get. rewrite !run_bind, Hjson, !run_bind, Hcands.
  cbn. rewrite Hcands. cbn.
  rewrite run_bind; cbn. rewrite run_bind; cbn. rewrite H1.
  rewrite run_bind; cbn. rewrite H2.
  rewrite run_bind; cbn. rewrite H3.
  rewrite run_bind; cbn. rewrite H4. reflexivity.
Qed.

Lemma call_gemini_api_no_candidates (body : gmap str json) :
  status_code response = 200%Z ->
  json_method response = Return (JObj body) ->
  body !! lit "candidates" = None \/ body !! lit "candidates" = Some (JArr []) ->
  call_gemini_api svc prompt w = (Raise no_candidates, w').
Proof.
  intros Hstatus Hjson Hcands. unfold call_gemini_api.
  rewrite run_bind. unfold external. rewrite Hpost.
  apply Z.eqb_eq in Hstatus. rewrite Hstatus. cbn [negb].
  unfold lift, py_get. rewrite !run_bind, Hjson, !run_bind.
  destruct Hcands as [-> | ->]; reflexivity.
Qed.

(** What [call_gemini_api] does with the response it was answered, step by
    step. *)
Lemma call_gemini_api_answered :
  call_gemini_api svc prompt w =
  (if negb (status_code response =? 200)%Z
   then Raise (google_api_error response)
   else
     match json_method response with
     | Raise e => Raise e
     | Return response_json =>
         match py_get svc response_json (lit "candidates") with
         | Raise e => Raise e
         | Return candidates =>
             if negb (truthy candidates)
             then Raise no_candidates
             else
               match getitem svc response_json (lit "candidates") with
               | Raise e => Raise e
               | Return candidates =>
                   match getitem0 svc candidates with
                   | Raise e => Raise e
                   | Return candidate =>
                       match getitem svc candidate (lit "content") with
                       | Raise e => Raise e
                       | Return content =>
                           match getitem svc content (lit "parts") with
                           | Raise e => Raise e
                           | Return parts =>
                               match getitem0 svc parts with
                               | Raise e => Raise e
                               | Return part => getitem svc part (lit "text")
                               end
                           end
                       end
                   end
               end
         end
     end, w').
Proof.
  unfold call_gemini_api.
  rewrite run_bind. unfold external. rewrite Hpost.
  destruct (negb (status_code response =? 200)%Z); [reflexivity|].
  unfold lift. rewrite run_bind.
  destruct (json_method response) as [response_json|e]; [|reflexivity].
  rewrite run_bind.
  destruct (py_get svc response_json (lit "candidates")) as [candidates|e];
    [|reflexivity].
  destruct (negb (truthy candidates)); [reflexivity|].
  rewrite run_bind.
  destruct (getitem svc response_json (lit "candidates")) as [cs|e];
    [|reflexivity].
  rewrite run_bind.
  destruct (getitem0 svc cs) as [candidate|e]; [|reflexivity].
  rewrite run_bind.
  destruct (getitem svc candidate (lit "content")) as [content|e]; [|reflexivity].
  rewrite run_bind.
  destruct (getitem svc content (lit "parts")) as [parts|e]; [|reflexivity].
  rewrite run_bind.
  destruct (getitem0 svc parts) as [part|e]; reflexivity.
Qed.

Lemma call_gemini_api_json_raises (e : exn) :
  status_code response = 200%Z ->
  json_method response = Raise e ->
  call_gemini_api svc prompt w = (Raise e, w').
Proof.
  intros Hstatus Hjson. rewrite call_gemini_api_answered.
  apply Z.eqb_eq in Hstatus. rewrite Hstatus, Hjson. reflexivity.
Qed.

Lemma call_gemini_api_false_candidates (body : gmap str json) :
  status_code response = 200%Z ->
  json_method response = Return (JObj body) ->
  truthy (default JNull (body !! lit "candidates")) = false ->
  call_gemini_api svc prompt w = (Raise no_candidates, w').
Proof.
  intros Hstatus Hjson Hcands. rewrite call_gemini_api_answered.
  apply Z.eqb_eq in Hstatus. rewrite Hstatus, Hjson.
  cbn [negb py_get]. rewrite Hcands. reflexivity.
Qed.

Lemma call_gemini_api_answered_return (t : json) :
  call_gemini_api svc prompt w = (Return t, w') ->
  status_code response = 200%Z
  /\ exists body candidate rest,
       json_method response = Return (JObj body)
       /\ body !! lit "candidates" = Some (JArr (candidate :: rest))
       /\ first_part_text candidate = Some t.
Proof.
  rewrite call_gemini_api_answered. intros H.
  apply pair_equal_spec in H as [H _].
  destruct (negb (status_code response =? 200)%Z) eqn:Hstatus;
    [discriminate H|].
  apply negb_false_iff, Z.eqb_eq in Hstatus. split; [exact Hstatus|].
  destruct (json_method response) as [response_json|e]; [|discriminate H].
  destruct (py_get svc response_json (lit "candidates")) as [cs0|e] eqn:Hget;
    [|discriminate H].
  destruct (negb (truthy cs0)); [discriminate H|].
  destruct (getitem svc response_json (lit "candidates")) as [cs|e] eqn:Hcands;
    [|discriminate H].
  destruct (getitem0 svc cs) as [candidate|e] eqn:Hfirst; [|discriminate H].
  destruct (getitem svc candidate (lit "content")) as [content|e] eqn:Hcontent;
    [|discriminate H].
  destruct (getitem svc content (lit "parts")) as [parts|e] eqn:Hparts;
    [|discriminate H].
  destruct (getitem0 svc parts) as [part|e] eqn:Hpart; [|discriminate H].
  destruct response_json as [| | | | | |body]; try discriminate Hget.
  unfold getitem in Hcands.
  destruct (body !! lit "candidates") as [cs'|] eqn:Hlookup; [|discriminate Hcands].
  apply return_inj in Hcands. subst cs'.
  destruct cs as [| | | |[|ch s]|[|candidate' rest]|]; try discriminate Hfirst;
    apply return_inj in Hfirst; subst candidate; [discriminate Hcontent|].
  exists body, candidate', rest.
  split; [reflexivity|]. split; [exact Hlookup|].
  eapply text_of_first_part; eassumption.
Qed.

Lemma call_gemini_api_answered_raise (e : exn) :
  call_gemini_api svc prompt w = (Raise e, w') ->
  (status_code response <> 200%Z /\ e = google_api_error response)
  \/ (status_code response = 200%Z
      /\ (json_method response = Raise e
          \/ (exists body,
                json_method response = Return (JObj body)
                /\ truthy (default JNull (body !! lit "candidates")) = false
                /\ e = no_candidates)
          \/ is_runtime_error svc e)).
Proof.
  rewrite call_gemini_api_answered. intros H.
  apply pair_equal_spec in H as [H _].
  destruct (negb (status_code response =? 200)%Z) eqn:Hstatus.
  { apply negb_true_iff, Z.eqb_neq in Hstatus. apply raise_inj in H. auto. }
  apply negb_false_iff, Z.eqb_eq in Hstatus. right. split; [exact Hstatus|].
  destruct (json_method response) as [response_json|e0].
  2:{ apply raise_inj in H. subst e0. auto. }
  destruct (py_get svc response_json (lit "candidates")) as [cs0|e0] eqn:Hget.
  2:{ apply raise_inj in H. subst e0. right. right.
      eapply py_get_raises. exact Hget. }
  destruct (negb (truthy cs0)) eqn:Htruthy.
  { apply raise_inj in H. subst e. right. left.
    destruct response_json as [| | | | | |body]; try discriminate Hget.
    apply return_inj in Hget. subst cs0.
    apply negb_true_iff in Htruthy. eauto. }
  right. right.
  destruct (getitem svc response_json (lit "candidates")) as [cs|e0] eqn:H1.
  2:{ apply raise_inj in H. subst e0. eapply getitem_raises. exact H1. }
  destruct (getitem0 svc cs) as [candidate|e0] eqn:H2.
  2:{ apply raise_inj in H. subst e0. eapply getitem0_raises. exact H2. }
  destruct (getitem svc candidate (lit "content")) as [content|e0] eqn:H3.
  2:{ apply raise_inj in H. subst e0. eapply getitem_raises. exact H3. }
  destruct (getitem svc content (lit "parts")) as [parts|e0] eqn:H4.
  2:{ apply raise_inj in H. subst e0. eapply getitem_raises. exact H4. }
  destruct (getitem0 svc parts) as [part|e0] eqn:H5.
  2:{ apply raise_inj in H. subst e0. eapply getitem0_raises. exact H5. }
  eapply getitem_raises. exact H.
Qed.

End GenerationResponse.

(** C3, amended: once [requests.post] has returned a response,
    [call_gemini_api] returns a text on one path only: the status code is
    exactly 200, the body decodes to an object whose [candidates] is a
    non-empty list, and the first candidate has a first content part with a
    text, which is returned unchanged.  Every other response makes it raise:
    the Google API Error exception, with the status code and the body in the
    message, on a status code other than 200, other 2xx codes included; and
    on status code 200, what [response.json()] raised, unchanged, when the
    body does not decode; the no-candidates exception when [candidates] is
    absent or a false value, the empty list included; an exception of the
    interpreter when the decoded body is laid out in another way, as when
    the first candidate has no content.  There is no other failure.  In each
    case the HTTP call is the one event added to the trace. *)
Theorem call_gemini_api_response
    (svc : Services) (prompt : str) (w : trace) (response : http_response) :
  requests_post svc w (gemini_url svc) gemini_headers (gemini_data prompt)
  = Return response ->
  let w' := w ++ [HttpPost (gemini_url svc) gemini_headers (gemini_data prompt)] in
  (forall body candidate rest t,
     status_code response = 200%Z ->
     json_method response = Return (JObj body) ->
     body !! lit "candidates" = Some (JArr (candidate :: rest)) ->
     first_part_text candidate = Some t ->
     call_gemini_api svc prompt w = (Return t, w'))
  /\ (forall t,
        call_gemini_api svc prompt w = (Return t, w') ->
        status_code response = 200%Z
        /\ exists body candidate rest,
             json_method response = Return (JObj body)
             /\ body !! lit "candidates" = Some (JArr (candidate :: rest))
             /\ first_part_text candidate = Some t)
  /\ (status_code response <> 200%Z ->
      call_gemini_api svc prompt w = (Raise (google_api_error response), w'))
  /\ (forall e,
        status_code response = 200%Z ->
        json_method response = Raise e ->
        call_gemini_api svc prompt w = (Raise e, w'))
  /\ (forall body,
        status_code response = 200%Z ->
        json_method response = Return (JObj body) ->
        truthy (default JNull (body !! lit "candidates")) = false ->
        call_gemini_api svc prompt w = (Raise no_candidates, w'))
  /\ (forall e,
        call_gemini_api svc prompt w = (Raise e, w') ->
        (status_code response <> 200%Z /\ e = google_api_error response)
        \/ (status_code response = 200%Z
            /\ (json_method response = Raise e
                \/ (exists body,
                      json_method response = Return (JObj body)
                      /\ truthy (default JNull (body !! lit "candidates")) = false
                      /\ e = no_candidates)
                \/ (is_runtime_error svc e
                    /\ forall body candidate rest,
                         json_method response = Return (JObj body) ->
                         body !! lit "candidates"
                         = Some (JArr (candidate :: rest)) ->
                         first_part_text candidate = None))))
  /\ exists r, call_gemini_api svc prompt w = (r, w').
Proof.
  intros Hpost w'. repeat split.
  - intros body candidate rest t. apply call_gemini_api_first_text. exact Hpost.
  - eapply call_gemini_api_answered_return; eassumption.
  - eapply call_gemini_api_answered_return; eassumption.
  - apply call_gemini_api_not_200. exact Hpost.
  - intros e. apply call_gemini_api_json_raises. exact Hpost.
  - intros body. apply call_gemini_api_false_candidates. exact Hpost.
  - intros e Hraise.
    destruct (call_gemini_api_answered_raise svc prompt w response Hpost e Hraise)
      as [Hno|(Hstatus & [Hjson|[Hcands|Hrun]])]; auto.
    right. split; [exact Hstatus|]. right. right. split; [exact Hrun|].
    intros body candidate rest Hjson Hcands.
    destruct (first_part_text candidate) as [t|] eqn:Htext; [|reflexivity].
    rewrite (call_gemini_api_first_text svc prompt w response Hpost
               body candidate rest t Hstatus Hjson Hcands Htext) in Hraise.
    discriminate Hraise.
  - rewrite (call_gemini_api_answered svc prompt w response Hpost).
    eexists. reflexivity.
Qed.

Lemma call_gemini_api_response_witness :
  call_gemini_api (Scenario.answering 200) (lit "p") []
  = (Return (JStr (lit "ok")),
     [HttpPost (gemini_url (Scenario.answering 200)) gemini_headers
               (gemini_data (lit "p"))]).
Proof.
  destruct (call_gemini_api_response (Scenario.answering 200) (lit "p") []
              (Scenario.generated 200 (JStr (lit "ok"))) eq_refl)
    as (Hok & _).
  eapply Hok.
  - reflexivity.
  - reflexivity.
  - vm_compute. reflexivity.
  - vm_compute. reflexivity.
Defined.

(** A status code 200 does not make the call return: a candidate that was
    blocked has no content, and reading it raises [KeyError]; a body that is
    not JSON makes [response.json()] raise, and the exception is passed
    on. *)
Example call_gemini_api_blocked_candidate :
  let svc := Malformed.answering_with Malformed.blocked in
  fst (call_gemini_api svc (lit "p") [])
  = Raise (runtime_error svc KeyError
             (dict [("finishReason", JStr (lit "SAFETY"))]) (lit "content")).
Proof. vm_compute. reflexivity. Qed.

Example call_gemini_api_body_not_json :
  fst (call_gemini_api (Malformed.answering_with Malformed.not_json) (lit "p") [])
  = Raise Malformed.not_json_error.
Proof. vm_compute. reflexivity. Qed.

(** C3 as stated fails: a response with status code 201, which is a 2xx
    code, and with one well-formed candidate makes [call_gemini_api] raise
    instead of returning the candidate's text. *)
Lemma call_gemini_api_raises_on_201 :
  let svc := Scenario.answering 201 in
  let response := Scenario.generated 201 (JStr (lit "ok")) in
  requests_post svc [] (gemini_url svc) gemini_headers (gemini_data (lit "p"))
  = Return response
  /\ (200 <= status_code response < 300)%Z
  /\ json_method response = Return (Scenario.one_candidate (JStr (lit "ok")))
  /\ call_gemini_api svc (lit "p") []
     = (Raise (mkException (lit "Google API Error: 201 (raw body)")),
        [HttpPost (gemini_url svc) gemini_headers (gemini_data (lit "p"))]).
Proof.
  cbv zeta. split; [reflexivity|]. split; [cbn; lia|]. split; [reflexivity|].
  vm_compute. reflexivity.
Qed.

(** ** Cleaning the response text *)

Section Runs.

(** Deleting the occurrences of a run of three equal characters leaves no
    such run behind. *)
Variable b : N.

Lemma startswith_cons (c : N) (s sub : str) :
  startswith (c :: s) (b :: sub) = (b =? c)%N && startswith s sub.
Proof. reflexivity. Qed.

Lemma replace_from_two (s : str) :
  startswith s [b; b] = false ->
  startswith (replace_from [b; b; b] [] 0 s) [b; b] = false.
Proof.
  destruct s as [|x s1]; [reflexivity|].
  cbn [replace_from]. rewrite !startswith_cons.
  destruct (N.eqb_spec b x) as [<-|Hx]; cbn [andb].
  - intros H1. destruct s1 as [|y s2]; [cbn; apply andb_false_r|].
    rewrite !startswith_cons in *.
    destruct (N.eqb_spec b y) as [<-|Hy]; [discriminate H1|].
    cbn [andb app]. rewrite !startswith_cons.
    rewrite N.eqb_refl. cbn [andb replace_from]. rewrite !startswith_cons.
    destruct (N.eqb_spec b y); [contradiction|]. cbn [andb].
    rewrite startswith_cons. destruct (N.eqb_spec b y); [contradiction|]. reflexivity.
  - intros _. rewrite startswith_cons.
    destruct (N.eqb_spec b x); [contradiction|]. reflexivity.
Qed.

Lemma replace_from_no_run (s : str) (skip : nat) :
  contains (replace_from [b; b; b] [] skip s) [b; b; b] = false.
Proof.
  revert skip. induction s as [|c s IH]; intros skip; [reflexivity|].
  cbn [replace_from]. destruct skip as [|k]; [|apply IH].
  destruct (startswith (c :: s) [b; b; b]) eqn:Hs; [apply IH|].
  cbn [contains]. rewrite IH, orb_false_r.
  rewrite startswith_cons in *.
  destruct (N.eqb_spec b c) as [<-|Hc]; [|reflexivity].
  cbn [andb] in *. apply replace_from_two. exact Hs.
Qed.

End Runs.

Lemma lstrip_suffix (s : str) : exists removed, s = removed ++ lstrip s.
Proof.
  induction s as [|c s [removed IH]]; [exists []; reflexivity|].
  cbn [lstrip]. destruct (isspace c).
  - exists (c :: removed). cbn. rewrite <- IH. reflexivity.
  - exists []. reflexivity.
Qed.

Lemma rstrip_prefix (s : str) : exists removed, s = rstrip s ++ removed.
Proof.
  unfold rstrip. destruct (lstrip_suffix (rev s)) as [removed H].
  exists (rev removed). rewrite <- rev_app_distr, <- H, rev_involutive.
  reflexivity.
Qed.

Lemma contains_strip (s sub : str) :
  contains (strip s) sub = true -> contains s sub = true.
Proof.
  rewrite !contains_infix. intros (before & after & H).
  unfold strip in H.
  destruct (lstrip_suffix s) as [l Hl].
  destruct (rstrip_prefix (lstrip s)) as [r Hr].
  exists (l ++ before), (after ++ r).
  rewrite Hl at 1. rewrite Hr at 1. rewrite H.
  rewrite <- !app_assoc. reflexivity.
Qed.

Lemma sublist_replace_from (old : str) (skip : nat) (s : str) :
  replace_from old [] skip s `sublist_of` s.
Proof.
  revert skip. induction s as [|c s IH]; intros skip; [constructor|].
  cbn [replace_from]. destruct skip as [|k].
  - destruct (startswith (c :: s) old).
    + cbn [app]. apply sublist_cons. apply IH.
    + apply sublist_skip. apply IH.
  - apply sublist_cons. apply IH.
Qed.

Lemma sublist_strip (s : str) : strip s `sublist_of` s.
Proof.
  unfold strip.
  destruct (lstrip_suffix s) as [l Hl].
  destruct (rstrip_prefix (lstrip s)) as [r Hr].
  rewrite Hl at 2. rewrite Hr at 2.
  apply sublist_inserts_l, sublist_inserts_r. reflexivity.
Qed.

(** C4 as stated fails: the response below has no fence marker at either end
    and no whitespace to strip, yet cleaning it changes its interior, the
    three backticks inside the string value being deleted. *)
Lemma cleaned_text_changes_interior :
  let r := Scenario.interior_fence_document in
  startswith r (lit "```") = false
  /\ startswith (rev r) (lit "```") = false
  /\ strip r = r
  /\ cleaned_text r = lit "{" ++ quoted "note" ++ lit ": " ++ quoted "ab" ++ lit "}"
  /\ cleaned_text r <> r.
Proof.
  cbv zeta. repeat split; try (vm_compute; reflexivity).
  vm_compute. discriminate.
Qed.

Example cleaned_text_fenced_document :
  cleaned_text Scenario.fenced_document
  = lit "{" ++ quoted "fairnessScore" ++ lit ": 7}".
Proof. vm_compute. reflexivity. Qed.

(** ** The response interpreter *)

(** C1, amended: given a response string, lines 102 to 107 return what
    [json.loads] returns on the cleaned string, and exactly the fallback
    value when [json.loads] raises [JSONDecodeError]; an exception of any
    other class raised by [json.loads] is not caught and leaves the
    interpreter unchanged.  So the interpreter raises exactly when
    [json.loads] raises something that is not a [JSONDecodeError], and it
    never raises when [json.loads] fails by [JSONDecodeError] only.  The
    trace is left as it was in every case. *)
Theorem interpret_response_outcome
    (svc : Services) (response_text : str) (w : trace) :
  interpret_response svc (JStr response_text) w
  = (match json_loads svc (cleaned_text response_text) with
     | Return analysis_data => Return analysis_data
     | Raise e =>
         if bool_decide (exn_cls e = JSONDecodeError)
         then Return fallback_analysis
         else Raise e
     end, w)
  /\ fallback_analysis
     = dict [("fairnessScore", JInt 0);
             ("summary", JStr (lit "Could not analyze."));
             ("riskRadar", JArr [])]
  /\ (forall e,
        interpret_response svc (JStr response_text) w = (Raise e, w)
        <-> json_loads svc (cleaned_text response_text) = Raise e
            /\ exn_cls e <> JSONDecodeError)
  /\ ((forall e, json_loads svc (cleaned_text response_text) = Raise e ->
                 exn_cls e = JSONDecodeError) ->
      interpret_response svc (JStr response_text) w
      = (Return match json_loads svc (cleaned_text response_text) with
                | Return analysis_data => analysis_data
                | Raise _ => fallback_analysis
                end, w)).
Proof.
  assert (Hrun :
    interpret_response svc (JStr response_text) w
    = (match json_loads svc (cleaned_text response_text) with
       | Return analysis_data => Return analysis_data
       | Raise e =>
           if bool_decide (exn_cls e = JSONDecodeError)
           then Return fallback_analysis
           else Raise e
       end, w)).
  { unfold interpret_response. rewrite run_try_except, run_bind. unfold lift.
    destruct (json_loads svc (cleaned_text response_text)) as [v|e];
      [reflexivity|].
    unfold isinstance. case_bool_decide; reflexivity. }
  split; [exact Hrun|]. split; [reflexivity|]. split.
  - intros e. rewrite Hrun.
    destruct (json_loads svc (cleaned_text response_text)) as [v|e0].
    + split; [intros H; discriminate H|intros [H _]; discriminate H].
    + case_bool_decide as Hcls.
      * split; [intros H; discriminate H|].
        intros [H Hne]. injection H as ->. contradiction.
      * split.
        -- intros H. apply pair_equal_spec in H as [H _].
           injection H as ->. auto.
        -- intros [H _]. injection H as ->. reflexivity.
  - intros Hloads. rewrite Hrun.
    destruct (json_loads svc (cleaned_text response_text)) as [v|e] eqn:H;
      [reflexivity|].
    rewrite bool_decide_eq_true_2 by (apply Hloads; reflexivity).
    reflexivity.
Qed.

Lemma interpret_response_outcome_witness :
  interpret_response Scenario.happy (JStr Scenario.fenced_document) []
  = (Return (dict [("fairnessScore", JInt 7)]), [])
  /\ interpret_response Scenario.happy (JStr (lit "not json")) []
     = (Return (dict [("fairnessScore", JInt 0);
                      ("summary", JStr (lit "Could not analyze."));
                      ("riskRadar", JArr [])]), []).
Proof.
  split.
  - destruct (interpret_response_outcome Scenario.happy
                Scenario.fenced_document []) as (_ & _ & _ & H).
    rewrite H; [vm_compute; reflexivity|].
    vm_compute. discriminate.
  - destruct (interpret_response_outcome Scenario.happy
                (lit "not json") []) as (_ & _ & _ & H).
    rewrite H; [vm_compute; reflexivity|].
    vm_compute. intros e He. injection He as <-. reflexivity.
Defined.

(** C1 as stated fails: the interpreter raises on a response that makes
    [json.loads] fail with something else than [JSONDecodeError].  On the
    deeply nested document [json.loads] raises [RecursionError], on the
    over-long integer literal [ValueError]; neither is caught by line 106,
    and [analyze_document_with_gemini] raises with it when the generation
    service returns such a text. *)
Lemma interpret_response_raises :
  interpret_response (Limits.generating Limits.deep_document)
    (JStr Limits.deep_document) []
  = (Raise Limits.recursion_error, [])
  /\ interpret_response (Limits.generating Limits.long_literal)
       (JStr Limits.long_literal) []
     = (Raise Limits.value_error, [])
  /\ fst (analyze_document_with_gemini (Limits.generating Limits.deep_document)
            (JStr (lit "Rent is due on the first.")) [])
     = Raise Limits.recursion_error.
Proof.
  split; [|split]; vm_compute; reflexivity.
Qed.

(** ** What the task functions add to the trace *)

(** [call_gemini_api] makes one call, whatever comes of it. *)
Lemma call_gemini_api_trace (svc : Services) (prompt : str) (w : trace) :
  snd (call_gemini_api svc prompt w)
  = w ++ [HttpPost (gemini_url svc) gemini_headers (gemini_data prompt)].
Proof.
  unfold call_gemini_api. rewrite run_bind. unfold external, lift.
  destruct (requests_post svc w _ _ _) as [response|e]; [|reflexivity].
  destruct (negb (status_code response =? 200)%Z); [reflexivity|].
  repeat first
    [ progress (rewrite run_bind)
    | match goal with
      | |- context [match ?r with Return _ => _ | Raise _ => _ end] =>
          destruct r; [|reflexivity]
      end
    | match goal with
      | |- context [if ?b then _ else _] => destruct b; [reflexivity|]
      end ].
  reflexivity.
Qed.

Lemma call_gemini_api_run (svc : Services) (prompt : str) (w : trace) :
  exists r,
    call_gemini_api svc prompt w
    = (r, w ++ [HttpPost (gemini_url svc) gemini_headers (gemini_data prompt)]).
Proof.
  exists (fst (call_gemini_api svc prompt w)).
  rewrite <- call_gemini_api_trace. apply surjective_pairing.
Qed.

(** [interpret_response] touches nothing outside. *)
Lemma interpret_response_trace (svc : Services) (response_text : json) (w : trace) :
  snd (interpret_response svc response_text w) = w.
Proof.
  unfold interpret_response.
  destruct response_text; try reflexivity.
  rewrite run_try_except, run_bind. unfold lift.
  destruct (json_loads svc _) as [v|e]; [reflexivity|].
  destruct (isinstance e JSONDecodeError); reflexivity.
Qed.

(** [get_text_from_file] calls the OCR client at most once, and nothing
    else. *)
Lemma get_text_from_file_trace
    (svc : Services) (file_content : bytes) (mime_type : str) (w : trace) :
  snd (get_text_from_file svc file_content mime_type w) = w
  \/ snd (get_text_from_file svc file_content mime_type w)
     = w ++ [VisionDocumentTextDetection file_content].
Proof.
  unfold get_text_from_file.
  case_bool_decide; [left; reflexivity|].
  destruct (contains mime_type _).
  { left. rewrite run_try_except, run_bind. unfold lift.
    destruct (docx_paragraphs svc file_content); reflexivity. }
  destruct (_ || _).
  { right. rewrite run_bind. unfold external.
    destruct (document_text_detection svc w file_content) as [response|e];
      [|reflexivity].
    destruct (negb _); reflexivity. }
  destruct (startswith mime_type _); [|left; reflexivity].
  destruct (decode_utf8 svc file_content); left; reflexivity.
Qed.

(** ** The analyze view *)

(** C2: for a request with a file part and a non-empty filename, when the
    three stages succeed, [analyze_endpoint] has run them in the order
    extract, reformat, analyze: the trace it leaves is the extraction's
    (at most the OCR call), then the generation call with the reformat prompt
    built on the extracted text, then the generation call with the analyze
    prompt built on the formatted text.  It answers 200 with the analysis
    under [analysis] and the formatted text under [fullText]. *)
Theorem analyze_endpoint_pipeline
    (svc : Services) (request : Request) (file : FileStorage)
    (w w1 w2 w3 : trace) (raw_text : str)
    (formatted_text response_text analysis_data : json) :
  files request !! lit "file" = Some file ->
  filename file <> [] ->
  get_text_from_file svc (read file) (mimetype file) w = (Return raw_text, w1) ->
  call_gemini_api svc (reformat_prompt svc (JStr raw_text)) w1
  = (Return formatted_text, w2) ->
  call_gemini_api svc (analyze_prompt svc formatted_text) w2
  = (Return response_text, w3) ->
  interpret_response svc response_text w3 = (Return analysis_data, w3) ->
  exists r,
    analyze_endpoint svc request w = (Return r, w3)
    /\ status r = 200%Z
    /\ body r = dict [("analysis", analysis_data); ("fullText", formatted_text)]
    /\ body_field r "analysis" = Some analysis_data
    /\ body_field r "fullText" = Some formatted_text
    /\ (w1 = w \/ w1 = w ++ [VisionDocumentTextDetection (read file)])
    /\ w3 = w1 ++ [HttpPost (gemini_url svc) gemini_headers
                            (gemini_data (reformat_prompt svc (JStr raw_text)));
                   HttpPost (gemini_url svc) gemini_headers
                            (gemini_data (analyze_prompt svc formatted_text))].
Proof.
  intros Hfile Hname Hextract Hreformat Hanalyze Hinterpret.
  eexists. split; [|split; [|split; [|split; [|split; [|split]]]]].
  - unfold analyze_endpoint. rewrite run_try_except, Hfile.
    rewrite bool_decide_eq_false_2 by exact Hname.
    rewrite (run_bind_return _ _ _ _ _ Hextract).
    unfold reformat_document_with_gemini.
    rewrite (run_bind_return _ _ _ _ _ Hreformat).
    unfold analyze_document_with_gemini.
    rewrite run_bind, (run_bind_return _ _ _ _ _ Hanalyze), Hinterpret.
    reflexivity.
  - reflexivity.
  - reflexivity.
  - unfold body_field, dict. cbn. apply lookup_insert_eq.
  - unfold body_field, dict. cbn.
    rewrite lookup_insert_ne by (vm_compute; discriminate).
    apply lookup_insert_eq.
  - pose proof (get_text_from_file_trace svc (read file) (mimetype file) w) as H.
    rewrite Hextract in H. exact H.
  - pose proof (call_gemini_api_trace svc (reformat_prompt svc (JStr raw_text)) w1) as H2.
    pose proof (call_gemini_api_trace svc (analyze_prompt svc formatted_text) w2) as H3.
    rewrite Hreformat in H2. rewrite Hanalyze in H3. cbn [snd] in H2, H3.
    rewrite H3, H2, <- app_assoc. reflexivity.
Qed.

Lemma analyze_endpoint_pipeline_witness :
  exists r,
    analyze_endpoint Scenario.happy
      (Scenario.upload "a.txt" "text/plain" Scenario.hello) []
    = (Return r,
       [HttpPost (gemini_url Scenario.happy) gemini_headers
          (gemini_data (reformat_prompt Scenario.happy (JStr (lit "hello"))));
        HttpPost (gemini_url Scenario.happy) gemini_headers
          (gemini_data (analyze_prompt Scenario.happy (JStr (lit "Formatted."))))])
    /\ status r = 200%Z
    /\ body_field r "analysis" = Some (dict [("fairnessScore", JInt 7)])
    /\ body_field r "fullText" = Some (JStr (lit "Formatted.")).
Proof.
  destruct (analyze_endpoint_pipeline Scenario.happy
              (Scenario.upload "a.txt" "text/plain" Scenario.hello)
              {| filename := lit "a.txt"; read := Scenario.hello;
                 mimetype := lit "text/plain" |}
              [] []
              [HttpPost (gemini_url Scenario.happy) gemini_headers
                 (gemini_data (reformat_prompt Scenario.happy (JStr (lit "hello"))))]
              [HttpPost (gemini_url Scenario.happy) gemini_headers
                 (gemini_data (reformat_prompt Scenario.happy (JStr (lit "hello"))));
               HttpPost (gemini_url Scenario.happy) gemini_headers
                 (gemini_data (analyze_prompt Scenario.happy (JStr (lit "Formatted."))))]
              (lit "hello") (JStr (lit "Formatted."))
              (JStr Scenario.fenced_document)
              (dict [("fairnessScore", JInt 7)]))
    as (r & Hrun & Hstatus & _ & Hanalysis & Htext & _).
  - vm_compute. reflexivity.
  - vm_compute. discriminate.
  - vm_compute. reflexivity.
  - vm_compute. reflexivity.
  - vm_compute. reflexivity.
  - vm_compute. reflexivity.
  - exists r. auto.
Defined.

(** ** The prompts *)

Lemma task_emits_one_call (svc : Services) (prompt : str) (w : trace) :
  emitted (call_gemini_api svc prompt) w
  = [HttpPost (gemini_url svc) gemini_headers (gemini_data prompt)].
Proof. apply emitted_app, call_gemini_api_trace. Qed.

(** C8: each of the four prompts is a function of the input text (and, for
    chat, of the question) alone: it is the fixed template followed by the
    text, the same under any two sets of collaborators, configuration and
    runtime, and from any two traces.  Building it has no effect: the one
    event a task function adds to the trace is the generation call that
    carries the prompt. *)
Theorem prompts_are_pure
    (svc svc' : Services) (w : trace) (document_text question : str) :
  (analyze_prompt svc (JStr document_text)
   = analyze_prompt svc' (JStr document_text)
   /\ reformat_prompt svc (JStr document_text)
      = reformat_prompt svc' (JStr document_text)
   /\ simplify_prompt svc (JStr document_text)
      = simplify_prompt svc' (JStr document_text)
   /\ chat_prompt svc (JStr document_text) (JStr question)
      = chat_prompt svc' (JStr document_text) (JStr question))
  /\ (reformat_prompt svc (JStr document_text)
      = lit "Reformat the following text for maximum readability, applying proper paragraphs and structure. Do not change the wording. Return only the formatted text."
        ++ [nl; nl] ++ lit "DOCUMENT:" ++ [nl] ++ document_text
      /\ simplify_prompt svc (JStr document_text)
         = lit "Rewrite the following document in plain, easy-to-understand language. Maintain the original structure. Return only the simplified text."
           ++ [nl; nl] ++ lit "DOCUMENT:" ++ [nl] ++ document_text
      /\ chat_prompt svc (JStr document_text) (JStr question)
         = lit "Based ONLY on the document text provided, answer the user's question concisely."
           ++ [nl; nl] ++ lit "DOCUMENT:" ++ [nl] ++ document_text
           ++ [nl; nl] ++ lit "QUESTION:" ++ [nl] ++ question
      /\ analyze_prompt svc (JStr document_text)
         = lit "Analyze the following legal document and provide a structured JSON analysis with keys "
           ++ quoted "fairnessScore" ++ lit ", " ++ quoted "summary" ++ lit ", and "
           ++ quoted "riskRadar"
           ++ lit ". The riskRadar should be an array of objects, each with "
           ++ quoted "level" ++ lit ", " ++ quoted "title" ++ lit ", and "
           ++ quoted "explanation" ++ lit "." ++ [nl; nl] ++ lit "DOCUMENT:" ++ [nl]
           ++ document_text)
  /\ (emitted (analyze_document_with_gemini svc (JStr document_text)) w
      = [HttpPost (gemini_url svc) gemini_headers
           (gemini_data (analyze_prompt svc (JStr document_text)))]
      /\ emitted (reformat_document_with_gemini svc (JStr document_text)) w
         = [HttpPost (gemini_url svc) gemini_headers
              (gemini_data (reformat_prompt svc (JStr document_text)))]
      /\ emitted (simplify_document_with_gemini svc (JStr document_text)) w
         = [HttpPost (gemini_url svc) gemini_headers
              (gemini_data (simplify_prompt svc (JStr document_text)))]
      /\ emitted (answer_chat_question svc (JStr document_text) (JStr question)) w
         = [HttpPost (gemini_url svc) gemini_headers
              (gemini_data (chat_prompt svc (JStr document_text) (JStr question)))]).
Proof.
  split; [repeat split|split; [repeat split|]].
  split; [|split; [|split]]; try apply task_emits_one_call.
    apply emitted_app. unfold analyze_document_with_gemini.
    destruct (call_gemini_api_run svc (analyze_prompt svc (JStr document_text)) w)
      as [[response_text|e] Hrun].
  - rewrite (run_bind_return _ _ _ _ _ Hrun). apply interpret_response_trace.
  - rewrite (run_bind_raise _ _ _ _ _ Hrun). reflexivity.
Qed.

(** ** The simplify and chat views *)

Lemma lookup_nonempty (data : gmap str json) (key : str) (v : json) :
  data !! key = Some v -> bool_decide (data = ∅) = false.
Proof.
  intros H. apply bool_decide_eq_false_2. intros ->.
  rewrite lookup_empty in H. discriminate H.
Qed.

Lemma missing_present (svc : Services) (data : gmap str json) (key : str) (v : json) :
  data !! key = Some v -> missing svc (JObj data) key = Return false.
Proof.
  intros H. unfold missing, truthy, py_in.
  rewrite (lookup_nonempty _ _ _ H), H. reflexivity.
Qed.

(** What [simplify_endpoint] does once the body has passed validation. *)
Lemma simplify_endpoint_valid
    (svc : Services) (request : Request) (data : gmap str json)
    (document_text : json) (w : trace) :
  get_json request = Return (JObj data) ->
  data !! lit "documentText" = Some document_text ->
  simplify_endpoint svc request w =
  match call_gemini_api svc (simplify_prompt svc document_text) w with
  | (Return simplified_text, w') =>
      (Return {| body := dict [("simplifiedText", simplified_text)];
                 status := 200 |}, w')
  | (Raise e, w') =>
      (Return {| body := simplify_failed; status := 500 |},
       w' ++ [Stdout (lit "!!! ERROR in /simplify: " ++ exn_str e)])
  end.
Proof.
  intros Hjson Hdoc. unfold simplify_endpoint.
  rewrite run_try_except, run_bind. unfold lift at 1. rewrite Hjson.
  rewrite run_bind. unfold lift at 1. rewrite (missing_present _ _ _ _ Hdoc).
  rewrite run_bind. unfold lift at 1. cbn [getitem]. rewrite Hdoc.
  unfold simplify_document_with_gemini. rewrite run_bind.
  destruct (call_gemini_api svc _ w) as [[t|e] w']; reflexivity.
Qed.

(** What [chat_endpoint] does once the body has passed validation. *)
Lemma chat_endpoint_valid
    (svc : Services) (request : Request) (data : gmap str json)
    (document_text question : json) (w : trace) :
  get_json request = Return (JObj data) ->
  data !! lit "documentText" = Some document_text ->
  data !! lit "question" = Some question ->
  chat_endpoint svc request w =
  match call_gemini_api svc (chat_prompt svc document_text question) w with
  | (Return answer, w') =>
      (Return {| body := dict [("answer", answer)]; status := 200 |}, w')
  | (Raise e, w') =>
      (Return {| body := chat_failed; status := 500 |},
       w' ++ [Stdout (lit "!!! ERROR in /chat: " ++ exn_str e)])
  end.
Proof.
  intros Hjson Hdoc Hquestion. unfold chat_endpoint.
  rewrite run_try_except, run_bind. unfold lift at 1. rewrite Hjson.
  rewrite run_bind. unfold lift at 1. rewrite (missing_present _ _ _ _ Hquestion).
  cbn [py_in]. rewrite Hdoc.
  rewrite bool_decide_eq_true_2 by (eexists; reflexivity). cbn [negb].
  rewrite run_bind. unfold lift at 1. cbn [getitem]. rewrite Hdoc.
  rewrite run_bind. unfold lift at 1. rewrite Hquestion.
  unfold answer_chat_question. rewrite run_bind.
  destruct (call_gemini_api svc _ w) as [[t|e] w']; reflexivity.
Qed.

(** C9: a body whose [documentText] is the empty string passes the
    validation of [simplify_endpoint], and a body whose [documentText] or
    [question] is the empty string (the other key being present) passes that
    of [chat_endpoint]: the answer is not a 400, and the first thing the view
    does is the generation call, with the prompt built on the empty string. *)
Theorem empty_text_is_not_rejected (svc : Services) (w : trace) :
  (forall request data,
      get_json request = Return (JObj data) ->
      data !! lit "documentText" = Some (JStr []) ->
      exists r rest,
        simplify_endpoint svc request w
        = (Return r,
           w ++ HttpPost (gemini_url svc) gemini_headers
                  (gemini_data (simplify_prompt svc (JStr []))) :: rest)
        /\ status r <> 400%Z)
  /\ (forall request data document_text question,
        get_json request = Return (JObj data) ->
        data !! lit "documentText" = Some document_text ->
        data !! lit "question" = Some question ->
        document_text = JStr [] \/ question = JStr [] ->
        exists r rest,
          chat_endpoint svc request w
          = (Return r,
             w ++ HttpPost (gemini_url svc) gemini_headers
                    (gemini_data (chat_prompt svc document_text question)) :: rest)
          /\ status r <> 400%Z).
Proof.
  split.
  - intros request data Hjson Hdoc.
    rewrite (simplify_endpoint_valid _ _ _ _ _ Hjson Hdoc).
    destruct (call_gemini_api_run svc (simplify_prompt svc (JStr [])) w)
      as [[t|e] ->].
    + eexists _, []. split; [reflexivity|]. cbn. discriminate.
    + eexists _, [_]. rewrite <- app_assoc. split; [reflexivity|]. cbn. discriminate.
  - intros request data document_text question Hjson Hdoc Hquestion _.
    rewrite (chat_endpoint_valid _ _ _ _ _ _ Hjson Hdoc Hquestion).
    destruct (call_gemini_api_run svc (chat_prompt svc document_text question) w)
      as [[t|e] ->].
    + eexists _, []. split; [reflexivity|]. cbn. discriminate.
    + eexists _, [_]. rewrite <- app_assoc. split; [reflexivity|]. cbn. discriminate.
Qed.

Lemma empty_text_is_not_rejected_witness :
  (exists r rest,
      simplify_endpoint Scenario.happy
        (Scenario.posted (dict [("documentText", JStr [])])) []
      = (Return r,
         [] ++ HttpPost (gemini_url Scenario.happy) gemini_headers
                 (gemini_data (simplify_prompt Scenario.happy (JStr []))) :: rest)
      /\ status r <> 400%Z)
  /\ (exists r rest,
        chat_endpoint Scenario.happy
          (Scenario.posted (dict [("documentText", JStr (lit "Hello"));
                                  ("question", JStr [])])) []
        = (Return r,
           [] ++ HttpPost (gemini_url Scenario.happy) gemini_headers
                   (gemini_data (chat_prompt Scenario.happy
                                   (JStr (lit "Hello")) (JStr []))) :: rest)
        /\ status r <> 400%Z).
Proof.
  destruct (empty_text_is_not_rejected Scenario.happy []) as [Hsimplify Hchat].
  split.
  - apply (Hsimplify (Scenario.posted (dict [("documentText", JStr [])]))
             (list_to_map [(lit "documentText", JStr [])])).
    + reflexivity.
    + vm_compute. reflexivity.
  - apply (Hchat (Scenario.posted (dict [("documentText", JStr (lit "Hello"));
                                         ("question", JStr [])]))
             (list_to_map [(lit "documentText", JStr (lit "Hello"));
                           (lit "question", JStr [])])).
    + reflexivity.
    + vm_compute. reflexivity.
    + vm_compute. reflexivity.
    + right. reflexivity.
Defined.

(** ** What a failure shows to the client *)

(** Takes a view apart along every outcome of every step. *)
Ltac outcomes :=
  repeat first
    [ progress (rewrite run_bind)
    | progress (rewrite run_try_except)
    | progress (unfold lift, respond, raise, print)
    | progress (cbn beta iota delta [isinstance mret M_ret])
    | match goal with
      | |- context [if ?b then _ else _] => destruct b
      end
    | match goal with
      | |- context [call_gemini_api ?s ?p ?w] =>
          destruct (call_gemini_api s p w) as [[?|?] ?]
      end
    | match goal with
      | |- context [match ?r with Return _ => _ | Raise _ => _ end] => destruct r
      end ].

Lemma simplify_endpoint_answers (svc : Services) (request : Request) (w : trace) :
  exists r w',
    simplify_endpoint svc request w = (Return r, w')
    /\ (status r = 500%Z -> body r = simplify_failed).
Proof.
  unfold simplify_endpoint, simplify_document_with_gemini. outcomes;
    (eexists _, _; split; [reflexivity|]; cbn; first [discriminate | reflexivity]).
Qed.

Lemma chat_endpoint_answers (svc : Services) (request : Request) (w : trace) :
  exists r w',
    chat_endpoint svc request w = (Return r, w')
    /\ (status r = 500%Z -> body r = chat_failed).
Proof.
  unfold chat_endpoint, answer_chat_question. outcomes;
    (eexists _, _; split; [reflexivity|]; cbn; first [discriminate | reflexivity]).
Qed.

(** C10: once the request has passed validation, whichever of the three
    stages of [analyze_endpoint] raises, the view answers 500 with the
    message of that very exception under [error].  [simplify_endpoint] and
    [chat_endpoint] answer a failed generation call with 500 and their fixed
    message, the exception's own message going to standard output only; and
    whatever the request, a 500 from either of the two carries the fixed
    message. *)
Theorem error_exposure (svc : Services) (w : trace) :
  (forall request file e w',
      files request !! lit "file" = Some file ->
      filename file <> [] ->
      (get_text_from_file svc (read file) (mimetype file) w = (Raise e, w')
       \/ exists raw_text w1,
            get_text_from_file svc (read file) (mimetype file) w
            = (Return raw_text, w1)
            /\ (reformat_document_with_gemini svc (JStr raw_text) w1 = (Raise e, w')
                \/ exists formatted_text w2,
                     reformat_document_with_gemini svc (JStr raw_text) w1
                     = (Return formatted_text, w2)
                     /\ analyze_document_with_gemini svc formatted_text w2
                        = (Raise e, w'))) ->
      analyze_endpoint svc request w
      = (Return {| body := dict [("error", JStr (exn_str e))]; status := 500 |},
         w' ++ [Stdout (lit "!!! ERROR in /analyze: " ++ exn_str e)]))
  /\ (forall request data document_text e w',
        get_json request = Return (JObj data) ->
        data !! lit "documentText" = Some document_text ->
        simplify_document_with_gemini svc document_text w = (Raise e, w') ->
        simplify_endpoint svc request w
        = (Return {| body := simplify_failed; status := 500 |},
           w' ++ [Stdout (lit "!!! ERROR in /simplify: " ++ exn_str e)]))
  /\ (forall request data document_text question e w',
        get_json request = Return (JObj data) ->
        data !! lit "documentText" = Some document_text ->
        data !! lit "question" = Some question ->
        answer_chat_question svc document_text question w = (Raise e, w') ->
        chat_endpoint svc request w
        = (Return {| body := chat_failed; status := 500 |},
           w' ++ [Stdout (lit "!!! ERROR in /chat: " ++ exn_str e)]))
  /\ (forall request,
        exists r w',
          simplify_endpoint svc request w = (Return r, w')
          /\ (status r = 500%Z -> body r = simplify_failed))
  /\ (forall request,
        exists r w',
          chat_endpoint svc request w = (Return r, w')
          /\ (status r = 500%Z -> body r = chat_failed)).
Proof.
  split; [|split; [|split; [|split]]].
  - intros request file e w' Hfile Hname Hstage.
    unfold analyze_endpoint. rewrite run_try_except, Hfile.
    rewrite bool_decide_eq_false_2 by exact Hname.
    destruct Hstage as [Hextract | (raw_text & w1 & Hextract & Hstage)].
    { rewrite (run_bind_raise _ _ _ _ _ Hextract). reflexivity. }
    rewrite (run_bind_return _ _ _ _ _ Hextract).
    destruct Hstage as [Hreformat | (formatted_text & w2 & Hreformat & Hanalyze)].
    { rewrite (run_bind_raise _ _ _ _ _ Hreformat). reflexivity. }
    rewrite (run_bind_return _ _ _ _ _ Hreformat).
    rewrite (run_bind_raise _ _ _ _ _ Hanalyze). reflexivity.
  - intros request data document_text e w' Hjson Hdoc Hraise.
    rewrite (simplify_endpoint_valid _ _ _ _ _ Hjson Hdoc).
    unfold simplify_document_with_gemini in Hraise. rewrite Hraise. reflexivity.
  - intros request data document_text question e w' Hjson Hdoc Hquestion Hraise.
    rewrite (chat_endpoint_valid _ _ _ _ _ _ Hjson Hdoc Hquestion).
    unfold answer_chat_question in Hraise. rewrite Hraise. reflexivity.
  - intros request. apply simplify_endpoint_answers.
  - intros request. apply chat_endpoint_answers.
Qed.

Lemma error_exposure_witness :
  let svc := Scenario.answering 500 in
  let e := google_api_error (Scenario.generated 500 (JStr (lit "ok"))) in
  analyze_endpoint svc (Scenario.upload "a.txt" "text/plain" Scenario.hello) []
  = (Return {| body := dict [("error", JStr (exn_str e))]; status := 500 |},
     [HttpPost (gemini_url svc) gemini_headers
        (gemini_data (reformat_prompt svc (JStr (lit "hello"))))]
     ++ [Stdout (lit "!!! ERROR in /analyze: " ++ exn_str e)])
  /\ exn_str e = lit "Google API Error: 500 (raw body)"
  /\ simplify_endpoint svc (Scenario.posted (dict [("documentText", JStr (lit "hello"))])) []
     = (Return {| body := simplify_failed; status := 500 |},
        [HttpPost (gemini_url svc) gemini_headers
           (gemini_data (simplify_prompt svc (JStr (lit "hello"))))]
        ++ [Stdout (lit "!!! ERROR in /simplify: " ++ exn_str e)])
  /\ chat_endpoint svc (Scenario.posted (dict [("documentText", JStr (lit "hello"));
                                               ("question", JStr (lit "why"))])) []
     = (Return {| body := chat_failed; status := 500 |},
        [HttpPost (gemini_url svc) gemini_headers
           (gemini_data (chat_prompt svc (JStr (lit "hello")) (JStr (lit "why"))))]
        ++ [Stdout (lit "!!! ERROR in /chat: " ++ exn_str e)]).
Proof.
  cbv zeta.
  destruct (error_exposure (Scenario.answering 500) [])
    as (Hanalyze & Hsimplify & Hchat & _ & _).
  split; [|split; [|split]].
  - apply (Hanalyze _ {| filename := lit "a.txt"; read := Scenario.hello;
                         mimetype := lit "text/plain" |}).
    + vm_compute. reflexivity.
    + vm_compute. discriminate.
    + right. exists (lit "hello"), []. split.
      * vm_compute. reflexivity.
      * left. vm_compute. reflexivity.
  - vm_compute. reflexivity.
  - apply (Hsimplify _ (list_to_map [(lit "documentText", JStr (lit "hello"))])
             (JStr (lit "hello"))).
    + reflexivity.
    + vm_compute. reflexivity.
    + vm_compute. reflexivity.
  - apply (Hchat _ (list_to_map [(lit "documentText", JStr (lit "hello"));
                                 (lit "question", JStr (lit "why"))])
             (JStr (lit "hello")) (JStr (lit "why"))).
    + reflexivity.
    + vm_compute. reflexivity.
    + vm_compute. reflexivity.
    + vm_compute. reflexivity.
Defined.

(** ** The signup view *)

Lemma eq_str_true (v : json) (s : str) : eq_str v s = true <-> v = JStr s.
Proof.
  destruct v; cbn; try (split; [discriminate | intros H; discriminate H]).
  rewrite bool_decide_eq_true. split; [intros ->; reflexivity | congruence].
Qed.

(** C7, for the view with line 166 read as the single call
    [auth.create_user(email=email, password=password)]: on a JSON body whose
    [email] and [password] are non-empty the view makes exactly one
    account-creation call; when the provider returns a user it answers 201
    with the user's [uid]; when the provider raises it answers 400 with the
    message for [EMAIL_EXISTS], the message for [WEAK_PASSWORD], or the
    generic message for any other exception. *)
Theorem signup_single_call
    (svc : Services) (request : Request) (data : gmap str json)
    (email password : json) (w : trace) :
  get_json request = Return (JObj data) ->
  data !! lit "email" = Some email ->
  data !! lit "password" = Some password ->
  truthy email = true ->
  truthy password = true ->
  let w' := w ++ [AuthCreateUser email password] in
  (forall user,
      create_user svc w email password = Return user ->
      signup svc request w
      = (Return {| body := dict [("uid", JStr (uid user))]; status := 201 |}, w'))
  /\ (forall e,
        create_user svc w email password = Raise e ->
        signup svc request w
        = (Return {| body := dict [("error", JStr (signup_error_message e))];
                     status := 400 |},
           w' ++ [Stdout (lit "!!! ERROR in /signup: " ++ exn_str e)])
        /\ (exn_code e = Some (JStr (lit "EMAIL_EXISTS")) ->
            signup_error_message e = lit "The email address is already in use.")
        /\ (exn_code e = Some (JStr (lit "WEAK_PASSWORD")) ->
            signup_error_message e = lit "Password should be at least 6 characters.")
        /\ (exn_code e <> Some (JStr (lit "EMAIL_EXISTS")) ->
            exn_code e <> Some (JStr (lit "WEAK_PASSWORD")) ->
            signup_error_message e = lit "An unknown error occurred.")).
Proof.
  intros Hjson Hemail Hpassword Htruthy_email Htruthy_password w'.
  assert (Hbody : forall r,
             create_user svc w email password = r ->
             signup svc request w =
             match r with
             | Return user =>
                 (Return {| body := dict [("uid", JStr (uid user))]; status := 201 |}, w')
             | Raise e =>
                 (Return {| body := dict [("error", JStr (signup_error_message e))];
                            status := 400 |},
                  w' ++ [Stdout (lit "!!! ERROR in /signup: " ++ exn_str e)])
             end).
  { intros r Hr. unfold signup.
    rewrite run_try_except, run_bind. unfold lift at 1. rewrite Hjson.
    rewrite run_bind. unfold lift at 1. cbn [py_get]. rewrite Hemail.
    rewrite run_bind. unfold lift at 1. rewrite Hpassword.
    cbn [default from_option id]. rewrite Htruthy_email, Htruthy_password.
    cbn [negb orb]. rewrite run_bind. unfold external. rewrite Hr.
    destruct r; reflexivity. }
  split.
  - intros user Hcreate. apply (Hbody _ Hcreate).
  - intros e Hcreate. split; [apply (Hbody _ Hcreate)|].
    unfold signup_error_message. split; [|split].
    + intros ->. reflexivity.
    + intros ->. reflexivity.
    + intros Hne1 Hne2. destruct (exn_code e) as [code|]; [|reflexivity].
      destruct (eq_str code (lit "EMAIL_EXISTS")) eqn:H1.
      { apply eq_str_true in H1. subst code. contradiction. }
      destruct (eq_str code (lit "WEAK_PASSWORD")) eqn:H2.
      { apply eq_str_true in H2. subst code. contradiction. }
      reflexivity.
Qed.

Lemma signup_single_call_witness :
  let request :=
    Scenario.posted (dict [("email", JStr (lit "a@b.com"));
                           ("password", JStr (lit "secret1"))]) in
  let email := JStr (lit "a@b.com") in
  let password := JStr (lit "secret1") in
  let e := Scenario.provider_error "EMAIL_EXISTS" in
  signup Scenario.happy request []
  = (Return {| body := dict [("uid", JStr (lit "u123"))]; status := 201 |},
     [] ++ [AuthCreateUser email password])
  /\ signup (Scenario.refusing e) request []
     = (Return {| body := dict [("error", JStr (signup_error_message e))];
                  status := 400 |},
        ([] ++ [AuthCreateUser email password])
        ++ [Stdout (lit "!!! ERROR in /signup: " ++ exn_str e)])
  /\ signup_error_message e = lit "The email address is already in use.".
Proof.
  cbv zeta.
  pose (data := (list_to_map [(lit "email", JStr (lit "a@b.com"));
                              (lit "password", JStr (lit "secret1"))]
                 : gmap str json)).
  split; [|split].
  - destruct (signup_single_call Scenario.happy
                (Scenario.posted (JObj data)) data
                (JStr (lit "a@b.com")) (JStr (lit "secret1")) [])
      as [Hcreated _].
    + reflexivity.
    + vm_compute. reflexivity.
    + vm_compute. reflexivity.
    + vm_compute. reflexivity.
    + vm_compute. reflexivity.
    + apply (Hcreated {| uid := lit "u123" |}). reflexivity.
  - destruct (signup_single_call
                (Scenario.refusing (Scenario.provider_error "EMAIL_EXISTS"))
                (Scenario.posted (JObj data)) data
                (JStr (lit "a@b.com")) (JStr (lit "secret1")) [])
      as [_ Hrefused].
    + reflexivity.
    + vm_compute. reflexivity.
    + vm_compute. reflexivity.
    + vm_compute. reflexivity.
    + vm_compute. reflexivity.
    + apply (Hrefused (Scenario.provider_error "EMAIL_EXISTS")). reflexivity.
  - destruct (signup_single_call
                (Scenario.refusing (Scenario.provider_error "EMAIL_EXISTS"))
                (Scenario.posted (JObj data)) data
                (JStr (lit "a@b.com")) (JStr (lit "secret1")) [])
      as [_ Hrefused].
    + reflexivity.
    + vm_compute. reflexivity.
    + vm_compute. reflexivity.
    + vm_compute. reflexivity.
    + vm_compute. reflexivity.
    + apply (Hrefused (Scenario.provider_error "EMAIL_EXISTS") eq_refl).
      reflexivity.
Defined.

(** ** The views on malformed requests

    The validation answers, run on the concrete collaborators. *)

Example analyze_endpoint_no_file_part :
  analyze_endpoint Scenario.happy (Scenario.posted (dict [])) []
  = (Return {| body := dict [("error", JStr (lit "No file part"))];
               status := 400 |}, []).
Proof. vm_compute. reflexivity. Qed.

Example analyze_endpoint_no_file_selected :
  analyze_endpoint Scenario.happy
    (Scenario.upload "" "text/plain" Scenario.hello) []
  = (Return {| body := dict [("error", JStr (lit "No file selected"))];
               status := 400 |}, []).
Proof. vm_compute. reflexivity. Qed.

Example analyze_endpoint_empty_upload :
  analyze_endpoint Scenario.happy (Scenario.upload "a.txt" "text/plain" []) []
  = (Return {| body := dict [("error", JStr (lit "The uploaded file is empty."))];
               status := 500 |},
     [Stdout (lit "!!! ERROR in /analyze: The uploaded file is empty.")]).
Proof. vm_compute. reflexivity. Qed.

Example simplify_endpoint_empty_body :
  simplify_endpoint Scenario.happy (Scenario.posted (dict [])) []
  = (Return {| body := dict [("error", JStr (lit "Missing document text"))];
               status := 400 |}, []).
Proof. vm_compute. reflexivity. Qed.

Example chat_endpoint_no_question :
  chat_endpoint Scenario.happy
    (Scenario.posted (dict [("documentText", JStr (lit "Hello"))])) []
  = (Return {| body := dict [("error", JStr (lit "Missing data"))];
               status := 400 |}, []).
Proof. vm_compute. reflexivity. Qed.

Example signup_no_password :
  signup Scenario.happy
    (Scenario.posted (dict [("email", JStr (lit "a@b.com"))])) []
  = (Return {| body := dict [("error", JStr (lit "Email and password are required"))];
               status := 400 |}, []).
Proof. vm_compute. reflexivity. Qed.

Example get_text_from_file_docx :
  get_text_from_file Scenario.happy Scenario.hello
    (lit "application/vnd.openxmlformats-officedocument.wordprocessingml.document") []
  = (Return (lit "First." ++ [nl] ++ lit "Second."), []).
Proof. vm_compute. reflexivity. Qed.

Example get_text_from_file_pdf :
  get_text_from_file Scenario.happy Scenario.hello (lit "application/pdf") []
  = (Return (lit "scanned"), [VisionDocumentTextDetection Scenario.hello]).
Proof. vm_compute. reflexivity. Qed.

(** * Further properties *)

(** ** Cleaning: what is kept and what is removed *)

Lemma contains_shorter (s sub more : str) :
  contains s (sub ++ more) = true -> contains s sub = true.
Proof.
  rewrite !contains_infix. intros (before & after & ->).
  exists before, (more ++ after). rewrite <- app_assoc. reflexivity.
Qed.

Lemma replace_from_absent (old new s : str) :
  contains s old = false -> replace_from old new 0 s = s.
Proof.
  induction s as [|c s IH]; [reflexivity|].
  cbn [contains replace_from]. intros H.
  apply orb_false_iff in H as [H1 H2].
  change (startswith (c :: s) old) with (startswith (c :: s) old) in H1.
  rewrite H1, (IH H2). reflexivity.
Qed.

Lemma replace_from_skip (old new pre rest : str) :
  replace_from old new (length pre) (pre ++ rest) = replace_from old new 0 rest.
Proof.
  induction pre as [|c pre IH]; [reflexivity|]. exact IH.
Qed.

Lemma replace_from_occurrence (c : N) (old' new rest : str) :
  replace_from (c :: old') new 0 ((c :: old') ++ rest)
  = new ++ replace_from (c :: old') new 0 rest.
Proof.
  cbn [app replace_from].
  change (c :: old' ++ rest) with ((c :: old') ++ rest).
  rewrite startswith_app.
  replace (length (c :: old') - 1) with (length old') by (cbn [length]; lia).
  rewrite replace_from_skip. reflexivity.
Qed.

(** A stretch without the first character of [old] is copied as it is. *)
Lemma replace_from_copy (b : N) (old' new a rest : str) :
  Forall (fun c => c <> b) a ->
  replace_from (b :: old') new 0 (a ++ rest)
  = a ++ replace_from (b :: old') new 0 rest.
Proof.
  induction 1 as [|c a Hc _ IH]; [reflexivity|].
  cbn [app replace_from startswith].
  destruct (N.eqb_spec b c) as [->|_]; [contradiction|].
  cbn [andb]. rewrite IH. reflexivity.
Qed.

Lemma contains_without (b : N) (sub' s : str) :
  Forall (fun c => c <> b) s -> contains s (b :: sub') = false.
Proof.
  induction 1 as [|c s Hc _ IH]; [reflexivity|].
  cbn [contains startswith]. rewrite IH.
  destruct (N.eqb_spec b c) as [->|_]; [contradiction|]. reflexivity.
Qed.

Lemma lstrip_lstrip (s : str) : lstrip (lstrip s) = lstrip s.
Proof.
  induction s as [|c s IH]; [reflexivity|].
  cbn [lstrip]. destruct (isspace c) eqn:Hc; [exact IH|].
  cbn [lstrip]. rewrite Hc. reflexivity.
Qed.

Lemma lstrip_app (a rest : str) :
  lstrip (a ++ rest) = if forallb isspace a then lstrip rest else lstrip a ++ rest.
Proof.
  induction a as [|c a IH]; [reflexivity|].
  cbn [app lstrip forallb]. destruct (isspace c); [exact IH|reflexivity].
Qed.

Lemma forallb_isspace_rev (s : str) :
  forallb isspace (rev s) = forallb isspace s.
Proof.
  induction s as [|c s IH]; [reflexivity|].
  cbn [rev forallb]. rewrite forallb_app, IH. cbn [forallb].
  rewrite andb_true_r. apply andb_comm.
Qed.

Lemma rstrip_cons (c : N) (s : str) :
  rstrip (c :: s)
  = if isspace c && forallb isspace s then [] else c :: rstrip s.
Proof.
  unfold rstrip. cbn [rev]. rewrite lstrip_app, forallb_isspace_rev.
  destruct (forallb isspace s) eqn:Hs.
  - rewrite andb_true_r. cbn [lstrip].
    assert (Hall : lstrip (rev s) = []).
    { rewrite <- (app_nil_r (rev s)), lstrip_app, forallb_isspace_rev, Hs. reflexivity. }
    rewrite Hall. destruct (isspace c); reflexivity.
  - rewrite andb_false_r, rev_app_distr. reflexivity.
Qed.

Lemma lstrip_rstrip (s : str) : lstrip s = s -> lstrip (rstrip s) = rstrip s.
Proof.
  destruct s as [|c s]; [reflexivity|].
  cbn [lstrip]. destruct (isspace c) eqn:Hc.
  - intros H. exfalso.
    destruct (lstrip_suffix s) as [removed Hremoved].
    apply (f_equal (@length N)) in H. rewrite Hremoved in H at 2.
    cbn [length] in H. rewrite length_app in H. lia.
  - intros _. rewrite rstrip_cons, Hc. cbn [andb lstrip]. rewrite Hc. reflexivity.
Qed.

Lemma rstrip_rstrip (s : str) : rstrip (rstrip s) = rstrip s.
Proof. unfold rstrip. rewrite rev_involutive, lstrip_lstrip. reflexivity. Qed.

Lemma strip_strip (s : str) : strip (strip s) = strip s.
Proof.
  unfold strip. rewrite (lstrip_rstrip (lstrip s) (lstrip_lstrip s)).
  apply rstrip_rstrip.
Qed.

Lemma startswith_without (b : N) (sub' s : str) :
  Forall (fun c => c <> b) s -> startswith s (b :: sub') = false.
Proof.
  intros [|c s' Hc _]; [reflexivity|].
  cbn [startswith]. destruct (N.eqb_spec b c) as [->|_]; [contradiction|].
  reflexivity.
Qed.

Lemma cleaned_text_plain (s : str) :
  contains s (lit "```") = false -> cleaned_text s = strip s.
Proof.
  intros H. unfold cleaned_text, replace.
  change (lit "```json") with (96 :: 96 :: 96 :: lit "json")%N.
  change (lit "```") with [96; 96; 96]%N in *.
  rewrite (replace_from_absent _ _ s).
  - rewrite (replace_from_absent _ _ s H). reflexivity.
  - destruct (contains s (96 :: 96 :: 96 :: lit "json")%N) eqn:Hjson; [|reflexivity].
    apply (contains_shorter s [96; 96; 96]%N (lit "json")) in Hjson. congruence.
Qed.

Lemma cleaned_text_fence_free (s : str) :
  contains (cleaned_text s) (lit "```") = false.
Proof.
  destruct (contains (cleaned_text s) (lit "```")) eqn:H; [|reflexivity].
  apply contains_strip in H.
  change (replace ?t (lit "```") []) with (replace_from [96; 96; 96]%N [] 0 t) in H.
  change (lit "```") with [96; 96; 96]%N in H.
  rewrite replace_from_no_run in H. discriminate H.
Qed.

(** ** What the cleaning deletes *)

(** The scan copies the characters before the leftmost occurrence. *)
Lemma replace_from_before (old new a t : str) :
  (forall i, i < length a -> startswith (drop i (a ++ t)) old = false) ->
  replace_from old new 0 (a ++ t) = a ++ replace_from old new 0 t.
Proof.
  induction a as [|c a IH]; intros H; [reflexivity|].
  pose proof (H 0 ltac:(cbn; lia)) as Hhere. cbn [drop app] in Hhere.
  cbn [app replace_from]. rewrite Hhere. f_equal. apply IH.
  intros i Hi. apply (H (S i)). cbn. lia.
Qed.

Lemma leftmost_occurrence (s old : str) :
  contains s old = true ->
  exists a rest,
    s = a ++ old ++ rest
    /\ forall i, i < length a -> startswith (drop i s) old = false.
Proof.
  induction s as [|c s IH]; cbn [contains]; intros H.
  - rewrite orb_false_r in H. apply startswith_prefix in H as [rest H].
    exists [], rest. split; [exact H|]. cbn. intros i Hi. lia.
  - destruct (startswith (c :: s) old) eqn:Hhere.
    + apply startswith_prefix in Hhere as [rest Hrest].
      exists [], rest. split; [exact Hrest|]. cbn. intros i Hi. lia.
    + cbn [orb] in H. destruct (IH H) as (a & rest & Hs & Hleft).
      exists (c :: a), rest. split; [rewrite Hs; reflexivity|].
      intros [|i] Hi; [exact Hhere|].
      cbn [drop]. apply Hleft. cbn in Hi. lia.
Qed.

(** [str.replace] with an empty replacement deletes the occurrences of a
    non-empty marker. *)
Lemma replace_from_deleted (c : N) (old' s : str) :
  deleted (c :: old') s (replace_from (c :: old') [] 0 s).
Proof.
  remember (length s) as n eqn:Hn. revert s Hn.
  induction n as [n IH] using lt_wf_ind. intros s ->.
  destruct (contains s (c :: old')) eqn:Hocc.
  - destruct (leftmost_occurrence s (c :: old') Hocc) as (a & rest & -> & Hleft).
    rewrite replace_from_before by exact Hleft.
    rewrite replace_from_occurrence.
    apply (deleted_leftmost (c :: old') a rest); [exact Hleft|].
    apply (IH (length rest)); [|reflexivity].
    rewrite !length_app. cbn [length]. lia.
  - rewrite replace_from_absent by exact Hocc. apply deleted_absent. exact Hocc.
Qed.

(** What is left after the deletion is determined by [deleted]. *)
Lemma deleted_unique (old s x y : str) :
  deleted old s x -> deleted old s y -> x = y.
Proof.
  intros Hx. revert y.
  induction Hx as [s Habsent|a rest rest' Hleft Hrest IH]; intros y Hy.
  - inversion Hy as [s0 _ H0 H1|a2 rest2 rest2' _ _ H0 H1]; [reflexivity|].
    subst s. rewrite contains_middle in Habsent. discriminate Habsent.
  - inversion Hy as [s0 Habsent H0 H1|a2 rest2 rest2' Hleft2 Hrest2 H0 H1].
    + rewrite contains_middle in Habsent. discriminate Habsent.
    + assert (Hlen : length a2 = length a).
      { destruct (lt_eq_lt_dec (length a2) (length a)) as [[Hlt|Heq]|Hgt];
          [exfalso|exact Heq|exfalso].
        - specialize (Hleft (length a2) Hlt).
          rewrite <- H0, drop_app_length, startswith_app in Hleft.
          discriminate Hleft.
        - specialize (Hleft2 (length a) Hgt).
          rewrite H0, drop_app_length, startswith_app in Hleft2.
          discriminate Hleft2. }
      apply app_inj_1 in H0 as [-> H0]; [|exact Hlen].
      apply app_inv_head in H0. subst rest2.
      f_equal. apply IH. exact Hrest2.
Qed.

Lemma lstrip_spaces (s : str) :
  exists removed, s = removed ++ lstrip s /\ forallb isspace removed = true.
Proof.
  induction s as [|c s (removed & IH & Hspaces)]; [exists []; auto|].
  cbn [lstrip]. destruct (isspace c) eqn:Hc.
  - exists (c :: removed). cbn [app forallb]. rewrite <- IH, Hc, Hspaces. auto.
  - exists []. auto.
Qed.

Lemma rstrip_spaces (s : str) :
  exists removed, s = rstrip s ++ removed /\ forallb isspace removed = true.
Proof.
  unfold rstrip. destruct (lstrip_spaces (rev s)) as (removed & H & Hspaces).
  exists (rev removed). split.
  - rewrite <- rev_app_distr, <- H, rev_involutive. reflexivity.
  - rewrite forallb_isspace_rev. exact Hspaces.
Qed.

Lemma lstrip_head (s : str) (c : N) :
  head (lstrip s) = Some c -> isspace c = false.
Proof.
  induction s as [|x s IH]; [discriminate|].
  cbn [lstrip]. destruct (isspace x) eqn:Hx; [exact IH|].
  cbn. intros H. injection H as <-. exact Hx.
Qed.

Lemma rstrip_last (s : str) (c : N) :
  last (rstrip s) = Some c -> isspace c = false.
Proof.
  unfold rstrip. destruct (lstrip (rev s)) as [|x t] eqn:H; [discriminate|].
  cbn [rev]. rewrite last_snoc. intros Hc. injection Hc as <-.
  apply (lstrip_head (rev s)). rewrite H. reflexivity.
Qed.

Lemma strip_spaces (s : str) :
  exists leading trailing,
    s = leading ++ strip s ++ trailing
    /\ forallb isspace leading = true /\ forallb isspace trailing = true.
Proof.
  unfold strip.
  destruct (lstrip_spaces s) as (l & Hl & Hls).
  destruct (rstrip_spaces (lstrip s)) as (r & Hr & Hrs).
  exists l, r. rewrite <- Hr, <- Hl. auto.
Qed.

Lemma strip_edges (s : str) (c : N) :
  (head (strip s) = Some c -> isspace c = false)
  /\ (last (strip s) = Some c -> isspace c = false).
Proof.
  split.
  - unfold strip.
    rewrite <- (lstrip_rstrip (lstrip s) (lstrip_lstrip s)).
    apply lstrip_head.
  - apply rstrip_last.
Qed.

(** C4, amended: the cleaning deletes every occurrence of the opening marker
    (three backticks and [json]), found from the left and without overlap,
    then every occurrence of three backticks in what is left, wherever these
    occur in the response text, the interior included; then it deletes the
    whitespace at the two ends, and nothing else.  What the cleaning returns
    is determined by this: the result of each deletion is unique.  No run
    of three backticks is left anywhere in the cleaned text, which neither
    starts nor ends with whitespace, and nothing is added or reordered: the
    cleaned text is the response text with characters deleted. *)
Theorem cleaned_text_has_no_fence (response_text : str) :
  (exists without_json without_fences leading trailing,
      deleted (lit "```json") response_text without_json
      /\ deleted (lit "```") without_json without_fences
      /\ without_fences = leading ++ cleaned_text response_text ++ trailing
      /\ forallb isspace leading = true
      /\ forallb isspace trailing = true
      /\ (forall other,
            deleted (lit "```json") response_text other -> other = without_json)
      /\ (forall other,
            deleted (lit "```") without_json other -> other = without_fences))
  /\ (forall c, head (cleaned_text response_text) = Some c -> isspace c = false)
  /\ (forall c, last (cleaned_text response_text) = Some c -> isspace c = false)
  /\ contains (cleaned_text response_text) (lit "```") = false
  /\ cleaned_text response_text `sublist_of` response_text.
Proof.
  split; [|split; [|split; [|split]]].
  - pose (without_json := replace response_text (lit "```json") []).
    pose (without_fences := replace without_json (lit "```") []).
    assert (H1 : deleted (lit "```json") response_text without_json)
      by exact (replace_from_deleted 96%N (96 :: 96 :: lit "json")%N response_text).
    assert (H2 : deleted (lit "```") without_json without_fences)
      by exact (replace_from_deleted 96%N [96; 96]%N without_json).
    destruct (strip_spaces without_fences) as (leading & trailing & H & Hl & Ht).
    exists without_json, without_fences, leading, trailing.
    split; [exact H1|]. split; [exact H2|]. split; [exact H|].
    split; [exact Hl|]. split; [exact Ht|]. split.
    + intros other Hother. exact (deleted_unique _ _ _ _ Hother H1).
    + intros other Hother. exact (deleted_unique _ _ _ _ Hother H2).
  - intros c. apply strip_edges.
  - intros c. apply strip_edges.
  - apply cleaned_text_fence_free.
  - unfold cleaned_text.
    etransitivity; [apply sublist_strip|].
    etransitivity; [apply sublist_replace_from|].
    apply sublist_replace_from.
Qed.

(** X1: cleaning is idempotent: a cleaned text is left as it is by a second
    cleaning. *)
Theorem cleaned_text_idempotent (response_text : str) :
  cleaned_text (cleaned_text response_text) = cleaned_text response_text.
Proof.
  rewrite (cleaned_text_plain (cleaned_text response_text))
    by apply cleaned_text_fence_free.
  unfold cleaned_text. apply strip_strip.
Qed.

(** X2: a response text without three backticks in a row reaches
    [json.loads] with nothing but the whitespace at its two ends removed: the
    interpreter returns what [json.loads] returns on the stripped text, the
    fallback when that raises [JSONDecodeError], and lets any other exception
    through. *)
Theorem interpret_response_unfenced
    (svc : Services) (response_text : str) (w : trace) :
  contains response_text (lit "```") = false ->
  cleaned_text response_text = strip response_text
  /\ interpret_response svc (JStr response_text) w
     = (match json_loads svc (strip response_text) with
        | Return analysis_data => Return analysis_data
        | Raise e =>
            if isinstance e JSONDecodeError then Return fallback_analysis
            else Raise e
        end, w).
Proof.
  intros H. split; [apply cleaned_text_plain; exact H|].
  unfold interpret_response. rewrite run_try_except, run_bind. unfold lift.
  rewrite (cleaned_text_plain _ H).
  destruct (json_loads svc (strip response_text)) as [v|e]; [reflexivity|].
  destruct (isinstance e JSONDecodeError); reflexivity.
Qed.

Lemma interpret_response_unfenced_witness :
  cleaned_text (lit "  {}  ") = strip (lit "  {}  ")
  /\ interpret_response Scenario.happy (JStr (lit "  {}  ")) []
     = (match json_loads Scenario.happy (strip (lit "  {}  ")) with
        | Return analysis_data => Return analysis_data
        | Raise e =>
            if isinstance e JSONDecodeError then Return fallback_analysis
            else Raise e
        end, []).
Proof.
  apply (interpret_response_unfenced Scenario.happy (lit "  {}  ") []).
  vm_compute. reflexivity.
Defined.

(** X3: when a document is wrapped in a [```json] fence and a closing fence,
    with text before and after, and none of the three pieces holds a
    backtick, cleaning removes the two fences and keeps all three pieces:
    what surrounds the fenced document stays in the text handed to
    [json.loads]. *)
Theorem cleaned_text_fenced (before document after : str) :
  Forall (fun c => c <> 96%N) before ->
  Forall (fun c => c <> 96%N) document ->
  Forall (fun c => c <> 96%N) after ->
  startswith after (lit "json") = false ->
  cleaned_text (before ++ lit "```json" ++ document ++ lit "```" ++ after)
  = strip (before ++ document ++ after).
Proof.
  intros Hbefore Hdocument Hafter Hjson. unfold cleaned_text, replace.
  change (lit "```json") with (96 :: 96 :: 96 :: lit "json")%N.
  change (lit "```") with [96; 96; 96]%N.
  assert (Hclose : contains ([96; 96; 96]%N ++ after) (96 :: 96 :: 96 :: lit "json")%N
                   = false).
  { cbn [app contains startswith]. rewrite !N.eqb_refl. cbn [andb].
    rewrite Hjson, (contains_without _ _ _ Hafter).
    destruct Hafter as [|c after' Hc _]; [reflexivity|].
    destruct (N.eqb_spec 96%N c) as [Heq|_]; [symmetry in Heq; contradiction|].
    reflexivity. }
  rewrite (replace_from_copy _ _ _ before _ Hbefore).
  rewrite replace_from_occurrence. cbn [app].
  rewrite (replace_from_copy _ _ _ document _ Hdocument).
  rewrite (replace_from_absent _ _ _ Hclose).
  rewrite (replace_from_copy _ _ _ before _ Hbefore).
  rewrite (replace_from_copy _ _ _ document _ Hdocument).
  rewrite replace_from_occurrence. cbn [app].
  rewrite (replace_from_absent _ _ after) by (apply contains_without; exact Hafter).
  reflexivity.
Qed.

Lemma cleaned_text_fenced_witness :
  cleaned_text (lit "Here: " ++ lit "```json" ++ (nl :: lit "{}" ++ [nl])
                ++ lit "```" ++ lit " done ")
  = strip (lit "Here: " ++ (nl :: lit "{}" ++ [nl]) ++ lit " done ").
Proof.
  apply (cleaned_text_fenced (lit "Here: ") (nl :: lit "{}" ++ [nl]) (lit " done ")).
  - vm_compute. repeat constructor; discriminate.
  - vm_compute. repeat constructor; discriminate.
  - vm_compute. repeat constructor; discriminate.
  - vm_compute. reflexivity.
Defined.

(** ** The text extractor: which strategy, and what can come out *)

Lemma text_prefix_excludes (mime_type : str) :
  startswith mime_type (lit "text/") = true ->
  startswith mime_type (lit "application/pdf") = false
  /\ startswith mime_type (lit "image/") = false.
Proof.
  intros H. apply startswith_prefix in H as [rest ->]. split; reflexivity.
Qed.

(** X4: whenever [get_text_from_file] returns a text, the bytes were not
    empty and the text is the product of exactly one strategy, chosen in the
    order of the source: the paragraphs of the word-processing document
    joined by newlines; else the text detected by the one OCR call, whose
    error message was empty; else the UTF-8 decoding of the bytes. *)
Theorem get_text_from_file_returns
    (svc : Services) (file_content : bytes) (mime_type : str)
    (w w' : trace) (t : str) :
  get_text_from_file svc file_content mime_type w = (Return t, w') ->
  file_content <> []
  /\ ((contains mime_type (lit "wordprocessingml.document") = true
       /\ w' = w
       /\ exists paragraphs,
            docx_paragraphs svc file_content = Return paragraphs
            /\ t = join [nl] paragraphs)
      \/ (contains mime_type (lit "wordprocessingml.document") = false
          /\ (startswith mime_type (lit "application/pdf") = true
              \/ startswith mime_type (lit "image/") = true)
          /\ w' = w ++ [VisionDocumentTextDetection file_content]
          /\ exists response,
               document_text_detection svc w file_content = Return response
               /\ error_message response = []
               /\ t = full_text_annotation_text response)
      \/ (contains mime_type (lit "wordprocessingml.document") = false
          /\ startswith mime_type (lit "text/") = true
          /\ w' = w
          /\ decode_utf8 svc file_content = Some t)).
Proof.
  unfold get_text_from_file. case_bool_decide as Hempty; [discriminate|].
  intros H. split; [exact Hempty|].
  destruct (contains mime_type _) eqn:Hdocx.
  { left. rewrite run_try_except, run_bind in H. unfold lift in H.
    destruct (docx_paragraphs svc file_content) as [paragraphs|e]; [|discriminate H].
    injection H as <- <-. eauto. }
  destruct (startswith mime_type (lit "application/pdf")
            || startswith mime_type (lit "image/")) eqn:Hocr.
  { right. left. rewrite run_bind in H. unfold external in H.
    destruct (document_text_detection svc w file_content) as [response|e] eqn:Hcall;
      [|discriminate H].
    case_bool_decide as Herror; [|discriminate H].
    injection H as <- <-. apply orb_true_iff in Hocr. eauto 10. }
  destruct (startswith mime_type (lit "text/")) eqn:Htext; [|discriminate H].
  right. right. destruct (decode_utf8 svc file_content) as [t'|]; [|discriminate H].
  injection H as <- <-. auto.
Qed.

Lemma get_text_from_file_returns_witness :
  Scenario.hello <> []
  /\ ((contains (lit "text/plain") (lit "wordprocessingml.document") = true
       /\ [] = ([] : trace)
       /\ exists paragraphs,
            docx_paragraphs Scenario.happy Scenario.hello = Return paragraphs
            /\ lit "hello" = join [nl] paragraphs)
      \/ (contains (lit "text/plain") (lit "wordprocessingml.document") = false
          /\ (startswith (lit "text/plain") (lit "application/pdf") = true
              \/ startswith (lit "text/plain") (lit "image/") = true)
          /\ [] = [] ++ [VisionDocumentTextDetection Scenario.hello]
          /\ exists response,
               document_text_detection Scenario.happy [] Scenario.hello
               = Return response
               /\ error_message response = []
               /\ lit "hello" = full_text_annotation_text response)
      \/ (contains (lit "text/plain") (lit "wordprocessingml.document") = false
          /\ startswith (lit "text/plain") (lit "text/") = true
          /\ [] = ([] : trace)
          /\ decode_utf8 Scenario.happy Scenario.hello = Some (lit "hello"))).
Proof.
  apply (get_text_from_file_returns Scenario.happy Scenario.hello
           (lit "text/plain") [] [] (lit "hello")).
  vm_compute. reflexivity.
Defined.

(** X5: the exceptions that can leave [get_text_from_file] are these six and
    no other: the empty-file exception; the document parser's failure,
    rewrapped with the docx prefix before the parser's own message; the OCR
    service's reported error, with the Vision prefix; whatever the OCR client
    itself raised, unchanged; the could-not-read exception for bytes that do
    not decode; the unsupported-type exception.  The parser's and the
    decoder's own exceptions never leave as they are. *)
Theorem get_text_from_file_raises
    (svc : Services) (file_content : bytes) (mime_type : str)
    (w w' : trace) (e : exn) :
  get_text_from_file svc file_content mime_type w = (Raise e, w') ->
  (file_content = [] /\ w' = w
   /\ e = mkException (lit "The uploaded file is empty."))
  \/ (exists cause,
        docx_paragraphs svc file_content = Raise cause /\ w' = w
        /\ e = mkException (lit "Error reading .docx file: " ++ exn_str cause))
  \/ (exists response,
        document_text_detection svc w file_content = Return response
        /\ error_message response <> []
        /\ w' = w ++ [VisionDocumentTextDetection file_content]
        /\ e = mkException (lit "Vision AI Error: " ++ error_message response))
  \/ (document_text_detection svc w file_content = Raise e
      /\ w' = w ++ [VisionDocumentTextDetection file_content])
  \/ (decode_utf8 svc file_content = None /\ w' = w
      /\ e = mkException (lit "Could not read text file."))
  \/ (w' = w
      /\ e = mkException (lit "Unsupported file type: " ++ mime_type ++ lit ".")).
Proof.
  unfold get_text_from_file. case_bool_decide as Hempty.
  { intros H. injection H as <- <-. left. auto. }
  destruct (contains mime_type _) eqn:Hdocx.
  { rewrite run_try_except, run_bind. unfold lift.
    destruct (docx_paragraphs svc file_content) as [paragraphs|cause];
      [discriminate|].
    intros H. injection H as <- <-. right. left. eauto. }
  destruct (startswith mime_type (lit "application/pdf")
            || startswith mime_type (lit "image/")) eqn:Hocr.
  { rewrite run_bind. unfold external.
    destruct (document_text_detection svc w file_content) as [response|e0].
    - case_bool_decide as Herror; [discriminate|].
      intros H. injection H as <- <-. right. right. left. eauto.
    - intros H. injection H as <- <-. right. right. right. left. auto. }
  destruct (startswith mime_type (lit "text/")).
  - destruct (decode_utf8 svc file_content) eqn:Hdecode; [discriminate|].
    intros H. injection H as <- <-. do 4 right. left. auto.
  - intros H. injection H as <- <-. do 5 right. auto.
Qed.

Lemma get_text_from_file_raises_witness :
  let content := [Byte.x68; Byte.xff] in
  let e := mkException (lit "Could not read text file.") in
  (content = [] /\ [] = ([] : trace)
   /\ e = mkException (lit "The uploaded file is empty."))
  \/ (exists cause,
        docx_paragraphs Scenario.happy content = Raise cause /\ [] = ([] : trace)
        /\ e = mkException (lit "Error reading .docx file: " ++ exn_str cause))
  \/ (exists response,
        document_text_detection Scenario.happy [] content = Return response
        /\ error_message response <> []
        /\ [] = [] ++ [VisionDocumentTextDetection content]
        /\ e = mkException (lit "Vision AI Error: " ++ error_message response))
  \/ (document_text_detection Scenario.happy [] content = Raise e
      /\ [] = [] ++ [VisionDocumentTextDetection content])
  \/ (decode_utf8 Scenario.happy content = None /\ [] = ([] : trace)
      /\ e = mkException (lit "Could not read text file."))
  \/ ([] = ([] : trace)
      /\ e = mkException (lit "Unsupported file type: " ++ lit "text/csv" ++ lit ".")).
Proof.
  apply (get_text_from_file_raises Scenario.happy [Byte.x68; Byte.xff]
           (lit "text/csv") [] []).
  vm_compute. reflexivity.
Defined.

(** X6: a media type that starts with [text/] and does not hold the
    word-processing marker cannot start with [application/pdf] or [image/],
    so non-empty bytes of such a type are decoded as UTF-8 and nothing else
    happens: no collaborator is called, and undecodable bytes give the
    could-not-read exception. *)
Theorem get_text_from_file_text
    (svc : Services) (file_content : bytes) (mime_type : str) (w : trace) :
  file_content <> [] ->
  contains mime_type (lit "wordprocessingml.document") = false ->
  startswith mime_type (lit "text/") = true ->
  get_text_from_file svc file_content mime_type w
  = (match decode_utf8 svc file_content with
     | Some t => Return t
     | None => Raise (mkException (lit "Could not read text file."))
     end, w).
Proof.
  intros Hne Hdocx Htext. unfold get_text_from_file.
  rewrite bool_decide_eq_false_2 by exact Hne.
  destruct (text_prefix_excludes mime_type Htext) as [Hpdf Himage].
  rewrite Hdocx, Hpdf, Himage, Htext.
  destruct (decode_utf8 svc file_content); reflexivity.
Qed.

Lemma get_text_from_file_text_witness :
  get_text_from_file Scenario.happy [Byte.x68; Byte.xff] (lit "text/csv") []
  = (match decode_utf8 Scenario.happy [Byte.x68; Byte.xff] with
     | Some t => Return t
     | None => Raise (mkException (lit "Could not read text file."))
     end, []).
Proof.
  apply (get_text_from_file_text Scenario.happy [Byte.x68; Byte.xff] (lit "text/csv") []).
  - discriminate.
  - vm_compute. reflexivity.
  - vm_compute. reflexivity.
Defined.

(** ** The generation client: every way out *)

(** Opens, in hypothesis [H], the steps of a computation one by one, keeping
    the outcome of each as an equation. *)
Ltac open_steps H :=
  unfold mbind, M_bind, lift, external, raise, mret, M_ret in H;
  cbn beta iota in H;
  repeat (match type of H with
          | context [match ?x with _ => _ end] => destruct x eqn:?
          | context [if ?b then _ else _] => destruct b eqn:?
          end;
          cbn beta iota in H;
          try discriminate H).

(** X7: [call_gemini_api] returns a value only on one path: the one HTTP
    call was answered with status code 200, the body decoded to an object
    whose [candidates] is a non-empty list, and the value returned is the
    text of the first content part of its first element. *)
Theorem call_gemini_api_returns
    (svc : Services) (prompt : str) (w w' : trace) (t : json) :
  call_gemini_api svc prompt w = (Return t, w') ->
  w' = w ++ [HttpPost (gemini_url svc) gemini_headers (gemini_data prompt)]
  /\ exists response body candidate rest,
       requests_post svc w (gemini_url svc) gemini_headers (gemini_data prompt)
       = Return response
       /\ status_code response = 200%Z
       /\ json_method response = Return (JObj body)
       /\ body !! lit "candidates" = Some (JArr (candidate :: rest))
       /\ first_part_text candidate = Some t.
Proof.
  intros H.
  pose proof (call_gemini_api_trace svc prompt w) as Htrace.
  rewrite H in Htrace. cbn [snd] in Htrace. split; [exact Htrace|].
  unfold call_gemini_api in H. open_steps H.
  apply pair_equal_spec in H as [Ht _].
  match goal with
  | Hs : negb (status_code ?r =? 200)%Z = false |- _ =>
      apply negb_false_iff, Z.eqb_eq in Hs; exists r
  end.
  match goal with
  | Hget : py_get _ ?b _ = Return _,
    Hcands : getitem _ ?b _ = Return ?cs,
    Hfirst : getitem0 _ ?cs = Return ?cand,
    Hcontent : getitem _ ?cand (lit "content") = Return _ |- _ =>
      destruct b as [| | | | | |body]; try discriminate Hget;
      unfold getitem in Hcands;
      destruct (body !! lit "candidates") as [cs'|] eqn:Hlookup;
        [|discriminate Hcands];
      injection Hcands as ->;
      destruct cs as [| | | |[|ch s]|[|cand' rest]|]; try discriminate Hfirst;
      injection Hfirst as <-; [discriminate Hcontent|];
      exists body, cand', rest
  end.
  repeat split; try assumption.
  eapply text_of_first_part; eassumption.
Qed.

Lemma call_gemini_api_returns_witness :
  [HttpPost (gemini_url Scenario.happy) gemini_headers (gemini_data (lit "p"))]
  = [] ++ [HttpPost (gemini_url Scenario.happy) gemini_headers
             (gemini_data (lit "p"))]
  /\ exists response body candidate rest,
       requests_post Scenario.happy [] (gemini_url Scenario.happy) gemini_headers
         (gemini_data (lit "p")) = Return response
       /\ status_code response = 200%Z
       /\ json_method response = Return (JObj body)
       /\ body !! lit "candidates" = Some (JArr (candidate :: rest))
       /\ first_part_text candidate = Some (JStr (lit "Formatted.")).
Proof.
  apply (call_gemini_api_returns Scenario.happy (lit "p") []).
  vm_compute. reflexivity.
Defined.

(** X8: the exceptions that can leave [call_gemini_api], after its one HTTP
    call, are these and no other: what [requests.post] raised, unchanged; the
    Google API Error exception, on a status code other than 200; what
    [response.json()] raised, unchanged; the no-candidates exception, on a
    decoded object whose [candidates] is absent or false; an exception of
    the interpreter, on a decoded body that is not laid out as expected. *)
Theorem call_gemini_api_raises
    (svc : Services) (prompt : str) (w w' : trace) (e : exn) :
  call_gemini_api svc prompt w = (Raise e, w') ->
  w' = w ++ [HttpPost (gemini_url svc) gemini_headers (gemini_data prompt)]
  /\ (requests_post svc w (gemini_url svc) gemini_headers (gemini_data prompt)
      = Raise e
      \/ exists response,
           requests_post svc w (gemini_url svc) gemini_headers (gemini_data prompt)
           = Return response
           /\ ((status_code response <> 200%Z /\ e = google_api_error response)
               \/ (status_code response = 200%Z
                   /\ (json_method response = Raise e
                       \/ (exists body,
                             json_method response = Return (JObj body)
                             /\ truthy (default JNull (body !! lit "candidates"))
                                = false
                             /\ e = no_candidates)
                       \/ is_runtime_error svc e)))).
Proof.
  intros H.
  pose proof (call_gemini_api_trace svc prompt w) as Htrace.
  rewrite H in Htrace. cbn [snd] in Htrace. split; [exact Htrace|].
  unfold call_gemini_api in H. open_steps H;
    apply pair_equal_spec in H as [He _];
    try (apply raise_inj in He; subst e);
    [right; eexists; split; [reflexivity|] ..|left; reflexivity];
    match goal with
    | Hs : negb (status_code _ =? 200)%Z = true |- _ =>
        apply negb_true_iff, Z.eqb_neq in Hs
    | Hs : negb (status_code _ =? 200)%Z = false |- _ =>
        apply negb_false_iff, Z.eqb_eq in Hs
    end;
    [left; split; [assumption|reflexivity]|right; split; [assumption|] ..];
    first
      [ left; assumption
      | right; right;
        first [ eapply py_get_raises; eassumption
              | eapply getitem_raises; eassumption
              | eapply getitem0_raises; eassumption ]
      | right; left;
        match goal with
        | Hg : py_get _ ?b _ = Return ?c, Ht : negb (truthy ?c) = true |- _ =>
            destruct b as [| | | | | |body]; try discriminate Hg;
            exists body; apply negb_true_iff in Ht;
            unfold py_get in Hg; injection Hg as <-; auto
        end ].
Qed.

Lemma call_gemini_api_raises_witness :
  let svc := Scenario.answering 503 in
  let e := google_api_error (Scenario.generated 503 (JStr (lit "ok"))) in
  [HttpPost (gemini_url svc) gemini_headers (gemini_data (lit "p"))]
  = [] ++ [HttpPost (gemini_url svc) gemini_headers (gemini_data (lit "p"))]
  /\ (requests_post svc [] (gemini_url svc) gemini_headers (gemini_data (lit "p"))
      = Raise e
      \/ exists response,
           requests_post svc [] (gemini_url svc) gemini_headers (gemini_data (lit "p"))
           = Return response
           /\ ((status_code response <> 200%Z /\ e = google_api_error response)
               \/ (status_code response = 200%Z
                   /\ (json_method response = Raise e
                       \/ (exists body,
                             json_method response = Return (JObj body)
                             /\ truthy (default JNull (body !! lit "candidates"))
                                = false
                             /\ e = no_candidates)
                       \/ is_runtime_error svc e)))).
Proof.
  apply (call_gemini_api_raises (Scenario.answering 503) (lit "p") []).
  vm_compute. reflexivity.
Defined.

(** ** The analyze view: every path through it *)

Lemma analyze_document_with_gemini_trace
    (svc : Services) (document_text : json) (w : trace) :
  snd (analyze_document_with_gemini svc document_text w)
  = w ++ [HttpPost (gemini_url svc) gemini_headers
            (gemini_data (analyze_prompt svc document_text))].
Proof.
  unfold analyze_document_with_gemini.
  destruct (call_gemini_api_run svc (analyze_prompt svc document_text) w)
    as [[response_text|e] Hrun].
  - rewrite (run_bind_return _ _ _ _ _ Hrun). apply interpret_response_trace.
  - rewrite (run_bind_raise _ _ _ _ _ Hrun). reflexivity.
Qed.

(** The six ways through [analyze_endpoint]. *)
Lemma analyze_endpoint_cases (svc : Services) (request : Request) (w : trace) :
  (files request !! lit "file" = None
   /\ analyze_endpoint svc request w
      = (Return {| body := dict [("error", JStr (lit "No file part"))];
                   status := 400 |}, w))
  \/ exists file,
       files request !! lit "file" = Some file
       /\ ((filename file = []
            /\ analyze_endpoint svc request w
               = (Return {| body := dict [("error", JStr (lit "No file selected"))];
                            status := 400 |}, w))
           \/ (filename file <> []
               /\ ((exists e w1,
                      get_text_from_file svc (read file) (mimetype file) w
                      = (Raise e, w1)
                      /\ analyze_endpoint svc request w
                         = (Return {| body := dict [("error", JStr (exn_str e))];
                                      status := 500 |},
                            w1 ++ [Stdout (lit "!!! ERROR in /analyze: " ++ exn_str e)]))
                   \/ exists raw_text w1,
                        get_text_from_file svc (read file) (mimetype file) w
                        = (Return raw_text, w1)
                        /\ ((exists e w2,
                               reformat_document_with_gemini svc (JStr raw_text) w1
                               = (Raise e, w2)
                               /\ analyze_endpoint svc request w
                                  = (Return {| body := dict [("error", JStr (exn_str e))];
                                               status := 500 |},
                                     w2 ++ [Stdout (lit "!!! ERROR in /analyze: "
                                                    ++ exn_str e)]))
                            \/ exists formatted_text w2,
                                 reformat_document_with_gemini svc (JStr raw_text) w1
                                 = (Return formatted_text, w2)
                                 /\ ((exists e w3,
                                        analyze_document_with_gemini svc formatted_text w2
                                        = (Raise e, w3)
                                        /\ analyze_endpoint svc request w
                                           = (Return {| body := dict [("error", JStr (exn_str e))];
                                                        status := 500 |},
                                              w3 ++ [Stdout (lit "!!! ERROR in /analyze: "
                                                             ++ exn_str e)]))
                                     \/ exists analysis_data w3,
                                          analyze_document_with_gemini svc formatted_text w2
                                          = (Return analysis_data, w3)
                                          /\ analyze_endpoint svc request w
                                             = (Return {| body := dict [("analysis", analysis_data);
                                                                        ("fullText", formatted_text)];
                                                          status := 200 |}, w3)))))).
Proof.
  unfold analyze_endpoint. rewrite run_try_except.
  destruct (files request !! lit "file") as [file|]; [|left; auto].
  right. exists file. split; [reflexivity|].
  case_bool_decide as Hname; [left; auto|]. right. split; [exact Hname|].
  destruct (get_text_from_file svc (read file) (mimetype file) w)
    as [[raw_text|e] w1] eqn:Hextract.
  2:{ left. exists e, w1. rewrite (run_bind_raise _ _ _ _ _ Hextract). auto. }
  right. exists raw_text, w1. split; [reflexivity|].
  rewrite (run_bind_return _ _ _ _ _ Hextract).
  destruct (reformat_document_with_gemini svc (JStr raw_text) w1)
    as [[formatted_text|e] w2] eqn:Hreformat.
  2:{ left. exists e, w2. rewrite (run_bind_raise _ _ _ _ _ Hreformat). auto. }
  right. exists formatted_text, w2. split; [reflexivity|].
  rewrite (run_bind_return _ _ _ _ _ Hreformat).
  destruct (analyze_document_with_gemini svc formatted_text w2)
    as [[analysis_data|e] w3] eqn:Hanalyze.
  2:{ left. exists e, w3. rewrite (run_bind_raise _ _ _ _ _ Hanalyze). auto. }
  right. exists analysis_data, w3.
  rewrite (run_bind_return _ _ _ _ _ Hanalyze). auto.
Qed.

Lemma extraction_trace (svc : Services) (file_content : bytes) (mime_type : str)
    (w w1 : trace) (r : result str) :
  get_text_from_file svc file_content mime_type w = (r, w1) ->
  exists ocr,
    w1 = w ++ ocr /\ Forall (fun ev => is_ocr_call ev = true) ocr
    /\ length ocr <= 1.
Proof.
  intros H.
  destruct (get_text_from_file_trace svc file_content mime_type w) as [Ht|Ht];
    rewrite H in Ht; cbn [snd] in Ht; subst w1.
  - exists []. rewrite app_nil_r. repeat split; [constructor|cbn; lia].
  - eexists. repeat split; [repeat constructor|cbn; lia].
Qed.

Lemma reformat_trace (svc : Services) (document_text : json) (w w2 : trace)
    (r : result json) :
  reformat_document_with_gemini svc document_text w = (r, w2) ->
  exists call, w2 = w ++ [call] /\ is_generation_call call = true.
Proof.
  intros H. pose proof (call_gemini_api_trace svc (reformat_prompt svc document_text) w) as Ht.
  unfold reformat_document_with_gemini in H. rewrite H in Ht. cbn [snd] in Ht.
  eexists. split; [exact Ht|reflexivity].
Qed.

Lemma analysis_trace (svc : Services) (document_text : json) (w w3 : trace)
    (r : result json) :
  analyze_document_with_gemini svc document_text w = (r, w3) ->
  exists call, w3 = w ++ [call] /\ is_generation_call call = true.
Proof.
  intros H. pose proof (analyze_document_with_gemini_trace svc document_text w) as Ht.
  rewrite H in Ht. cbn [snd] in Ht.
  eexists. split; [exact Ht|reflexivity].
Qed.

(** X9: [analyze_endpoint] never raises: whatever the request and whatever
    the collaborators do, it answers, with status 200, 400 or 500.  What it
    does outside the process is at most one OCR call, then at most two
    generation calls, then at most one printed line, in that order; it never
    calls the identity provider. *)
Theorem analyze_endpoint_answers (svc : Services) (request : Request) (w : trace) :
  exists r w' ocr calls out,
    analyze_endpoint svc request w = (Return r, w')
    /\ (status r = 200%Z \/ status r = 400%Z \/ status r = 500%Z)
    /\ w' = w ++ ocr ++ calls ++ out
    /\ Forall (fun ev => is_ocr_call ev = true) ocr /\ length ocr <= 1
    /\ Forall (fun ev => is_generation_call ev = true) calls /\ length calls <= 2
    /\ Forall (fun ev => is_printed ev = true) out /\ length out <= 1.
Proof.
  assert (Hshape : forall (r : Response) (w1 : trace) ocr calls out,
             analyze_endpoint svc request w = (Return r, w1) ->
             w1 = w ++ ocr ++ calls ++ out ->
             (status r = 200%Z \/ status r = 400%Z \/ status r = 500%Z) ->
             Forall (fun ev => is_ocr_call ev = true) ocr -> length ocr <= 1 ->
             Forall (fun ev => is_generation_call ev = true) calls ->
             length calls <= 2 ->
             Forall (fun ev => is_printed ev = true) out -> length out <= 1 ->
             exists r w' ocr calls out,
               analyze_endpoint svc request w = (Return r, w')
               /\ (status r = 200%Z \/ status r = 400%Z \/ status r = 500%Z)
               /\ w' = w ++ ocr ++ calls ++ out
               /\ Forall (fun ev => is_ocr_call ev = true) ocr /\ length ocr <= 1
               /\ Forall (fun ev => is_generation_call ev = true) calls
               /\ length calls <= 2
               /\ Forall (fun ev => is_printed ev = true) out /\ length out <= 1).
  { intros r w1 ocr calls out. exists r, w1, ocr, calls, out. auto 10. }
  assert (Hnil : w = w ++ [] ++ [] ++ []) by (symmetry; apply app_nil_r).
  destruct (analyze_endpoint_cases svc request w)
    as [[_ H] | (file & _ & [[_ H] | (_ & Hstages)])].
  - apply (Hshape _ _ [] [] [] H Hnil); cbn; auto.
  - apply (Hshape _ _ [] [] [] H Hnil); cbn; auto.
  - destruct Hstages as [(e & w1 & Hextract & H) | (raw & w1 & Hextract & Hstages)];
      destruct (extraction_trace _ _ _ _ _ _ Hextract) as (ocr & -> & Hocr & Hlen).
    { apply (Hshape _ _ ocr [] 
               [Stdout (lit "!!! ERROR in /analyze: " ++ exn_str e)] H);
        [rewrite <- app_assoc; reflexivity|cbn; auto ..|cbn; lia]. }
    destruct Hstages as [(e & w2 & Hreformat & H) | (formatted & w2 & Hreformat & Hstages)];
      destruct (reformat_trace _ _ _ _ _ Hreformat) as (call1 & -> & Hcall1).
    { apply (Hshape _ _ ocr [call1] 
               [Stdout (lit "!!! ERROR in /analyze: " ++ exn_str e)] H);
        [rewrite <- !app_assoc; reflexivity|cbn; auto ..|cbn; lia]. }
    destruct Hstages as [(e & w3 & Hanalyze & H) | (analysis & w3 & Hanalyze & H)];
      destruct (analysis_trace _ _ _ _ _ Hanalyze) as (call2 & -> & Hcall2).
    { apply (Hshape _ _ ocr [call1; call2] 
               [Stdout (lit "!!! ERROR in /analyze: " ++ exn_str e)] H);
        [rewrite <- !app_assoc; reflexivity|cbn; auto ..|cbn; lia]. }
    apply (Hshape _ _ ocr [call1; call2] [] H);
      [rewrite <- !app_assoc; reflexivity|cbn; auto ..].
Qed.

(** X10: the status of [analyze_endpoint]'s answer tells how far it went.
    A 400 is given before anything is called or printed, and only for a
    missing file part or an empty filename.  A 200 is given after exactly
    two generation calls, with nothing printed.  A 500 is given after one
    printed line, the last event, which carries the same exception message
    as the body. *)
Theorem analyze_endpoint_status (svc : Services) (request : Request) (w : trace)
    (r : Response) (w' : trace) :
  analyze_endpoint svc request w = (Return r, w') ->
  (status r = 400%Z ->
   w' = w
   /\ ((files request !! lit "file" = None
        /\ body r = dict [("error", JStr (lit "No file part"))])
       \/ (exists file, files request !! lit "file" = Some file
                        /\ filename file = []
                        /\ body r = dict [("error", JStr (lit "No file selected"))])))
  /\ (status r = 200%Z ->
      exists ocr call1 call2,
        w' = w ++ ocr ++ [call1; call2]
        /\ Forall (fun ev => is_ocr_call ev = true) ocr
        /\ is_generation_call call1 = true /\ is_generation_call call2 = true)
  /\ (status r = 500%Z ->
      exists before message,
        w' = before ++ [Stdout (lit "!!! ERROR in /analyze: " ++ message)]
        /\ body r = dict [("error", JStr message)]).
Proof.
  intros Hrun.
  destruct (analyze_endpoint_cases svc request w)
    as [[Hnone H] | (file & Hfile & [[Hname H] | (Hname & Hstages)])].
  - rewrite Hrun in H. apply pair_equal_spec in H as [Hr ->].
    apply return_inj in Hr. subst r. cbn [status body].
    repeat split; try discriminate; auto.
  - rewrite Hrun in H. apply pair_equal_spec in H as [Hr ->].
    apply return_inj in Hr. subst r. cbn [status body].
    repeat split; try discriminate; eauto 10.
  - destruct Hstages as [(e & w1 & Hextract & H) | (raw & w1 & Hextract & Hstages)].
    { rewrite Hrun in H. apply pair_equal_spec in H as [Hr ->].
      apply return_inj in Hr. subst r. cbn [status body].
      repeat split; try discriminate; eauto. }
    destruct Hstages as [(e & w2 & Hreformat & H) | (formatted & w2 & Hreformat & Hstages)].
    { rewrite Hrun in H. apply pair_equal_spec in H as [Hr ->].
      apply return_inj in Hr. subst r. cbn [status body].
      repeat split; try discriminate; eauto. }
    destruct Hstages as [(e & w3 & Hanalyze & H) | (analysis & w3 & Hanalyze & H)].
    { rewrite Hrun in H. apply pair_equal_spec in H as [Hr ->].
      apply return_inj in Hr. subst r. cbn [status body].
      repeat split; try discriminate; eauto. }
    rewrite Hrun in H. apply pair_equal_spec in H as [Hr ->].
    apply return_inj in Hr. subst r. cbn [status body].
    destruct (extraction_trace _ _ _ _ _ _ Hextract) as (ocr & -> & Hocr & _).
    destruct (reformat_trace _ _ _ _ _ Hreformat) as (call1 & -> & Hcall1).
    destruct (analysis_trace _ _ _ _ _ Hanalyze) as (call2 & -> & Hcall2).
    repeat split; try discriminate.
    intros _. exists ocr, call1, call2. rewrite <- !app_assoc. auto.
Qed.

Lemma analyze_endpoint_status_witness :
  let r := {| body := dict [("error", JStr (lit "No file selected"))];
              status := 400 |} in
  let request := Scenario.upload "" "text/plain" Scenario.hello in
  (status r = 400%Z ->
   [] = ([] : trace)
   /\ ((files request !! lit "file" = None
        /\ body r = dict [("error", JStr (lit "No file part"))])
       \/ (exists file, files request !! lit "file" = Some file
                        /\ filename file = []
                        /\ body r = dict [("error", JStr (lit "No file selected"))])))
  /\ (status r = 200%Z ->
      exists ocr call1 call2,
        [] = [] ++ ocr ++ [call1; call2]
        /\ Forall (fun ev => is_ocr_call ev = true) ocr
        /\ is_generation_call call1 = true /\ is_generation_call call2 = true)
  /\ (status r = 500%Z ->
      exists before message,
        [] = before ++ [Stdout (lit "!!! ERROR in /analyze: " ++ message)]
        /\ body r = dict [("error", JStr message)]).
Proof.
  apply (analyze_endpoint_status Scenario.happy
           (Scenario.upload "" "text/plain" Scenario.hello) []).
  vm_compute. reflexivity.
Defined.

(** X11: a response text that does not decode as JSON does not fail the
    analyze view.  With every stage succeeding and [json.loads] raising
    [JSONDecodeError] on the cleaned text, the answer is 200, with the
    fallback value under [analysis] and the formatted text under
    [fullText]. *)
Theorem analyze_endpoint_degrades
    (svc : Services) (request : Request) (file : FileStorage)
    (w w1 w2 w3 : trace) (raw_text response_text : str) (formatted_text : json)
    (e : exn) :
  files request !! lit "file" = Some file ->
  filename file <> [] ->
  get_text_from_file svc (read file) (mimetype file) w = (Return raw_text, w1) ->
  call_gemini_api svc (reformat_prompt svc (JStr raw_text)) w1
  = (Return formatted_text, w2) ->
  call_gemini_api svc (analyze_prompt svc formatted_text) w2
  = (Return (JStr response_text), w3) ->
  json_loads svc (cleaned_text response_text) = Raise e ->
  exn_cls e = JSONDecodeError ->
  analyze_endpoint svc request w
  = (Return {| body := dict [("analysis", fallback_analysis);
                             ("fullText", formatted_text)];
               status := 200 |}, w3).
Proof.
  intros Hfile Hname Hextract Hreformat Hanalyze Hloads Hclass.
  unfold analyze_endpoint. rewrite run_try_except, Hfile.
  rewrite bool_decide_eq_false_2 by exact Hname.
  rewrite (run_bind_return _ _ _ _ _ Hextract).
  unfold reformat_document_with_gemini.
  rewrite (run_bind_return _ _ _ _ _ Hreformat).
  unfold analyze_document_with_gemini.
  rewrite run_bind, (run_bind_return _ _ _ _ _ Hanalyze).
  unfold interpret_response. rewrite run_try_except, run_bind. unfold lift.
  rewrite Hloads. unfold isinstance. rewrite Hclass.
  rewrite bool_decide_eq_true_2 by reflexivity. reflexivity.
Qed.

Lemma analyze_endpoint_degrades_witness :
  let svc := Scenario.answering 200 in
  analyze_endpoint svc (Scenario.upload "a.txt" "text/plain" Scenario.hello) []
  = (Return {| body := dict [("analysis", fallback_analysis);
                             ("fullText", JStr (lit "ok"))];
               status := 200 |},
     [HttpPost (gemini_url svc) gemini_headers
        (gemini_data (reformat_prompt svc (JStr (lit "hello"))));
      HttpPost (gemini_url svc) gemini_headers
        (gemini_data (analyze_prompt svc (JStr (lit "ok"))))]).
Proof.
  apply (analyze_endpoint_degrades (Scenario.answering 200)
           (Scenario.upload "a.txt" "text/plain" Scenario.hello)
           {| filename := lit "a.txt"; read := Scenario.hello;
              mimetype := lit "text/plain" |}
           [] []
           [HttpPost (gemini_url (Scenario.answering 200)) gemini_headers
              (gemini_data (reformat_prompt (Scenario.answering 200)
                              (JStr (lit "hello"))))]
           _ (lit "hello") (lit "ok") (JStr (lit "ok")) Scenario.decode_error).
  - vm_compute. reflexivity.
  - vm_compute. discriminate.
  - vm_compute. reflexivity.
  - vm_compute. reflexivity.
  - vm_compute. reflexivity.
  - vm_compute. reflexivity.
  - reflexivity.
Defined.

(** ** The simplify and chat views: what each status means *)

Lemma getitem_returns (svc : Services) (obj : json) (key : str) (v : json) :
  getitem svc obj key = Return v ->
  exists m, obj = JObj m /\ m !! key = Some v.
Proof.
  unfold getitem. intros H.
  destruct obj as [| | | | | |m]; try discriminate H.
  destruct (m !! key) as [v'|] eqn:Hm; [|discriminate H].
  apply return_inj in H. subst v'. eauto.
Qed.

(** [simplify_endpoint], step by step. *)
Lemma simplify_endpoint_steps (svc : Services) (request : Request) (w : trace) :
  simplify_endpoint svc request w =
  match get_json request with
  | Raise e => simplify_except e w
  | Return data =>
      match missing svc data (lit "documentText") with
      | Raise e => simplify_except e w
      | Return true =>
          (Return {| body := dict [("error", JStr (lit "Missing document text"))];
                     status := 400 |}, w)
      | Return false =>
          match getitem svc data (lit "documentText") with
          | Raise e => simplify_except e w
          | Return document_text =>
              match call_gemini_api svc (simplify_prompt svc document_text) w with
              | (Return simplified_text, w') =>
                  (Return {| body := dict [("simplifiedText", simplified_text)];
                             status := 200 |}, w')
              | (Raise e, w') => simplify_except e w'
              end
          end
      end
  end.
Proof.
  unfold simplify_endpoint, simplify_document_with_gemini.
  rewrite run_try_except, run_bind. unfold lift at 1.
  destruct (get_json request) as [data|e]; [|reflexivity].
  rewrite run_bind. unfold lift at 1.
  destruct (missing svc data (lit "documentText")) as [[|]|e]; try reflexivity.
  rewrite run_bind. unfold lift at 1.
  destruct (getitem svc data (lit "documentText")) as [document_text|e];
    [|reflexivity].
  rewrite run_bind.
  destruct (call_gemini_api svc (simplify_prompt svc document_text) w)
    as [[simplified_text|e] w']; reflexivity.
Qed.

(** X12: what the status of [simplify_endpoint]'s answer means.  A 400 is
    given before anything is called or printed, with the missing-text
    message.  A 200 is given only for a JSON object holding [documentText],
    after the one generation call on the simplify prompt built from it, and
    carries what that call returned under [simplifiedText].  A 500 carries
    the fixed message, after one printed line. *)
Theorem simplify_endpoint_status
    (svc : Services) (request : Request) (w : trace) (r : Response) (w' : trace) :
  simplify_endpoint svc request w = (Return r, w') ->
  (status r = 400%Z ->
   w' = w /\ body r = dict [("error", JStr (lit "Missing document text"))])
  /\ (status r = 200%Z ->
      exists data document_text simplified_text,
        get_json request = Return (JObj data)
        /\ data !! lit "documentText" = Some document_text
        /\ call_gemini_api svc (simplify_prompt svc document_text) w
           = (Return simplified_text, w')
        /\ body r = dict [("simplifiedText", simplified_text)])
  /\ (status r = 500%Z ->
      body r = simplify_failed
      /\ exists before message,
           w' = before ++ [Stdout (lit "!!! ERROR in /simplify: " ++ message)]).
Proof.
  intros H. rewrite simplify_endpoint_steps in H. unfold simplify_except in H.
  destruct (get_json request) as [data|e] eqn:Hjson.
  2:{ apply pair_equal_spec in H as [Hr <-]. apply return_inj in Hr. subst r.
      cbn [status body]. repeat split; try discriminate; eauto. }
  destruct (missing svc data (lit "documentText")) as [[|]|e] eqn:Hmissing.
  3:{ apply pair_equal_spec in H as [Hr <-]. apply return_inj in Hr. subst r.
      cbn [status body]. repeat split; try discriminate; eauto. }
  { apply pair_equal_spec in H as [Hr <-]. apply return_inj in Hr. subst r.
    cbn [status body]. repeat split; try discriminate; eauto. }
  destruct (getitem svc data (lit "documentText")) as [document_text|e] eqn:Hitem.
  2:{ apply pair_equal_spec in H as [Hr <-]. apply return_inj in Hr. subst r.
      cbn [status body]. repeat split; try discriminate; eauto. }
  destruct (getitem_returns _ _ _ _ Hitem) as (m & -> & Hm).
  destruct (call_gemini_api svc (simplify_prompt svc document_text) w)
    as [[simplified_text|e] w1] eqn:Hcall;
    apply pair_equal_spec in H as [Hr <-]; apply return_inj in Hr; subst r;
    cbn [status body]; repeat split; try discriminate; eauto 10.
Qed.

Lemma simplify_endpoint_status_witness :
  let svc := Scenario.happy in
  let request := Scenario.posted (dict [("documentText", JStr (lit "Hello"))]) in
  let r := {| body := dict [("simplifiedText", JStr (lit "Formatted."))];
              status := 200 |} in
  let w' := [HttpPost (gemini_url svc) gemini_headers
               (gemini_data (simplify_prompt svc (JStr (lit "Hello"))))] in
  (status r = 400%Z ->
   w' = [] /\ body r = dict [("error", JStr (lit "Missing document text"))])
  /\ (status r = 200%Z ->
      exists data document_text simplified_text,
        get_json request = Return (JObj data)
        /\ data !! lit "documentText" = Some document_text
        /\ call_gemini_api svc (simplify_prompt svc document_text) []
           = (Return simplified_text, w')
        /\ body r = dict [("simplifiedText", simplified_text)])
  /\ (status r = 500%Z ->
      body r = simplify_failed
      /\ exists before message,
           w' = before ++ [Stdout (lit "!!! ERROR in /simplify: " ++ message)]).
Proof.
  apply (simplify_endpoint_status Scenario.happy
           (Scenario.posted (dict [("documentText", JStr (lit "Hello"))])) []).
  vm_compute. reflexivity.
Defined.

(** [chat_endpoint], step by step. *)
Lemma chat_endpoint_steps (svc : Services) (request : Request) (w : trace) :
  chat_endpoint svc request w =
  match get_json request with
  | Raise e => chat_except e w
  | Return data =>
      match
        match missing svc data (lit "question") with
        | Return true => Return true
        | Return false =>
            match py_in svc (lit "documentText") data with
            | Return b => Return (negb b)
            | Raise e => Raise e
            end
        | Raise e => Raise e
        end
      with
      | Raise e => chat_except e w
      | Return true =>
          (Return {| body := dict [("error", JStr (lit "Missing data"))];
                     status := 400 |}, w)
      | Return false =>
          match getitem svc data (lit "documentText") with
          | Raise e => chat_except e w
          | Return document_text =>
              match getitem svc data (lit "question") with
              | Raise e => chat_except e w
              | Return question =>
                  match call_gemini_api svc
                          (chat_prompt svc document_text question) w with
                  | (Return answer, w') =>
                      (Return {| body := dict [("answer", answer)];
                                 status := 200 |}, w')
                  | (Raise e, w') => chat_except e w'
                  end
              end
          end
      end
  end.
Proof.
  unfold chat_endpoint, answer_chat_question.
  rewrite run_try_except, run_bind. unfold lift at 1.
  destruct (get_json request) as [data|e]; [|reflexivity].
  rewrite run_bind. unfold lift at 1.
  destruct (match missing svc data (lit "question") with
            | Return true => Return true
            | Return false => _
            | Raise e => Raise e
            end) as [[|]|e]; try reflexivity.
  rewrite run_bind. unfold lift at 1.
  destruct (getitem svc data (lit "documentText")) as [document_text|e];
    [|reflexivity].
  rewrite run_bind. unfold lift at 1.
  destruct (getitem svc data (lit "question")) as [question|e]; [|reflexivity].
  rewrite run_bind.
  destruct (call_gemini_api svc (chat_prompt svc document_text question) w)
    as [[answer|e] w']; reflexivity.
Qed.

(** X13: what the status of [chat_endpoint]'s answer means.  A 400 is given
    before anything is called or printed, with the missing-data message.  A
    200 is given only for a JSON object holding both [documentText] and
    [question], after the one generation call on the chat prompt built from
    the two, and carries what that call returned under [answer].  A 500
    carries the fixed message, after one printed line. *)
Theorem chat_endpoint_status
    (svc : Services) (request : Request) (w : trace) (r : Response) (w' : trace) :
  chat_endpoint svc request w = (Return r, w') ->
  (status r = 400%Z ->
   w' = w /\ body r = dict [("error", JStr (lit "Missing data"))])
  /\ (status r = 200%Z ->
      exists data document_text question answer,
        get_json request = Return (JObj data)
        /\ data !! lit "documentText" = Some document_text
        /\ data !! lit "question" = Some question
        /\ call_gemini_api svc (chat_prompt svc document_text question) w
           = (Return answer, w')
        /\ body r = dict [("answer", answer)])
  /\ (status r = 500%Z ->
      body r = chat_failed
      /\ exists before message,
           w' = before ++ [Stdout (lit "!!! ERROR in /chat: " ++ message)]).
Proof.
  intros H. rewrite chat_endpoint_steps in H. unfold chat_except in H.
  destruct (get_json request) as [data|e] eqn:Hjson.
  2:{ apply pair_equal_spec in H as [Hr <-]. apply return_inj in Hr. subst r.
      cbn [status body]. repeat split; try discriminate; eauto. }
  destruct (match missing svc data (lit "question") with
            | Return true => Return true
            | Return false => _
            | Raise e => Raise e
            end) as [[|]|e].
  3:{ apply pair_equal_spec in H as [Hr <-]. apply return_inj in Hr. subst r.
      cbn [status body]. repeat split; try discriminate; eauto. }
  { apply pair_equal_spec in H as [Hr <-]. apply return_inj in Hr. subst r.
    cbn [status body]. repeat split; try discriminate; eauto. }
  destruct (getitem svc data (lit "documentText")) as [document_text|e] eqn:Hitem.
  2:{ apply pair_equal_spec in H as [Hr <-]. apply return_inj in Hr. subst r.
      cbn [status body]. repeat split; try discriminate; eauto. }
  destruct (getitem svc data (lit "question")) as [question|e] eqn:Hquestion.
  2:{ apply pair_equal_spec in H as [Hr <-]. apply return_inj in Hr. subst r.
      cbn [status body]. repeat split; try discriminate; eauto. }
  destruct (getitem_returns _ _ _ _ Hitem) as (m & -> & Hm).
  destruct (getitem_returns _ _ _ _ Hquestion) as (m' & Heq & Hq).
  injection Heq as <-.
  destruct (call_gemini_api svc (chat_prompt svc document_text question) w)
    as [[answer|e] w1] eqn:Hcall;
    apply pair_equal_spec in H as [Hr <-]; apply return_inj in Hr; subst r;
    cbn [status body]; repeat split; try discriminate; eauto 10.
Qed.

Lemma chat_endpoint_status_witness :
  let svc := Scenario.answering 500 in
  let request := Scenario.posted (dict [("documentText", JStr (lit "hello"));
                                        ("question", JStr (lit "why"))]) in
  let e := google_api_error (Scenario.generated 500 (JStr (lit "ok"))) in
  let r := {| body := chat_failed; status := 500 |} in
  let w' := [HttpPost (gemini_url svc) gemini_headers
               (gemini_data (chat_prompt svc (JStr (lit "hello")) (JStr (lit "why"))))]
            ++ [Stdout (lit "!!! ERROR in /chat: " ++ exn_str e)] in
  (status r = 400%Z ->
   w' = [] /\ body r = dict [("error", JStr (lit "Missing data"))])
  /\ (status r = 200%Z ->
      exists data document_text question answer,
        get_json request = Return (JObj data)
        /\ data !! lit "documentText" = Some document_text
        /\ data !! lit "question" = Some question
        /\ call_gemini_api svc (chat_prompt svc document_text question) []
           = (Return answer, w')
        /\ body r = dict [("answer", answer)])
  /\ (status r = 500%Z ->
      body r = chat_failed
      /\ exists before message,
           w' = before ++ [Stdout (lit "!!! ERROR in /chat: " ++ message)]).
Proof.
  apply (chat_endpoint_status (Scenario.answering 500)
           (Scenario.posted (dict [("documentText", JStr (lit "hello"));
                                   ("question", JStr (lit "why"))])) []).
  vm_compute. reflexivity.
Defined.

(** X14: a JSON body that is not an object never reaches the generation
    service through [simplify_endpoint].  A false value ([null], [false],
    zero, the empty string, the empty list) and a list or string in which
    [documentText] does not occur are answered 400.  A list that has the
    string [documentText] among its elements, or a string in which it occurs,
    passes the membership test and then fails on the subscript; a number or
    [true] fails on the membership test itself; both are answered 500 with
    the fixed message. *)
Theorem simplify_endpoint_non_object
    (svc : Services) (request : Request) (data : json) (w : trace) :
  get_json request = Return data ->
  (forall m, data <> JObj m) ->
  simplify_endpoint svc request w
  = (if negb (truthy data)
     then (Return {| body := dict [("error", JStr (lit "Missing document text"))];
                     status := 400 |}, w)
     else match py_in svc (lit "documentText") data with
          | Return false =>
              (Return {| body := dict [("error", JStr (lit "Missing document text"))];
                         status := 400 |}, w)
          | Return true =>
              simplify_except
                (runtime_error svc TypeError data (lit "documentText")) w
          | Raise e => simplify_except e w
          end)
  /\ exists out,
       snd (simplify_endpoint svc request w) = w ++ out
       /\ Forall (fun ev => is_printed ev = true) out.
Proof.
  intros Hjson Hshape.
  assert (Hitem : getitem svc data (lit "documentText")
                  = Raise (runtime_error svc TypeError data (lit "documentText"))).
  { destruct data; try reflexivity. destruct (Hshape m eq_refl). }
  rewrite simplify_endpoint_steps, Hjson. unfold missing.
  destruct (negb (truthy data)).
  { split; [reflexivity|]. exists []. rewrite app_nil_r. auto. }
  destruct (py_in svc (lit "documentText") data) as [[|]|e]; cbn [negb];
    rewrite ?Hitem; (split; [reflexivity|]); unfold simplify_except; cbn [snd].
  - eexists. split; [reflexivity|]. repeat constructor.
  - exists []. rewrite app_nil_r. auto.
  - eexists. split; [reflexivity|]. repeat constructor.
Qed.

Lemma simplify_endpoint_non_object_witness :
  let svc := Scenario.happy in
  let data := JArr [JStr (lit "documentText")] in
  let request := Scenario.posted data in
  simplify_endpoint svc request []
  = (if negb (truthy data)
     then (Return {| body := dict [("error", JStr (lit "Missing document text"))];
                     status := 400 |}, [])
     else match py_in svc (lit "documentText") data with
          | Return false =>
              (Return {| body := dict [("error", JStr (lit "Missing document text"))];
                         status := 400 |}, [])
          | Return true =>
              simplify_except
                (runtime_error svc TypeError data (lit "documentText")) []
          | Raise e => simplify_except e []
          end)
  /\ exists out,
       snd (simplify_endpoint svc request []) = [] ++ out
       /\ Forall (fun ev => is_printed ev = true) out.
Proof.
  apply (simplify_endpoint_non_object Scenario.happy
           (Scenario.posted (JArr [JStr (lit "documentText")]))
           (JArr [JStr (lit "documentText")]) []).
  - reflexivity.
  - intros m. discriminate.
Defined.

Example simplify_endpoint_list_body :
  simplify_endpoint Scenario.happy
    (Scenario.posted (JArr [JStr (lit "documentText")])) []
  = (Return {| body := simplify_failed; status := 500 |},
     [Stdout (lit "!!! ERROR in /simplify: (runtime error)")]).
Proof. vm_compute. reflexivity. Qed.

(** ** Start-up configuration *)

Lemma boot_bind_run {A B : Type} (m : Boot A) (f : A -> Boot B) (h : Host) :
  (m ≫= f) h =
  match m h with
  | (Return a, h') => f a h'
  | (Raise e, h') => (Raise e, h')
  end.
Proof. reflexivity. Qed.

(** Unfolds the steps of start-up code applied to a host. *)
Ltac boot :=
  unfold boot_try, new_certificate, write_file, boot_check, boot_print, getenv,
    setenv, store, register_app, mbind, Boot_bind, mret, Boot_ret;
  cbn beta iota delta [environ written printed firebase_apps].

(** Closes a case of a run lemma: the run itself by computation, the printed
    lines by reassociation, the rest as far as it is immediate. *)
Ltac booted :=
  eexists _, _; split; [reflexivity|];
  cbn [printed environ written firebase_apps]; rewrite <- ?app_assoc;
  split; [reflexivity|]; repeat split; auto.

(** The certificate [setup_firebase] builds, when it gets that far: from the
    decoded environment variable when it is set, from the local file
    otherwise. *)
Lemma setup_firebase_run (svc : Services) (platform : Platform) (h : Host) :
  exists h1 lines,
    setup_firebase svc platform h = (Return tt, h1)
    /\ printed h1 = printed h ++ lines
    /\ environ h1 = environ h
    /\ written h1 = written h
    /\ (firebase_apps h1 = firebase_apps h
        \/ exists cred,
             firebase_apps h = [] /\ firebase_apps h1 = [cred]
             /\ certificate_error platform cred = None
             /\ initialize_app_error platform cred = None
             /\ match environ h !! lit "FIREBASE_CREDENTIALS_JSON" with
                | Some (c :: s) =>
                    exists d, json_loads svc (c :: s) = Return d
                              /\ cred = CertificateOfDict d
                | _ => cred = CertificateOfFile (lit "firebase-admin-credentials.json")
                end).
Proof.
  unfold setup_firebase. boot.
  destruct (environ h !! lit "FIREBASE_CREDENTIALS_JSON") as [[|c s]|] eqn:Henv;
    cbn [is_set default from_option id].
  2:{ destruct (json_loads svc (c :: s)) as [d|e] eqn:Hloads; boot;
        [|booted].
      destruct (certificate_error platform (CertificateOfDict d)) as [e|] eqn:Hcert;
        boot; [booted|].
      destruct (firebase_apps h) as [|app apps] eqn:Happs; boot; [|booted].
      destruct (initialize_app_error platform (CertificateOfDict d)) as [e|] eqn:Hinit;
        boot; [booted|].
      booted. right. exists (CertificateOfDict d). repeat split; eauto. }
  all: destruct (certificate_error platform
                   (CertificateOfFile (lit "firebase-admin-credentials.json")))
         as [e|] eqn:Hcert; boot; [booted|];
       destruct (firebase_apps h) as [|app apps] eqn:Happs; boot; [|booted];
       destruct (initialize_app_error platform
                   (CertificateOfFile (lit "firebase-admin-credentials.json")))
         as [e|] eqn:Hinit; boot; [booted|];
       booted; right;
       exists (CertificateOfFile (lit "firebase-admin-credentials.json"));
       repeat split; auto.
Qed.

Lemma setup_vision_run (platform : Platform) (h : Host) :
  exists h2 lines,
    setup_vision platform h = (Return tt, h2)
    /\ printed h2 = printed h ++ lines
    /\ firebase_apps h2 = firebase_apps h
    /\ match environ h !! lit "GOOGLE_CREDENTIALS_JSON" with
       | Some (c :: s) =>
           match open_error platform (lit "/tmp/credentials.json") with
           | Some e => environ h2 = environ h /\ written h2 = written h
           | None =>
               match write_error platform (lit "/tmp/credentials.json") (c :: s) with
               | Some e =>
                   environ h2 = environ h
                   /\ written h2 = <[lit "/tmp/credentials.json" := []]> (written h)
               | None =>
                   environ h2
                   = <[lit "GOOGLE_APPLICATION_CREDENTIALS"
                       := lit "/tmp/credentials.json"]> (environ h)
                   /\ written h2
                      = <[lit "/tmp/credentials.json" := c :: s]> (written h)
               end
           end
       | _ =>
           environ h2
           = <[lit "GOOGLE_APPLICATION_CREDENTIALS" := lit "credentials.json"]>
               (environ h)
           /\ written h2 = written h
       end.
Proof.
  unfold setup_vision. boot.
  destruct (environ h !! lit "GOOGLE_CREDENTIALS_JSON") as [[|c s]|] eqn:Henv;
    cbn [is_set default from_option id]; boot; [booted| |booted].
  destruct (open_error platform (lit "/tmp/credentials.json")) as [e|]; boot;
    [booted|].
  destruct (write_error platform (lit "/tmp/credentials.json") (c :: s)) as [e|];
    boot; [booted|].
  booted. apply insert_insert_eq.
Qed.

Lemma setup_vision_environ (platform : Platform) (h h2 : Host) (name : str) :
  setup_vision platform h = (Return tt, h2) ->
  name <> lit "GOOGLE_APPLICATION_CREDENTIALS" ->
  environ h2 !! name = environ h !! name.
Proof.
  intros Hrun Hname.
  destruct (setup_vision_run platform h) as (h2' & lines & Hrun' & _ & _ & Hcase).
  rewrite Hrun in Hrun'. apply pair_equal_spec in Hrun' as [_ <-].
  destruct (environ h !! lit "GOOGLE_CREDENTIALS_JSON") as [[|c s]|].
  2:{ destruct (open_error platform _); [destruct Hcase as [-> _]; reflexivity|].
      destruct (write_error platform _ _); destruct Hcase as [-> _];
        [reflexivity|].
      apply lookup_insert_ne. congruence. }
  all: destruct Hcase as [-> _]; apply lookup_insert_ne; congruence.
Qed.

Lemma setup_vision_written (platform : Platform) (h h2 : Host) (path : str) :
  setup_vision platform h = (Return tt, h2) ->
  path <> lit "/tmp/credentials.json" ->
  written h2 !! path = written h !! path.
Proof.
  intros Hrun Hpath.
  destruct (setup_vision_run platform h) as (h2' & lines & Hrun' & _ & _ & Hcase).
  rewrite Hrun in Hrun'. apply pair_equal_spec in Hrun' as [_ <-].
  destruct (environ h !! lit "GOOGLE_CREDENTIALS_JSON") as [[|c s]|].
  2:{ destruct (open_error platform _); [destruct Hcase as [_ ->]; reflexivity|].
      destruct (write_error platform _ _); destruct Hcase as [_ ->];
        apply lookup_insert_ne; congruence. }
  all: destruct Hcase as [_ ->]; reflexivity.
Qed.

(** [configure], taken apart: the two set-up blocks run on the host in turn,
    and the two names are then read from the environment. *)
Lemma configure_run
    (svc : Services) (platform : Platform) (fallback_api_key : str) (h : Host) :
  exists cfg h' h1 h2 lines,
    configure svc platform fallback_api_key h = (Return cfg, h')
    /\ setup_firebase svc platform
         (snd (boot_print (lit "--- SERVER STARTING: CONFIGURATION PHASE ---") h))
       = (Return tt, h1)
    /\ setup_vision platform h1 = (Return tt, h2)
    /\ environ h' = environ h2 /\ written h' = written h2
    /\ firebase_apps h' = firebase_apps h2
    /\ printed h'
       = printed h ++ [lit "--- SERVER STARTING: CONFIGURATION PHASE ---"]
         ++ lines
         ++ [lit "--- Configuration complete. Project ID: "
             ++ config_PROJECT_ID cfg ++ lit " ---"]
    /\ config_API_KEY cfg
       = match environ h !! lit "API_KEY" with
         | Some (c :: s) => c :: s
         | _ => fallback_api_key
         end
    /\ config_PROJECT_ID cfg
       = match environ h !! lit "PROJECT_ID" with
         | Some (c :: s) => c :: s
         | _ => lit "helical-realm-472708-n9"
         end.
Proof.
  unfold configure. rewrite boot_bind_run.
  set (h0 := snd (boot_print (lit "--- SERVER STARTING: CONFIGURATION PHASE ---") h)).
  change (boot_print (lit "--- SERVER STARTING: CONFIGURATION PHASE ---") h)
    with (Return tt, h0).
  destruct (setup_firebase_run svc platform h0)
    as (h1 & l1 & Hfirebase & Hp1 & He1 & _ & _).
  rewrite boot_bind_run, Hfirebase.
  destruct (setup_vision_run platform h1) as (h2 & l2 & Hvision & Hp2 & _ & _).
  rewrite boot_bind_run, Hvision.
  assert (Hkey : environ h2 !! lit "API_KEY" = environ h !! lit "API_KEY").
  { rewrite (setup_vision_environ _ _ _ _ Hvision) by (vm_compute; discriminate).
    rewrite He1. reflexivity. }
  assert (Hproject : environ h2 !! lit "PROJECT_ID" = environ h !! lit "PROJECT_ID").
  { rewrite (setup_vision_environ _ _ _ _ Hvision) by (vm_compute; discriminate).
    rewrite He1. reflexivity. }
  assert (Hprinted : printed h2
                     = printed h ++ [lit "--- SERVER STARTING: CONFIGURATION PHASE ---"]
                       ++ l1 ++ l2).
  { rewrite Hp2, Hp1. unfold h0. cbn [boot_print snd printed].
    rewrite <- !app_assoc. reflexivity. }
  boot. rewrite Hkey, Hproject.
  pose (warn_key := lit "!!! WARNING: API_KEY environment variable not found! Using fallback for local dev.").
  pose (warn_project := lit "!!! WARNING: PROJECT_ID environment variable not found! Using fallback for local dev.").
  destruct (environ h !! lit "API_KEY") as [[|c s]|];
    destruct (environ h !! lit "PROJECT_ID") as [[|c' s']|];
    cbn [is_set default from_option id]; boot;
    first
      [ solve [ eexists _, _, h1, h2, (l1 ++ l2); (split; [reflexivity|]);
                cbn [printed environ written firebase_apps
                       config_API_KEY config_PROJECT_ID];
                rewrite Hprinted, <- ?app_assoc; repeat split;
                first [reflexivity | assumption] ]
      | solve [ eexists _, _, h1, h2, (l1 ++ l2 ++ [warn_key]);
                (split; [reflexivity|]);
                cbn [printed environ written firebase_apps
                       config_API_KEY config_PROJECT_ID];
                rewrite Hprinted, <- ?app_assoc; repeat split;
                first [reflexivity | assumption] ]
      | solve [ eexists _, _, h1, h2, (l1 ++ l2 ++ [warn_project]);
                (split; [reflexivity|]);
                cbn [printed environ written firebase_apps
                       config_API_KEY config_PROJECT_ID];
                rewrite Hprinted, <- ?app_assoc; repeat split;
                first [reflexivity | assumption] ]
      | solve [ eexists _, _, h1, h2, (l1 ++ l2 ++ [warn_key; warn_project]);
                (split; [reflexivity|]);
                cbn [printed environ written firebase_apps
                       config_API_KEY config_PROJECT_ID];
                rewrite Hprinted, <- ?app_assoc; repeat split;
                first [reflexivity | assumption] ] ].
Qed.

(** X17: start-up never raises.  Whatever the environment holds and
    whatever fails outside (a certificate that does not load, an app that
    does not initialise, a file that cannot be written, a credential that is
    not JSON), [configure] returns the two names, and what it prints starts
    with the server-starting line and ends with the configuration-complete
    line, which carries the project id it returns. *)
Theorem configure_completes
    (svc : Services) (platform : Platform) (fallback_api_key : str) (h : Host) :
  exists cfg h' lines,
    configure svc platform fallback_api_key h = (Return cfg, h')
    /\ printed h'
       = printed h ++ [lit "--- SERVER STARTING: CONFIGURATION PHASE ---"]
         ++ lines
         ++ [lit "--- Configuration complete. Project ID: "
             ++ config_PROJECT_ID cfg ++ lit " ---"].
Proof.
  destruct (configure_run svc platform fallback_api_key h)
    as (cfg & h' & h1 & h2 & lines & Hrun & _ & _ & _ & _ & _ & Hprinted & _).
  exists cfg, h', lines. auto.
Qed.

(** X18: each of the two names is the value of its environment variable when
    that is set and not empty, and its fallback otherwise: an empty variable
    counts as unset.  Neither depends on how the two set-up blocks fared.
    The project id is never empty, and the API key is empty only if its
    fallback is. *)
Theorem configure_names
    (svc : Services) (platform : Platform) (fallback_api_key : str) (h : Host) :
  exists cfg h',
    configure svc platform fallback_api_key h = (Return cfg, h')
    /\ config_API_KEY cfg
       = match environ h !! lit "API_KEY" with
         | Some (c :: s) => c :: s
         | _ => fallback_api_key
         end
    /\ config_PROJECT_ID cfg
       = match environ h !! lit "PROJECT_ID" with
         | Some (c :: s) => c :: s
         | _ => lit "helical-realm-472708-n9"
         end
    /\ config_PROJECT_ID cfg <> []
    /\ (fallback_api_key <> [] -> config_API_KEY cfg <> []).
Proof.
  destruct (configure_run svc platform fallback_api_key h)
    as (cfg & h' & h1 & h2 & lines & Hrun & _ & _ & _ & _ & _ & _ & Hkey & Hproject).
  exists cfg, h'. repeat split; auto.
  - rewrite Hproject.
    destruct (environ h !! lit "PROJECT_ID") as [[|c s]|]; discriminate.
  - intros Hfallback. rewrite Hkey.
    destruct (environ h !! lit "API_KEY") as [[|c s]|]; auto; discriminate.
Qed.

(** The host after [configure] and the host between its two set-up blocks. *)
Lemma configure_vision
    (svc : Services) (platform : Platform) (fallback_api_key : str) (h : Host) :
  exists cfg h' h1 h2,
    configure svc platform fallback_api_key h = (Return cfg, h')
    /\ environ h1 = environ h /\ written h1 = written h
    /\ setup_vision platform h1 = (Return tt, h2)
    /\ environ h' = environ h2 /\ written h' = written h2.
Proof.
  destruct (configure_run svc platform fallback_api_key h)
    as (cfg & h' & h1 & h2 & lines & Hrun & Hfirebase & Hvision & He & Hw & _).
  destruct (setup_firebase_run svc platform
              (snd (boot_print (lit "--- SERVER STARTING: CONFIGURATION PHASE ---") h)))
    as (h1' & l1 & Hfirebase' & _ & He1 & Hw1 & _).
  rewrite Hfirebase in Hfirebase'. apply pair_equal_spec in Hfirebase' as [_ <-].
  exists cfg, h', h1, h2. auto 10.
Qed.

(** X19: where the OCR client will look for its credentials after start-up.
    When [GOOGLE_CREDENTIALS_JSON] is set and the file can be written,
    [/tmp/credentials.json] holds exactly its value and
    [GOOGLE_APPLICATION_CREDENTIALS] names that file.  When it is unset or
    empty, [GOOGLE_APPLICATION_CREDENTIALS] names the local
    [credentials.json] and no file is written.  When it is set and the file
    cannot be opened or written, the environment is left as it was. *)
Theorem configure_vision_credentials
    (svc : Services) (platform : Platform) (fallback_api_key : str) (h h' : Host)
    (cfg : Config) :
  configure svc platform fallback_api_key h = (Return cfg, h') ->
  (forall c s,
      environ h !! lit "GOOGLE_CREDENTIALS_JSON" = Some (c :: s) ->
      open_error platform (lit "/tmp/credentials.json") = None ->
      write_error platform (lit "/tmp/credentials.json") (c :: s) = None ->
      environ h' !! lit "GOOGLE_APPLICATION_CREDENTIALS"
      = Some (lit "/tmp/credentials.json")
      /\ written h' !! lit "/tmp/credentials.json" = Some (c :: s))
  /\ (is_set (environ h !! lit "GOOGLE_CREDENTIALS_JSON") = false ->
      environ h' !! lit "GOOGLE_APPLICATION_CREDENTIALS"
      = Some (lit "credentials.json")
      /\ written h' = written h)
  /\ (forall c s,
        environ h !! lit "GOOGLE_CREDENTIALS_JSON" = Some (c :: s) ->
        open_error platform (lit "/tmp/credentials.json") <> None
        \/ write_error platform (lit "/tmp/credentials.json") (c :: s) <> None ->
        environ h' = environ h).
Proof.
  intros Hrun.
  destruct (configure_vision svc platform fallback_api_key h)
    as (cfg' & h'' & h1 & h2 & Hrun' & He1 & Hw1 & Hvision & He & Hw).
  rewrite Hrun in Hrun'. apply pair_equal_spec in Hrun' as [_ <-].
  destruct (setup_vision_run platform h1) as (h2' & l2 & Hvision' & _ & _ & Hcase).
  rewrite Hvision in Hvision'. apply pair_equal_spec in Hvision' as [_ <-].
  rewrite He1, Hw1 in Hcase. rewrite He, Hw.
  split; [|split].
  - intros c s Henv Hopen Hwrite. rewrite Henv, Hopen, Hwrite in Hcase.
    destruct Hcase as [-> ->]. split; apply lookup_insert_eq.
  - intros Hunset.
    destruct (environ h !! lit "GOOGLE_CREDENTIALS_JSON") as [[|c s]|];
      try discriminate Hunset; destruct Hcase as [-> ->];
      (split; [apply lookup_insert_eq|reflexivity]).
  - intros c s Henv Hfail. rewrite Henv in Hcase.
    destruct (open_error platform _); [apply Hcase|].
    destruct (write_error platform _ _); [apply Hcase|].
    destruct Hfail as [Hfail|Hfail]; destruct (Hfail eq_refl).
Qed.

Lemma configure_vision_credentials_witness :
  let h := StartupScenario.deployed in
  let h' := snd (configure Scenario.happy StartupScenario.sound (lit "fallback") h) in
  (forall c s,
      environ h !! lit "GOOGLE_CREDENTIALS_JSON" = Some (c :: s) ->
      open_error StartupScenario.sound (lit "/tmp/credentials.json") = None ->
      write_error StartupScenario.sound (lit "/tmp/credentials.json") (c :: s) = None ->
      environ h' !! lit "GOOGLE_APPLICATION_CREDENTIALS"
      = Some (lit "/tmp/credentials.json")
      /\ written h' !! lit "/tmp/credentials.json" = Some (c :: s))
  /\ (is_set (environ h !! lit "GOOGLE_CREDENTIALS_JSON") = false ->
      environ h' !! lit "GOOGLE_APPLICATION_CREDENTIALS"
      = Some (lit "credentials.json")
      /\ written h' = written h)
  /\ (forall c s,
        environ h !! lit "GOOGLE_CREDENTIALS_JSON" = Some (c :: s) ->
        open_error StartupScenario.sound (lit "/tmp/credentials.json") <> None
        \/ write_error StartupScenario.sound (lit "/tmp/credentials.json") (c :: s)
           <> None ->
        environ h' = environ h).
Proof.
  apply (configure_vision_credentials Scenario.happy StartupScenario.sound
           (lit "fallback") StartupScenario.deployed _
           {| config_API_KEY := lit "key-from-env";
              config_PROJECT_ID := lit "project-from-env" |}).
  vm_compute. reflexivity.
Defined.

(** X20: the only environment variable start-up sets is
    [GOOGLE_APPLICATION_CREDENTIALS], and the only file it writes is
    [/tmp/credentials.json]: every other variable and every other file is
    after start-up what it was before. *)
Theorem configure_touches_only
    (svc : Services) (platform : Platform) (fallback_api_key : str) (h : Host) :
  exists cfg h',
    configure svc platform fallback_api_key h = (Return cfg, h')
    /\ (forall name, name <> lit "GOOGLE_APPLICATION_CREDENTIALS" ->
                     environ h' !! name = environ h !! name)
    /\ (forall path, path <> lit "/tmp/credentials.json" ->
                     written h' !! path = written h !! path).
Proof.
  destruct (configure_vision svc platform fallback_api_key h)
    as (cfg & h' & h1 & h2 & Hrun & He1 & Hw1 & Hvision & He & Hw).
  exists cfg, h'. split; [exact Hrun|]. rewrite He, Hw, <- He1, <- Hw1. split.
  - intros name. apply (setup_vision_environ _ _ _ _ Hvision).
  - intros path. apply (setup_vision_written _ _ _ _ Hvision).
Qed.

(** X21: start-up registers at most one app with the identity provider's
    SDK, and none when one is registered already.  The app it registers is
    built on a certificate that loaded and initialised without error: the
    one decoded from [FIREBASE_CREDENTIALS_JSON] when that variable is set
    and not empty, the one of the local file otherwise. *)
Theorem configure_firebase_app
    (svc : Services) (platform : Platform) (fallback_api_key : str) (h : Host) :
  exists cfg h',
    configure svc platform fallback_api_key h = (Return cfg, h')
    /\ (firebase_apps h <> [] -> firebase_apps h' = firebase_apps h)
    /\ (firebase_apps h' = firebase_apps h
        \/ exists cred,
             firebase_apps h = [] /\ firebase_apps h' = [cred]
             /\ certificate_error platform cred = None
             /\ initialize_app_error platform cred = None
             /\ match environ h !! lit "FIREBASE_CREDENTIALS_JSON" with
                | Some (c :: s) =>
                    exists d, json_loads svc (c :: s) = Return d
                              /\ cred = CertificateOfDict d
                | _ => cred = CertificateOfFile (lit "firebase-admin-credentials.json")
                end).
Proof.
  destruct (configure_run svc platform fallback_api_key h)
    as (cfg & h' & h1 & h2 & lines & Hrun & Hfirebase & Hvision & _ & _ & Ha & _).
  destruct (setup_firebase_run svc platform
              (snd (boot_print (lit "--- SERVER STARTING: CONFIGURATION PHASE ---") h)))
    as (h1' & l1 & Hfirebase' & _ & _ & _ & Happs).
  rewrite Hfirebase in Hfirebase'. apply pair_equal_spec in Hfirebase' as [_ <-].
  destruct (setup_vision_run platform h1) as (h2' & l2 & Hvision' & _ & Ha2 & _).
  rewrite Hvision in Hvision'. apply pair_equal_spec in Hvision' as [_ <-].
  cbn [boot_print snd firebase_apps environ] in Happs.
  exists cfg, h'. split; [exact Hrun|]. rewrite Ha, Ha2. split; [|exact Happs].
  intros Hsome. destruct Happs as [Hsame|(cred & Hnil & _)]; [exact Hsame|].
  contradiction.
Qed.

(** X22: the key that travels in the URL of every generation call is the one
    start-up resolved: the value of [API_KEY] in the environment when it is
    set and not empty, the fallback of the source otherwise. *)
Theorem generation_call_key
    (svc : Services) (platform : Platform) (fallback_api_key : str) (h : Host)
    (prompt : str) (w : trace) :
  exists cfg h',
    configure svc platform fallback_api_key h = (Return cfg, h')
    /\ emitted (call_gemini_api (with_config cfg svc) prompt) w
       = [HttpPost
            (lit "https://generativelanguage.googleapis.com/v1beta/models/gemini-1.5-flash-latest:generateContent?key="
             ++ match environ h !! lit "API_KEY" with
                | Some (c :: s) => c :: s
                | _ => fallback_api_key
                end)
            gemini_headers (gemini_data prompt)].
Proof.
  destruct (configure_run svc platform fallback_api_key h)
    as (cfg & h' & h1 & h2 & lines & Hrun & _ & _ & _ & _ & _ & _ & Hkey & _).
  exists cfg, h'. split; [exact Hrun|].
  apply emitted_app. rewrite call_gemini_api_trace.
  unfold gemini_url, with_config. cbn [API_KEY]. rewrite Hkey.
  rewrite !app_assoc. reflexivity.
Qed.

Example configure_bare_host :
  configure Scenario.happy StartupScenario.sound (lit "fallback")
    StartupScenario.bare
  = (Return {| config_API_KEY := lit "fallback";
               config_PROJECT_ID := lit "helical-realm-472708-n9" |},
     {| environ := {[ lit "GOOGLE_APPLICATION_CREDENTIALS" := lit "credentials.json" ]};
        written := ∅;
        printed :=
          [lit "--- SERVER STARTING: CONFIGURATION PHASE ---";
           lit "Attempting to load Firebase credentials...";
           lit "INFO: FIREBASE_CREDENTIALS_JSON env var not found. Trying local file 'firebase-admin-credentials.json'...";
           lit "SUCCESS: Firebase Admin initialized.";
           lit "Attempting to load Google Cloud Vision credentials...";
           lit "INFO: GOOGLE_CREDENTIALS_JSON env var not found. Using local file 'credentials.json'...";
           lit "!!! WARNING: API_KEY environment variable not found! Using fallback for local dev.";
           lit "!!! WARNING: PROJECT_ID environment variable not found! Using fallback for local dev.";
           lit "--- Configuration complete. Project ID: helical-realm-472708-n9 ---"];
        firebase_apps :=
          [CertificateOfFile (lit "firebase-admin-credentials.json")] |}).
Proof. vm_compute. reflexivity. Qed.

Example configure_locked_host :
  configure Scenario.happy StartupScenario.locked (lit "fallback")
    StartupScenario.deployed
  = (Return {| config_API_KEY := lit "key-from-env";
               config_PROJECT_ID := lit "project-from-env" |},
     {| environ := environ StartupScenario.deployed;
        written := ∅;
        printed :=
          [lit "--- SERVER STARTING: CONFIGURATION PHASE ---";
           lit "Attempting to load Firebase credentials...";
           lit "SUCCESS: Found FIREBASE_CREDENTIALS_JSON environment variable.";
           lit "!!! FATAL ERROR INITIALIZING FIREBASE ADMIN: [Errno 13] Permission denied: '/tmp/credentials.json'";
           lit "Attempting to load Google Cloud Vision credentials...";
           lit "SUCCESS: Found GOOGLE_CREDENTIALS_JSON environment variable.";
           lit "!!! FATAL ERROR SETTING UP GOOGLE CLOUD VISION CREDS: [Errno 13] Permission denied: '/tmp/credentials.json'";
           lit "--- Configuration complete. Project ID: project-from-env ---"];
        firebase_apps := [] |}).
Proof. vm_compute. reflexivity. Qed.
